(** * uvmm passthrough devices: the Io_proxy factory and the OP-TEE device

    A shallow embedding of [io_proxy.cc] (irq binding, resource counting and
    validation, the named and the generic creation path) and of [optee.cc]
    (the shared-memory handshake and the device factory), with the
    properties the design document states about them and further
    properties read off the code; and of [add_source] of [host_dt.cc] (the
    file that holds a device tree or an overlay). *)

From Stdlib Require Import ZArith Ascii String List Lia.
From stdpp Require Import gmap strings list.

Local Open Scope Z_scope.

(** ** Error codes of l4/sys/err.h *)

Definition L4_EOK : Z := 0.
Definition L4_ENOMEM : Z := 12.
Definition L4_EEXIST : Z := 17.
Definition L4_ENODEV : Z := 19.
Definition L4_EINVAL : Z := 22.
Definition L4_ERANGE : Z := 34.

(** ** Diagnostics

    [Dbg::printf] and [Err().printf] append a record to the output; the
    record keeps the format string of the source and its arguments. *)

Inductive level := Trace | Info | Warn | Error.

Inductive arg :=
| S_ (s : string)
| X_ (z : Z).

Record diag := Diag { lvl : level; fmt : string; args : list arg }.

(** ** Exceptions: [L4::Runtime_error] carries an error number and, when
    raised through [chksys] or [chkcap], the message of the call site. *)

Record Runtime_error := Err_ { err_no : Z; err_msg : string }.

Inductive outcome (A : Type) :=
| Ret (a : A)
| Throw (e : Runtime_error)
| Diverge.

Arguments Ret {A} a.
Arguments Throw {A} e.
Arguments Diverge {A}.

(** ** The objects the factory works on *)

(** [Vdev::Irq_svr]: the forwarding endpoint over one physical line.  The
    sink is set after construction, through the pointer. *)
Record Irq_svr := mk_Irq_svr {
  get_io_irq : Z;
  svr_sink : option (nat * Z)
}.

(** What a controller holds for a line: a pointer to an [Irq_svr], or an
    [Irq_source] of another class. *)
Inductive Irq_source :=
| Src_irq_svr (p : nat)
| Src_other.

(** Calls received by the interrupt controller of the physical bus. *)
Inductive icu_event :=
| Ev_bind (io_irq : Z) (p : nat)
| Ev_unmask (p : nat).

(** [Ds_handler(ds, local_start, size, offset)] registered over the region
    [Region::ss(start, size)] or [Region(start, end)]. *)
Record mmio_dev := mk_mmio {
  region_start : Z;
  region_end : Z;
  handler_size : Z;
  handler_offset : Z
}.

Inductive l4vbus_resource_type :=
| L4VBUS_RESOURCE_INVALID
| L4VBUS_RESOURCE_IRQ
| L4VBUS_RESOURCE_MEM
| L4VBUS_RESOURCE_PORT
| L4VBUS_RESOURCE_BUS
| L4VBUS_RESOURCE_GPIO
| L4VBUS_RESOURCE_DMA_DOMAIN.

(** [l4vbus_resource_t]; [id] holds the four characters of the name. *)
Record l4vbus_resource_t := mk_res {
  res_type : l4vbus_resource_type;
  res_id : Z;
  res_start : Z;
  res_end : Z
}.

(** A slot of a bus device: the return code of [get_resource] and the
    structure it fills. *)
Record slot := mk_slot { slot_ret : Z; slot_res : l4vbus_resource_t }.

Record vbus_dev := mk_dev {
  dev_hid : string;
  dev_name : string;
  dev_slots : list slot;
  dev_proxy : bool
}.

(** The devices the two factories create: an [Io_proxy] over the io device
    of a bus device (or over a default-constructed one), or an [Optee]. *)
Inductive Device :=
| Io_proxy (io_dev : option nat)
| Optee.

(** The guest, the virtual controllers and the physical bus. *)
Record machine := mk_machine {
  heap : list Irq_svr;
  registry : list nat;
  icu : list icu_event;
  irq_sources : gmap (nat * Z) Irq_source;
  vbus_irqs : gset Z;
  vbus_bound : gset Z;
  mmio : list mmio_dev;
  devices : list vbus_dev;
  smc_handlers : list Device
}.

Record state := mk_state {
  mach : machine;
  phys_dev_prepared : bool;
  out : list diag
}.

(** ** The monad of the embedding: state, exceptions, fuel *)

Definition M (A : Type) : Type := state -> outcome A * state.

Definition ret {A} (a : A) : M A := fun s => (Ret a, s).

Definition bind {A B} (m : M A) (k : A -> M B) : M B := fun s =>
  match m s with
  | (Ret a, s') => k a s'
  | (Throw e, s') => (Throw e, s')
  | (Diverge, s') => (Diverge, s')
  end.

Declare Scope M_scope.
Delimit Scope M_scope with M.
Bind Scope M_scope with M.

Notation "'let*' x ':=' c 'in' k" := (bind c (fun x => k))
  (at level 10, x name, c at level 100, k at level 200, only parsing) : M_scope.
Notation "x ;; z" := (bind x (fun _ => z))
  (at level 100, z at level 200, only parsing, right associativity) : M_scope.

Local Open Scope M_scope.

Definition throw {A} (e : Runtime_error) : M A := fun s => (Throw e, s).
Definition diverge {A} : M A := fun s => (Diverge, s).
Definition gets {A} (f : machine -> A) : M A := fun s => (Ret (f (mach s)), s).
Definition modify (f : machine -> machine) : M unit :=
  fun s => (Ret tt, mk_state (f (mach s)) (phys_dev_prepared s) (out s)).
Definition printf (l : level) (f : string) (a : list arg) : M unit :=
  fun s => (Ret tt, mk_state (mach s) (phys_dev_prepared s) (out s ++ [Diag l f a])).

(** [L4Re::chksys]: raise when the code is negative. *)
Definition chksys (err : Z) (msg : string) : M unit :=
  if err <? 0 then throw (Err_ err msg) else ret tt.

(** [L4Re::chkcap]: raise [-L4_ENOMEM] when the capability is invalid. *)
Definition chkcap (valid : bool) (msg : string) : M unit :=
  if valid then ret tt else throw (Err_ (- L4_ENOMEM) msg).

(** Field updates. *)
Definition with_heap (h : list Irq_svr) (m : machine) : machine :=
  mk_machine h (registry m) (icu m) (irq_sources m) (vbus_irqs m)
             (vbus_bound m) (mmio m) (devices m) (smc_handlers m).
Definition with_registry (r : list nat) (m : machine) : machine :=
  mk_machine (heap m) r (icu m) (irq_sources m) (vbus_irqs m)
             (vbus_bound m) (mmio m) (devices m) (smc_handlers m).
Definition with_icu (i : list icu_event) (m : machine) : machine :=
  mk_machine (heap m) (registry m) i (irq_sources m) (vbus_irqs m)
             (vbus_bound m) (mmio m) (devices m) (smc_handlers m).
Definition with_irq_sources (t : gmap (nat * Z) Irq_source) (m : machine) : machine :=
  mk_machine (heap m) (registry m) (icu m) t (vbus_irqs m)
             (vbus_bound m) (mmio m) (devices m) (smc_handlers m).
Definition with_vbus_bound (b : gset Z) (m : machine) : machine :=
  mk_machine (heap m) (registry m) (icu m) (irq_sources m) (vbus_irqs m)
             b (mmio m) (devices m) (smc_handlers m).
Definition with_mmio (l : list mmio_dev) (m : machine) : machine :=
  mk_machine (heap m) (registry m) (icu m) (irq_sources m) (vbus_irqs m)
             (vbus_bound m) l (devices m) (smc_handlers m).
Definition with_devices (d : list vbus_dev) (m : machine) : machine :=
  mk_machine (heap m) (registry m) (icu m) (irq_sources m) (vbus_irqs m)
             (vbus_bound m) (mmio m) d (smc_handlers m).
Definition with_smc_handlers (h : list Device) (m : machine) : machine :=
  mk_machine (heap m) (registry m) (icu m) (irq_sources m) (vbus_irqs m)
             (vbus_bound m) (mmio m) (devices m) h.

(** ** The device tree node, as the factory reads it *)

(** What [Dt_node::get_reg_val] answers for one index: the return code and
    the two out-parameters. *)
Record reg_val := mk_reg { rv_ret : Z; rv_addr : Z; rv_size : Z }.

(** One entry of the interrupts of a node, as [Irq_dt_iterator::next]
    resolves it: the return code, the virtual controller the entry refers
    to (none when its interrupt parent is not a virtual controller) and the
    line number. *)
Record irq_entry := mk_irq { ie_ret : Z; ie_ic : option nat; ie_irq : Z }.

(** [L4::Arm_smccc]: the answer of a fast call (return code and the four
    result words), whether the capability is also an [L4::Icu], and the
    return code of [bind] on it. *)
Record Arm_smccc := mk_smccc {
  smc_call : Z -> Z * (Z * Z * Z * Z);
  smc_is_icu : bool;
  smc_icu_bind_ret : Z
}.

(** The node: its name, what [has_mmio_regs], [has_prop("reg")] and
    [has_irqs] answer, its reg and interrupt entries, the property
    [l4vmm,vbus-dev], and what [get_cap] answers for [l4vmm,cap] and for
    [l4vmm,dscap] (with the former as default). *)
Record Dt_node := mk_node {
  get_name : string;
  has_mmio_regs : bool;
  has_prop_reg : bool;
  regs : list reg_val;
  has_irqs : bool;
  interrupts : list irq_entry;
  prop_vbus_dev : option string;
  prop_cap : option Arm_smccc;
  prop_dscap : option nat
}.

(** Modelled from the spec: [Vdev::Irq_dt_iterator], the class declared in
    irq_dt.h.  The interrupt entries of a node are an ordered sequence
    resolved lazily: a new iterator has resolved nothing and holds no
    controller; [next] resolves the following entry and answers
    [-L4_ERANGE] past the last one. *)
Record Irq_dt_iterator := mk_it {
  it_left : list irq_entry;
  it_ic : option nat;
  it_irq : Z
}.

Definition Irq_dt_iterator_new (node : Dt_node) : Irq_dt_iterator :=
  mk_it (interrupts node) None 0.

Definition it_next (it : Irq_dt_iterator) : Z * Irq_dt_iterator :=
  match it_left it with
  | [] => (- L4_ERANGE, it)
  | e :: rest =>
      if ie_ret e <? 0 then (ie_ret e, mk_it rest (it_ic it) (it_irq it))
      else (ie_ret e, mk_it rest (ie_ic e) (ie_irq e))
  end.

Definition it_has_next (it : Irq_dt_iterator) : bool :=
  match it_left it with [] => false | _ => true end.

Definition ic_is_virt (it : Irq_dt_iterator) : bool :=
  match it_ic it with Some _ => true | None => false end.

(** ** Resource names

    [resname] reads the four bytes of [res.id] in memory order (little
    endian); [strncmp] is that of the C library. *)

Definition chr (c : ascii) : Z := Z.of_nat (nat_of_ascii c).

Definition resname (id : Z) : list Z :=
  [Z.land id 255; Z.land (Z.shiftr id 8) 255;
   Z.land (Z.shiftr id 16) 255; Z.land (Z.shiftr id 24) 255].

Fixpoint strncmp (a b : list Z) (n : nat) : Z :=
  match n with
  | O => 0
  | S n' =>
      match a, b with
      | x :: a', y :: b' =>
          if x =? y then (if x =? 0 then 0 else strncmp a' b' n') else x - y
      | x :: _, [] => x
      | [], y :: _ => - y
      | [], [] => 0
      end
  end.

Definition str_reg : list Z := [chr "r"%char; chr "e"%char; chr "g"%char; 0].
Definition str_irq : list Z := [chr "i"%char; chr "r"%char; chr "q"%char; 0].

(** [strncmp(resname, pfx, 3) || resname[3] < '0' || resname[3] > '9'] *)
Definition unrecognised (pfx : list Z) (id : Z) : bool :=
  negb (strncmp (resname id) pfx 3 =? 0)
  || (nth 3 (resname id) 0 <? chr "0"%char)
  || (chr "9"%char <? nth 3 (resname id) 0).

(** [resname[3] - '0'] *)
Definition resid_of (id : Z) : nat := Z.to_nat (nth 3 (resname id) 0 - chr "0"%char).

(** Arithmetic on [unsigned]. *)
Definition u32 (x : Z) : Z := x mod 2 ^ 32.

Section Io_proxy.

(** Answers of the services below the factory, each a function of what the
    service has seen so far: whether the registry of the guest hands out a
    valid capability for a further object, and the return code of
    [bind] on the interrupt controller of the bus. *)
Variable register_irq_obj_valid : list nat -> bool.
Variable icu_bind_ret : list icu_event -> Z -> Z.

(** *** Primitive operations on the objects *)

(** [Vdev::make_device<Vdev::Irq_svr>(io_irq)] *)
Definition make_Irq_svr (io_irq : Z) : M nat :=
  let* p := gets (fun m => length (heap m)) in
  modify (fun m => with_heap (heap m ++ [mk_Irq_svr io_irq None]) m);;
  ret p.

(** [vmm->registry()->register_irq_obj(irq_svr.get())] *)
Definition register_irq_obj (p : nat) : M bool :=
  let* ok := gets (fun m => register_irq_obj_valid (registry m)) in
  (if ok then modify (fun m => with_registry (registry m ++ [p]) m) else ret tt);;
  ret ok.

(** [vbus->icu()->bind(io_irq, irq_svr->obj_cap())] *)
Definition icu_bind (io_irq : Z) (p : nat) : M Z :=
  let* r := gets (fun m => icu_bind_ret (icu m) io_irq) in
  (if r <? 0 then ret tt
   else modify (fun m => with_icu (icu m ++ [Ev_bind io_irq p]) m));;
  ret r.

(** [irq_svr->set_sink(ic, dt_irq)] *)
Definition set_sink (p : nat) (ic : nat) (dt_irq : Z) : M unit :=
  modify (fun m =>
    match heap m !! p with
    | Some o => with_heap (<[p := mk_Irq_svr (get_io_irq o) (Some (ic, dt_irq))]> (heap m)) m
    | None => m
    end).

(** [ic->get_irq_source(dt_irq)] *)
Definition get_irq_source (ic : nat) (dt_irq : Z) : M (option Irq_source) :=
  gets (fun m => irq_sources m !! (ic, dt_irq)).

(** [ic->bind_irq_source(dt_irq, irq_svr)] *)
Definition bind_irq_source (ic : nat) (dt_irq : Z) (src : Irq_source) : M unit :=
  modify (fun m => with_irq_sources (<[(ic, dt_irq) := src]> (irq_sources m)) m).

(** [irq_svr->eoi()] *)
Definition eoi (p : nat) : M unit :=
  modify (fun m => with_icu (icu m ++ [Ev_unmask p]) m).

(** [dynamic_cast<Vdev::Irq_svr const *>(irq_source.get())] *)
Definition dynamic_cast_Irq_svr (src : option Irq_source) : M (option Irq_svr) :=
  match src with
  | Some (Src_irq_svr p) => gets (fun m => heap m !! p)
  | _ => ret None
  end.

(** *** bind_irq *)

Definition bind_irq (ic : nat) (dt_irq io_irq : Z) (dev_name : string) : M unit :=
  printf Info "IO device '%s' - registering irq 0x%x -> 0x%x"
         [S_ dev_name; X_ io_irq; X_ dt_irq];;
  let* src := get_irq_source ic dt_irq in
  match src with
  | None =>
      let* irq_svr := make_Irq_svr io_irq in
      let* cap := register_irq_obj irq_svr in
      chkcap cap "Invalid capability";;
      let* r := icu_bind io_irq irq_svr in
      chksys r "Cannot bind to IRQ";;
      set_sink irq_svr ic dt_irq;;
      bind_irq_source ic dt_irq (Src_irq_svr irq_svr);;
      eoi irq_svr
  | Some _ =>
      printf Warn "IO device '%s': irq 0x%x -> 0x%x already registered"
             [S_ dev_name; X_ io_irq; X_ dt_irq];;
      let* irq_source := get_irq_source ic dt_irq in
      let* other_svr := dynamic_cast_Irq_svr irq_source in
      match other_svr with
      | Some o =>
          if io_irq =? get_io_irq o then ret tt
          else
            printf Error
                   "bind_irq: ic:0x%x -> 0x%x -- irq already bound to different io irq: 0x%x"
                   [X_ dt_irq; X_ io_irq; X_ (get_io_irq o)];;
            throw (Err_ (- L4_EEXIST) "")
      | None =>
          printf Error "ic:0x%x is bound to a different irq type" [X_ dt_irq];;
          throw (Err_ (- L4_EEXIST) "")
      end
  end.


(** *** The constants and services declared outside the two files *)

(** The error codes of [Dt_node] (an enumeration of device_tree.h). *)
Variables ERR_BAD_INDEX ERR_RANGE ERR_NOT_TRANSLATABLE : Z.

(** The number of bits of [l4_addr_t], the type of [res.start] and
    [res.end]. *)
Variable l4_addr_bits : Z.

(** [vmm->mmio_region_valid(addr, size)], a query on the guest. *)
Variable mmio_region_valid : machine -> Z -> Z -> bool.

(** [vbus->collect_resources(devs)]. *)
Variable collect_resources : machine -> outcome unit * machine.

Definition l4_addr (x : Z) : Z := x mod 2 ^ l4_addr_bits.

(** [node.get_reg_val(index, &addr, &size)]: past the last entry the answer
    is [-ERR_BAD_INDEX]. *)
Definition get_reg_val (node : Dt_node) (index : nat) : reg_val :=
  match regs node !! index with
  | Some v => v
  | None => mk_reg (- ERR_BAD_INDEX) 0 0
  end.

(** Modelled from the spec: [irq_present] and [mark_irq_bound] of
    [Vmm::Virt_bus], the class declared in virt_bus.h.  A line is available
    when the bus offers it and it is not yet consumed; marking consumes
    it. *)
Definition line_available (m : machine) (irq : Z) : bool :=
  bool_decide (irq ∈ vbus_irqs m) && negb (bool_decide (irq ∈ vbus_bound m)).

Definition irq_present (irq : Z) : M bool :=
  gets (fun m => line_available m irq).

Definition mark_irq_bound (irq : Z) : M unit :=
  modify (fun m => with_vbus_bound ({[irq]} ∪ vbus_bound m) m).

(** Modelled from the spec: [find_unassigned_device_by_hid] of
    [Vmm::Virt_bus] and [set_proxy] of its devices, declared in virt_bus.h.
    The lookup answers the first device with the given hardware id that no
    proxy has claimed; [set_proxy] records the claim. *)
Fixpoint find_from (hid : string) (i : nat) (l : list vbus_dev) : option (nat * vbus_dev) :=
  match l with
  | [] => None
  | d :: rest =>
      if String.eqb (dev_hid d) hid && negb (dev_proxy d) then Some (i, d)
      else find_from hid (S i) rest
  end.

Definition find_unassigned_device_by_hid (hid : string) : M (option (nat * vbus_dev)) :=
  gets (fun m => find_from hid 0%nat (devices m)).

Definition set_proxy (i : nat) : M unit :=
  modify (fun m =>
    match devices m !! i with
    | Some d =>
        with_devices (<[i := mk_dev (dev_hid d) (dev_name d) (dev_slots d) true]> (devices m)) m
    | None => m
    end).

(** [vmm->add_mmio_device(region, handler)] *)
Definition add_mmio_device (d : mmio_dev) : M unit :=
  modify (fun m => with_mmio (mmio m ++ [d]) m).

(** *** num_reg_entries *)

Fixpoint num_reg_entries_loop (fuel : nat) (node : Dt_node) (num : nat) : M Z :=
  match fuel with
  | O => diverge
  | S fuel' =>
      let ret_ := rv_ret (get_reg_val node num) in
      if ret_ =? - ERR_BAD_INDEX then ret (Z.of_nat num)
      else
        (if ret_ <? 0
         then chksys (- L4_EINVAL) "Check reg descriptor in device tree."
         else ret tt);;
        num_reg_entries_loop fuel' node (S num)
  end.

Definition num_reg_entries (node : Dt_node) : M Z :=
  if negb (has_mmio_regs node) then ret 0
  else num_reg_entries_loop (S (length (regs node))) node 0%nat.

(** *** num_interrupts *)

Fixpoint num_interrupts_loop (fuel : nat) (it : Irq_dt_iterator) (num : nat) : M Z :=
  match fuel with
  | O => diverge
  | S fuel' =>
      let '(ret_, it') := it_next it in
      if ret_ =? - L4_ERANGE then ret (Z.of_nat num)
      else
        (if ret_ <? 0
         then chksys ret_ "Check interrupt descriptions in device tree"
         else ret tt);;
        num_interrupts_loop fuel' it' (S num)
  end.

Definition num_interrupts (node : Dt_node) : M Z :=
  if negb (has_irqs node) then ret 0
  else num_interrupts_loop (S (length (interrupts node))) (Irq_dt_iterator_new node) 0%nat.

(** *** F::check_regs *)

Fixpoint check_regs_loop (fuel : nat) (node : Dt_node) (index : nat) : M bool :=
  match fuel with
  | O => diverge
  | S fuel' =>
      let v := get_reg_val node index in
      let res := rv_ret v in
      if res =? 0 then
        let* valid := gets (fun m => mmio_region_valid m (rv_addr v) (rv_size v)) in
        if negb valid then ret false
        else check_regs_loop fuel' node (S index)
      else if res =? - ERR_BAD_INDEX then ret true
      else if res =? - ERR_NOT_TRANSLATABLE then check_regs_loop fuel' node (S index)
      else if res =? - ERR_RANGE then
        printf Info "Reg entry too large '%s'.reg[%d]"
               [S_ (get_name node); X_ (Z.of_nat index)];;
        ret false
      else
        printf Error "Invalid reg entry '%s'.reg[%d]: %s"
               [S_ (get_name node); X_ (Z.of_nat index); X_ res];;
        ret false
  end.

Definition check_regs (node : Dt_node) : M bool :=
  if negb (has_prop_reg node) then ret true
  else check_regs_loop (S (length (regs node))) node 0%nat.

(** *** F::check_and_bind_irqs *)

(** The first [do ... while (it.has_next())]: whether all lines are
    available. *)
Fixpoint check_irqs_loop (fuel : nat) (it : Irq_dt_iterator) : M bool :=
  match fuel with
  | O => diverge
  | S fuel' =>
      let '(ret_, it') := it_next it in
      if ret_ <? 0 then ret false
      else
        let* unavailable :=
          (if ic_is_virt it'
           then let* present := irq_present (it_irq it') in ret (negb present)
           else ret false) in
        if unavailable then ret false
        else if it_has_next it' then check_irqs_loop fuel' it'
        else ret true
  end.

(** The second loop: bind the lines. *)
Fixpoint bind_irqs_loop (fuel : nat) (node : Dt_node) (it : Irq_dt_iterator) : M unit :=
  match fuel with
  | O => diverge
  | S fuel' =>
      let '(_, it') := it_next it in
      match it_ic it' with
      | Some ic =>
          let dt_irq := it_irq it' in
          bind_irq ic dt_irq dt_irq (get_name node);;
          mark_irq_bound dt_irq
      | None => ret tt
      end;;
      if it_has_next it' then bind_irqs_loop fuel' node it' else ret tt
  end.

Definition check_and_bind_irqs (node : Dt_node) : M bool :=
  if negb (has_irqs node) then ret true
  else
    let* ok := check_irqs_loop (S (length (interrupts node))) (Irq_dt_iterator_new node) in
    if negb ok then ret false
    else
      bind_irqs_loop (S (length (interrupts node))) node (Irq_dt_iterator_new node);;
      ret true.

(** *** F::create_from_vbus_dev *)

(** [for (unsigned n = 0; n < resid; ++n) it.next(devs);] *)
Fixpoint advance (n : nat) (it : Irq_dt_iterator) : Irq_dt_iterator :=
  match n with
  | O => it
  | S n' => advance n' (snd (it_next it))
  end.

(** The loop over the resources of the bus device; the result is the pair
    of the two counters at the end of the loop.  [bind_irq] takes its two
    lines as [unsigned]: the [int dt_irq] and the [l4_addr_t res.start] of
    the call are converted. *)
Fixpoint scan_resources (node : Dt_node) (vdev : vbus_dev) (slots : list slot)
    (todo_regs todo_irqs : Z) : M (Z * Z) :=
  match slots with
  | [] => ret (todo_regs, todo_irqs)
  | sl :: rest =>
      chksys (slot_ret sl) "Cannot get resource in collect_resources";;
      let res := slot_res sl in
      match res_type res with
      | L4VBUS_RESOURCE_MEM =>
          if unrecognised str_reg (res_id res) then
            printf Warn "%s: Vbus memory resource '%.4s' has no recognisable name."
                   [S_ (get_name node); X_ (res_id res)];;
            scan_resources node vdev rest todo_regs todo_irqs
          else
            let resid := resid_of (res_id res) in
            let v := get_reg_val node resid in
            chksys (rv_ret v) "Match reg entry of device entry with vbus resource.";;
            let dtaddr := rv_addr v in
            let dtsize := rv_size v in
            (if negb (l4_addr (res_end res - res_start res + 1) =? dtsize)
             then chksys (- L4_ENOMEM)
                    "Matching resource size of VBUS resource and device tree entry"
             else ret tt);;
            printf Trace "Adding MMIO resource %s.%.4s : [0x%lx - 0x%lx] -> [0x%llx - 0x%llx]"
                   [S_ (dev_name vdev); X_ (res_id res); X_ (res_start res);
                    X_ (res_end res); X_ dtaddr; X_ (dtaddr + (dtsize - 1))];;
            add_mmio_device (mk_mmio dtaddr (dtaddr + dtsize - 1) dtsize (res_start res));;
            scan_resources node vdev rest (u32 (todo_regs - 1)) todo_irqs
      | L4VBUS_RESOURCE_IRQ =>
          if unrecognised str_irq (res_id res) then
            printf Warn "%s: Vbus memory resource '%.4s' has no recognisable name."
                   [S_ (get_name node); X_ (res_id res)];;
            scan_resources node vdev rest todo_regs todo_irqs
          else
            let resid := resid_of (res_id res) in
            (if todo_irqs <=? Z.of_nat resid then
               printf Error
                      "%s: VBUS interupts resource '%.4s' has no matching device tree entry."
                      [S_ (get_name node); X_ (res_id res)];;
               chksys (- L4_ENOMEM)
                      "Matching VBUS interrupt resources against device tree."
             else ret tt);;
            let it := advance resid (Irq_dt_iterator_new node) in
            match it_ic it with
            | Some ic =>
                let dt_irq := it_irq it in
                bind_irq ic (u32 dt_irq) (u32 (res_start res)) (get_name node)
            | None => ret tt
            end;;
            printf Trace "Registering IRQ resource %s.%.4s : 0x%lx"
                   [S_ (dev_name vdev); X_ (res_id res); X_ (res_start res)];;
            scan_resources node vdev rest todo_regs (u32 (todo_irqs - 1))
      | _ => scan_resources node vdev rest todo_regs todo_irqs
      end
  end.

Definition create_from_vbus_dev (node : Dt_node) (hid : string) : M (option Device) :=
  let* vdev := find_unassigned_device_by_hid hid in
  match vdev with
  | None =>
      printf Warn "%s: requested vbus device '%s' not available."
             [S_ (get_name node); S_ hid];;
      ret None
  | Some (i, vdev) =>
      let* todo_regs := num_reg_entries node in
      let* todo_irqs := num_interrupts node in
      let* todo := scan_resources node vdev (dev_slots vdev) todo_regs todo_irqs in
      (if 0 <? fst todo then
         printf Error "%s: not enough memory resources found in VBUS device '%s'."
                [S_ (get_name node); S_ hid];;
         chksys (- L4_EINVAL) "Match memory resources"
       else ret tt);;
      (if 0 <? snd todo then
         printf Error "%s: not enough interrupt resources found in VBUS device '%s'."
                [S_ (get_name node); S_ hid];;
         chksys (- L4_EINVAL) "Match interrupt resources"
       else ret tt);;
      let device := Io_proxy (Some i) in
      set_proxy i;;
      ret (Some device)
  end.

(** *** Io_proxy::prepare_factory and F::create *)

Definition prepare_factory : M unit :=
  (fun s =>
     let '(r, m) := collect_resources (mach s) in
     (r, mk_state m (phys_dev_prepared s) (out s)));;
  (fun s => (Ret tt, mk_state (mach s) true (out s))).

Definition create (node : Dt_node) : M (option Device) :=
  match prop_vbus_dev node with
  | Some prop => create_from_vbus_dev node prop
  | None =>
      let* prepared := (fun s => (Ret (phys_dev_prepared s), s)) in
      if negb prepared then
        printf Error
               "%s: Io_proxy::create() invoked before prepare_factory() probably invalid device tree"
               [S_ (get_name node)];;
        ret None
      else
        let* regs_ok := check_regs node in
        if negb regs_ok then ret None
        else
          let* irqs_ok := check_and_bind_irqs node in
          if negb irqs_ok then ret None
          else ret (Some (Io_proxy None))
  end.

(** *** The OP-TEE device (optee.cc) *)

Definition Smc_call_trusted_os_uid : Z := 0xbf00ff01.
Definition Smc_call_trusted_os_revision : Z := 0xbf00ff03.
Definition Optee_call_get_shm_config : Z := 0xb2000007.
Definition Optee_call_exchange_caps : Z := 0xb2000009.
Definition Optee_uuid_word0 : Z := 0x384fb3e0.
Definition Optee_uuid_word1 : Z := 0xe7f811e3.
Definition Optee_uuid_word2 : Z := 0xaf630002.
Definition Optee_uuid_word3 : Z := 0xa5d5c51b.
Definition Optee_api_major : Z := 2.
Definition Optee_api_minor : Z := 0.

(** The number of bits of [l4_umword_t], the type of the words [p[0..3]]
    the service answers with; [p[1] + p[2] - 1] is computed in it. *)
Variable l4_umword_bits : Z.

Definition l4_umword (x : Z) : Z := x mod 2 ^ l4_umword_bits.

(** [Optee::fast_call(func, out)] *)
Definition fast_call (optee : Arm_smccc) (func : Z) : Z * (Z * Z * Z * Z) :=
  smc_call optee func.

Definition map_optee_memory (optee : Arm_smccc) (iods : nat) : M Z :=
  let '(ret_, (p0, p1, p2, p3)) := fast_call optee Smc_call_trusted_os_uid in
  if (ret_ <? 0) || negb (p0 =? Optee_uuid_word0) || negb (p1 =? Optee_uuid_word1)
     || negb (p2 =? Optee_uuid_word2) || negb (p3 =? Optee_uuid_word3)
  then
    printf Warn "OP-TEE not running." [];;
    ret (- L4_ENODEV)
  else
  let '(ret_, (p0, p1, p2, p3)) := fast_call optee 0xbf00ff03 in
  if (ret_ <? 0) || negb (p0 =? Optee_api_major) || negb (p1 =? Optee_api_minor)
  then
    printf Warn "OP-TEE has wrong API (%ld.%ld). Need %x.%x."
           [X_ p0; X_ p1; X_ Optee_api_major; X_ Optee_api_minor];;
    ret (- L4_EINVAL)
  else
  let '(ret_, (p0, p1, p2, p3)) := fast_call optee 0xb2000009 in
  if (ret_ <? 0) || negb (p0 =? 0) || (Z.land p1 1 =? 0)
  then
    printf Warn "OP-TEE does not export shared memory." [];;
    ret (- L4_ENODEV)
  else
  let '(ret_, (p0, p1, p2, p3)) := fast_call optee 0xb2000007 in
  if (ret_ <? 0) || negb (p0 =? 0)
  then
    printf Warn "Failed to get shared memory configuration." [];;
    ret (- L4_ENODEV)
  else
    printf Warn "OP-TEE start = 0x%lx  size = 0x%lx" [X_ p1; X_ p2];;
    add_mmio_device (mk_mmio p1 (l4_umword (p1 + p2 - 1)) p2 p1);;
    ret L4_EOK.

(** [vmm->register_smc_handler(c)] *)
Definition register_smc_handler (c : Device) : M unit :=
  modify (fun m => with_smc_handlers (smc_handlers m ++ [c]) m).

(** [F::create] of optee.cc *)
Definition Optee_create (node : Dt_node) : M (option Device) :=
  printf Info "Create OP-TEE device" [];;
  match prop_cap node with
  | None => ret None
  | Some cap =>
      match prop_dscap node with
      | None => ret None
      | Some dscap =>
          let c := Optee in
          let* mapped := map_optee_memory cap dscap in
          if mapped <? 0 then ret None
          else
            let '(ret_, it) := it_next (Irq_dt_iterator_new node) in
            (if 0 <=? ret_ then
               if smc_is_icu cap then
                 (if negb (ic_is_virt it)
                  then chksys (- L4_EINVAL)
                         "OP-TEE device requires a virtual interrupt controller"
                  else ret tt);;
                 let* irq_svr := make_Irq_svr 0 in
                 let* valid := register_irq_obj irq_svr in
                 chkcap valid "Register IRQ handling server.";;
                 chksys (smc_icu_bind_ret cap) "Bind to IRQ to OP-TEE service.";;
                 let dt_irq := it_irq it in
                 match it_ic it with
                 | Some ic =>
                     set_sink irq_svr ic dt_irq;;
                     bind_irq_source ic dt_irq (Src_irq_svr irq_svr)
                 | None => ret tt
                 end
               else
                 printf Warn "SMC device does not support notification interrupts." []
             else ret tt);;
            register_smc_handler c;;
            ret (Some c)
      end
  end.

(** ** Sample configurations *)

(** The identifier of a resource from the four characters of its name. *)
Definition id_of (a b c d : ascii) : Z :=
  chr a + 256 * chr b + 65536 * chr c + 16777216 * chr d.

(** A registry that always hands out a capability, a controller that
    accepts every line, a controller that refuses every line. *)
Definition registry_always : list nat -> bool := fun _ => true.
Definition icu_accepts : list icu_event -> Z -> Z := fun _ _ => 0.
Definition icu_refuses : list icu_event -> Z -> Z := fun _ _ => - L4_ENODEV.

(** Positive, distinct values for the enumerators of [Dt_node]. *)
Definition sample_BAD_INDEX : Z := 18.
Definition sample_RANGE : Z := 19.
Definition sample_NOT_TRANSLATABLE : Z := 20.

(** A guest whose valid window is [0x1000, 0xffff]. *)
Definition sample_region_valid : machine -> Z -> Z -> bool :=
  fun _ addr size => (0x1000 <=? addr) && (addr + size <=? 0x10000).

Definition sample_collect : machine -> outcome unit * machine := fun m => (Ret tt, m).

Definition machine0 : machine := mk_machine [] [] [] ∅ ∅ ∅ [] [] [].
Definition state0 : state := mk_state machine0 false [].

(** A machine in which line 42 of controller 0 is bound to the physical
    line 5. *)
Definition machine_bound : machine :=
  mk_machine [mk_Irq_svr 5 (Some (0%nat, 42))] [0%nat] [Ev_bind 5 0; Ev_unmask 0]
             {[ (0%nat, 42) := Src_irq_svr 0 ]} ∅ ∅ [] [] [].
Definition state_bound : state := mk_state machine_bound false [].

(** A node with two lines of the virtual controller 0, and a bus that
    offers both lines and has the second one consumed. *)
Definition node_two_lines : Dt_node :=
  mk_node "dev" false false [] true
          [mk_irq 0 (Some 0%nat) 7; mk_irq 0 (Some 0%nat) 9] None None None.


(** A node with the one line 7 of the virtual controller 0 and no reg, and
    a prepared bus that offers the line. *)
Definition node_one_line : Dt_node :=
  mk_node "dev" false false [] true [mk_irq 0 (Some 0%nat) 7] None None None.
Definition state_prepared : state :=
  mk_state (mk_machine [] [] [] ∅ {[7]} ∅ [] [] []) true [].

(** The example of the named path: a bus device with the memory resource
    [reg0] over [0x1000, 0x1fff] and the interrupt resource [irq0] of the
    physical line 5, and a node with the reg entry (0x1000, 0x1000) and one
    interrupt entry, line 42 of the virtual controller 0. *)
Definition res_reg0 : l4vbus_resource_t :=
  mk_res L4VBUS_RESOURCE_MEM (id_of "r" "e" "g" "0") 0x1000 0x1fff.
Definition res_irq0 : l4vbus_resource_t :=
  mk_res L4VBUS_RESOURCE_IRQ (id_of "i" "r" "q" "0") 5 5.
Definition res_irq1 : l4vbus_resource_t :=
  mk_res L4VBUS_RESOURCE_IRQ (id_of "i" "r" "q" "1") 5 5.
Definition dev_example : vbus_dev :=
  mk_dev "uart" "uart0" [mk_slot 0 res_reg0; mk_slot 0 res_irq0] false.
Definition node_example : Dt_node :=
  mk_node "uart@1000" true true [mk_reg 0 0x1000 0x1000] true
          [mk_irq 0 (Some 0%nat) 42] (Some "uart") None None.
Definition state_example : state :=
  mk_state (mk_machine [] [] [] ∅ {[5]} ∅ [] [dev_example] []) false [].

(** The same device with its interrupt resource named [irq1]. *)
Definition dev_irq1 : vbus_dev :=
  mk_dev "uart" "uart0" [mk_slot 0 res_reg0; mk_slot 0 res_irq1] false.
Definition state_irq1 : state :=
  mk_state (mk_machine [] [] [] ∅ {[5]} ∅ [] [dev_irq1] []) false [].

Definition res_reg0_large : l4vbus_resource_t :=
  mk_res L4VBUS_RESOURCE_MEM (id_of "r" "e" "g" "0") 0x1000 0x2fff.
Definition dev_large : vbus_dev :=
  mk_dev "uart" "uart0" [mk_slot 0 res_reg0_large] false.
Definition node_one_reg : Dt_node :=
  mk_node "uart@1000" true true [mk_reg 0 0x1000 0x1000] false [] (Some "uart") None None.
Definition state_with (d : vbus_dev) : state :=
  mk_state (mk_machine [] [] [] ∅ ∅ ∅ [] [d] []) false [].

(** A node whose reg entries are: a valid region, one that is not
    translatable, one whose range is too large. *)
Definition node_regs : Dt_node :=
  mk_node "dev" true true
          [mk_reg 0 0x2000 0x1000; mk_reg (- sample_NOT_TRANSLATABLE) 0 0;
           mk_reg (- sample_RANGE) 0 0]
          false [] None None None.

(** A service that does not answer as OP-TEE, and a node that names it. *)
Definition smccc_silent : Arm_smccc := mk_smccc (fun _ => (- L4_ENODEV, (0, 0, 0, 0))) false 0.
Definition node_optee : Dt_node :=
  mk_node "optee" false false [] false [] None (Some smccc_silent) (Some 0%nat).

(** A service that answers as OP-TEE, with its shared memory at
    0x40000000 over 0x200000 bytes; the same service as an interrupt
    controller; nodes that name them, without an interrupt entry and with
    the entry of line 140 of the virtual controller 0. *)
Definition optee_answers (func : Z) : Z * (Z * Z * Z * Z) :=
  if func =? Smc_call_trusted_os_uid then
    (0, (Optee_uuid_word0, Optee_uuid_word1, Optee_uuid_word2, Optee_uuid_word3))
  else if func =? Smc_call_trusted_os_revision then (0, (Optee_api_major, Optee_api_minor, 0, 0))
  else if func =? Optee_call_exchange_caps then (0, (0, 1, 0, 0))
  else if func =? Optee_call_get_shm_config then (0, (0, 0x40000000, 0x200000, 0))
  else (- L4_ENODEV, (0, 0, 0, 0)).
Definition smccc_optee : Arm_smccc := mk_smccc optee_answers false 0.
Definition smccc_optee_icu : Arm_smccc := mk_smccc optee_answers true 0.
Definition node_optee_plain : Dt_node :=
  mk_node "optee" false false [] false [] None (Some smccc_optee) (Some 0%nat).
Definition node_optee_irq : Dt_node :=
  mk_node "optee" false false [] true [mk_irq 0 (Some 0%nat) 140] None
          (Some smccc_optee_icu) (Some 0%nat).

(** ** Notions the properties are stated with *)

(** [respects R m]: every run of [m] ends in a state related by [R] to the one
    it started from. *)
Definition respects {A} (R : state -> state -> Prop) (m : M A) : Prop :=
  forall s, R s (snd (m s)).

(** The machine after a first binding of [ic:dt_irq] to [io_irq]: one more
    object on the heap, registered once, bound once on the controller of the
    bus, installed as the source of the line and acknowledged once. *)
Definition bound_machine (ic : nat) (dt_irq io_irq : Z) (m : machine) : machine :=
  let p := length (heap m) in
  mk_machine (heap m ++ [mk_Irq_svr io_irq (Some (ic, dt_irq))])
             (registry m ++ [p])
             ((icu m ++ [Ev_bind io_irq p]) ++ [Ev_unmask p])
             (<[(ic, dt_irq) := Src_irq_svr p]> (irq_sources m))
             (vbus_irqs m) (vbus_bound m) (mmio m) (devices m) (smc_handlers m).

Definition diag_registering (dev : string) (dt_irq io_irq : Z) : diag :=
  Diag Info "IO device '%s' - registering irq 0x%x -> 0x%x" [S_ dev; X_ io_irq; X_ dt_irq].

Definition diag_already (dev : string) (dt_irq io_irq : Z) : diag :=
  Diag Warn "IO device '%s': irq 0x%x -> 0x%x already registered"
       [S_ dev; X_ io_irq; X_ dt_irq].

(** The diagnostics of a refused binding. *)
Definition diag_different_io (dt_irq io_irq bound_io : Z) : diag :=
  Diag Error "bind_irq: ic:0x%x -> 0x%x -- irq already bound to different io irq: 0x%x"
       [X_ dt_irq; X_ io_irq; X_ bound_io].

Definition diag_different_type (dt_irq : Z) : diag :=
  Diag Error "ic:0x%x is bound to a different irq type" [X_ dt_irq].

(** What [dynamic_cast] finds behind a source. *)
Definition as_Irq_svr (m : machine) (src : Irq_source) : option Irq_svr :=
  match src with
  | Src_irq_svr p => heap m !! p
  | Src_other => None
  end.



Definition same_flag (s s' : state) : Prop :=
  phys_dev_prepared s' = phys_dev_prepared s.

Definition diag_before_prepare (node : Dt_node) : diag :=
  Diag Error
       "%s: Io_proxy::create() invoked before prepare_factory() probably invalid device tree"
       [S_ (get_name node)].

(** A later state against an earlier one: the heap has only grown, and a
    line whose source differs from the earlier one has a forwarding endpoint
    allocated since, whose physical line is the number of the line itself
    and whose sink is that line. *)
Definition identity_bound (s s' : state) : Prop :=
  (exists ext, heap (mach s') = heap (mach s) ++ ext) /\
  forall ic l,
    irq_sources (mach s') !! (ic, l) = irq_sources (mach s) !! (ic, l) \/
    exists p, (length (heap (mach s)) <= p)%nat /\
              irq_sources (mach s') !! (ic, l) = Some (Src_irq_svr p) /\
              heap (mach s') !! p = Some (mk_Irq_svr l (Some (ic, l))).

(** [ensures P m]: from every state, [m] returns a value that satisfies [P]
    or raises; it does not run out of fuel. *)
Definition ensures {A} (P : A -> Prop) (m : M A) : Prop :=
  forall s, match fst (m s) with
            | Ret a => P a
            | Throw _ => True
            | Diverge => False
            end.

Definition any {A} (a : A) : Prop := True.

Definition same_devices (s s' : state) : Prop :=
  devices (mach s') = devices (mach s).

(** An entry the loop of [check_regs] goes past: it translates to a region
    the guest holds valid, or it is not translatable. *)
Definition reg_passes (m : machine) (v : reg_val) : bool :=
  if rv_ret v =? 0 then mmio_region_valid m (rv_addr v) (rv_size v)
  else rv_ret v =? - ERR_NOT_TRANSLATABLE.

Definition diag_too_large (node : Dt_node) (index : nat) : diag :=
  Diag Info "Reg entry too large '%s'.reg[%d]" [S_ (get_name node); X_ (Z.of_nat index)].

Definition diag_invalid (node : Dt_node) (index : nat) (res : Z) : diag :=
  Diag Error "Invalid reg entry '%s'.reg[%d]: %s"
       [S_ (get_name node); X_ (Z.of_nat index); X_ res].

(** The enumerators of [Dt_node] are positive and distinct (they label
    distinct cases of one switch, next to the case 0). *)
Definition dt_codes_distinct : Prop :=
  0 < ERR_BAD_INDEX /\ 0 < ERR_NOT_TRANSLATABLE /\ 0 < ERR_RANGE /\
  ERR_BAD_INDEX <> ERR_NOT_TRANSLATABLE /\ ERR_BAD_INDEX <> ERR_RANGE /\
  ERR_NOT_TRANSLATABLE <> ERR_RANGE.

Definition msg_match_reg : string := "Match reg entry of device entry with vbus resource.".
Definition msg_match_size : string :=
  "Matching resource size of VBUS resource and device tree entry".
Definition msg_match_irq : string := "Matching VBUS interrupt resources against device tree.".
Definition msg_memory : string := "Match memory resources".
Definition msg_interrupt : string := "Match interrupt resources".

(** The raised errors the design document calls a resource mismatch: the
    count or the size of the resources of the bus device and of the node
    disagree.  In the loop: a memory resource whose digit is past the reg
    entries of the node, a memory resource of another size than its reg
    entry, an interrupt resource whose digit is not below the number of
    interrupt entries; after the loop: a counter that is not zero. *)
Definition ResourceMismatch (e : Runtime_error) : Prop :=
  e = Err_ (- ERR_BAD_INDEX) msg_match_reg \/
  e = Err_ (- L4_ENOMEM) msg_match_size \/
  e = Err_ (- L4_ENOMEM) msg_match_irq \/
  e = Err_ (- L4_EINVAL) msg_memory \/
  e = Err_ (- L4_EINVAL) msg_interrupt.




(** The part of [create_from_vbus_dev] after the loop over the resources. *)
Definition finish (node : Dt_node) (hid : string) (i : nat) (todo : Z * Z)
  : M (option Device) :=
  (if 0 <? fst todo then
     printf Error "%s: not enough memory resources found in VBUS device '%s'."
            [S_ (get_name node); S_ hid];;
     chksys (- L4_EINVAL) "Match memory resources"
   else ret tt);;
  (if 0 <? snd todo then
     printf Error "%s: not enough interrupt resources found in VBUS device '%s'."
            [S_ (get_name node); S_ hid];;
     chksys (- L4_EINVAL) "Match interrupt resources"
   else ret tt);;
  set_proxy i;;
  ret (Some (Io_proxy (Some i))).



(** The steps of the handshake of [map_optee_memory], each the negation of
    the condition under which the source gives up: the service answers with
    the identifier of OP-TEE; it has the required version of the interface;
    it exports shared memory; it tells the configuration of that memory. *)
Definition uid_ok (optee : Arm_smccc) : bool :=
  let '(ret_, (p0, p1, p2, p3)) := fast_call optee Smc_call_trusted_os_uid in
  negb ((ret_ <? 0) || negb (p0 =? Optee_uuid_word0) || negb (p1 =? Optee_uuid_word1)
        || negb (p2 =? Optee_uuid_word2) || negb (p3 =? Optee_uuid_word3)).

Definition revision_ok (optee : Arm_smccc) : bool :=
  let '(ret_, (p0, p1, p2, p3)) := fast_call optee Smc_call_trusted_os_revision in
  negb ((ret_ <? 0) || negb (p0 =? Optee_api_major) || negb (p1 =? Optee_api_minor)).

Definition exports_ok (optee : Arm_smccc) : bool :=
  let '(ret_, (p0, p1, p2, p3)) := fast_call optee Optee_call_exchange_caps in
  negb ((ret_ <? 0) || negb (p0 =? 0) || (Z.land p1 1 =? 0)).

Definition shm_config_ok (optee : Arm_smccc) : bool :=
  let '(ret_, (p0, p1, p2, p3)) := fast_call optee Optee_call_get_shm_config in
  negb ((ret_ <? 0) || negb (p0 =? 0)).

Definition handshake_ok (optee : Arm_smccc) : bool :=
  uid_ok optee && revision_ok optee && exports_ok optee && shm_config_ok optee.

Definition diag_create_optee : diag := Diag Info "Create OP-TEE device" [].

Definition diag_registering_irq (vdev : vbus_dev) (res : l4vbus_resource_t) : diag :=
  Diag Trace "Registering IRQ resource %s.%.4s : 0x%lx"
       [S_ (dev_name vdev); X_ (res_id res); X_ (res_start res)].

(** *** Notions of the further properties *)

(** The identifier whose four bytes, in memory order, are [a], [b], [c] and
    the digit [k]. *)
Definition name_id (a b c : Z) (k : nat) : Z :=
  a + 256 * b + 65536 * c + 16777216 * (chr "0"%char + Z.of_nat k).

Definition msg_check_reg : string := "Check reg descriptor in device tree.".
Definition msg_check_irq : string := "Check interrupt descriptions in device tree".

(** A later state against an earlier one: every line that had a source has
    the same source, every endpoint is where it was and as it was, every
    region of the guest and every registration is still there, and every
    line of the bus that was marked is still marked. *)
Definition persists (s s' : state) : Prop :=
  (forall k src, irq_sources (mach s) !! k = Some src ->
                 irq_sources (mach s') !! k = Some src) /\
  (forall p o, heap (mach s) !! p = Some o -> heap (mach s') !! p = Some o) /\
  (exists ext, registry (mach s') = registry (mach s) ++ ext) /\
  (exists ext, mmio (mach s') = mmio (mach s) ++ ext) /\
  vbus_bound (mach s) ⊆ vbus_bound (mach s').

Definition generic_frame (s s' : state) : Prop :=
  mmio (mach s') = mmio (mach s) /\
  devices (mach s') = devices (mach s) /\
  vbus_irqs (mach s') = vbus_irqs (mach s) /\
  smc_handlers (mach s') = smc_handlers (mach s).


(** The region the loop registers for a slot: one for a memory resource
    with a recognised name, at the address and with the size of the reg
    entry its digit selects, over the offset [res.start]; none otherwise. *)
Definition mmio_of (node : Dt_node) (sl : slot) : list mmio_dev :=
  match res_type (slot_res sl) with
  | L4VBUS_RESOURCE_MEM =>
      if unrecognised str_reg (res_id (slot_res sl)) then []
      else
        let v := get_reg_val node (resid_of (res_id (slot_res sl))) in
        [mk_mmio (rv_addr v) (rv_addr v + rv_size v - 1) (rv_size v)
                 (res_start (slot_res sl))]
  | _ => []
  end.

(** The number of slots the loop counts as memory resources, and as
    interrupt resources. *)
Definition counts_mem (sl : slot) : bool :=
  match res_type (slot_res sl) with
  | L4VBUS_RESOURCE_MEM => negb (unrecognised str_reg (res_id (slot_res sl)))
  | _ => false
  end.

Definition counts_irq (sl : slot) : bool :=
  match res_type (slot_res sl) with
  | L4VBUS_RESOURCE_IRQ => negb (unrecognised str_irq (res_id (slot_res sl)))
  | _ => false
  end.

Definition count_of (f : slot -> bool) (slots : list slot) : Z :=
  Z.of_nat (length (filter (fun sl => f sl = true) slots)).

Definition diag_not_available (node : Dt_node) (hid : string) : diag :=
  Diag Warn "%s: requested vbus device '%s' not available." [S_ (get_name node); S_ hid].

Definition claimed (m : machine) (i : nat) : Prop :=
  exists d, devices m !! i = Some d /\ dev_proxy d = true.

Definition claims_kept (s s' : state) : Prop :=
  forall i, claimed (mach s) i -> claimed (mach s') i.

(** The region the service reports: words 1 and 2 of the answer to
    [Optee_call_get_shm_config] are its start and its size. *)
Definition optee_region (optee : Arm_smccc) : mmio_dev :=
  let '(_, (_, p1, p2, _)) := fast_call optee Optee_call_get_shm_config in
  mk_mmio p1 (l4_umword (p1 + p2 - 1)) p2 p1.

Definition diag_optee_start (optee : Arm_smccc) : diag :=
  let '(_, (_, p1, p2, _)) := fast_call optee Optee_call_get_shm_config in
  Diag Warn "OP-TEE start = 0x%lx  size = 0x%lx" [X_ p1; X_ p2].

Definition diag_optee_api (optee : Arm_smccc) : diag :=
  let '(_, (p0, p1, _, _)) := fast_call optee Smc_call_trusted_os_revision in
  Diag Warn "OP-TEE has wrong API (%ld.%ld). Need %x.%x."
       [X_ p0; X_ p1; X_ Optee_api_major; X_ Optee_api_minor].

Definition warned (s : state) (d : diag) : state :=
  mk_state (mach s) (phys_dev_prepared s) (out s ++ [d]).

(** The state after the region of the service has been registered. *)
Definition optee_mapped (optee : Arm_smccc) (s : state) : state :=
  mk_state (with_mmio (mmio (mach s) ++ [optee_region optee]) (mach s))
           (phys_dev_prepared s) (out s ++ [diag_optee_start optee]).

Definition diag_no_notification : diag :=
  Diag Warn "SMC device does not support notification interrupts." [].

Definition with_handler (s : state) : state :=
  mk_state (with_smc_handlers (smc_handlers (mach s) ++ [Optee]) (mach s))
           (phys_dev_prepared s) (out s).

Definition msg_optee_virt : string :=
  "OP-TEE device requires a virtual interrupt controller".

(** ** Properties *)

(** Unfold the monad and reduce the projections of the state. *)
Ltac msimpl :=
  unfold bind, ret, gets, modify, printf, throw, diverge, chksys, chkcap;
  cbn [mach phys_dev_prepared out fst snd
       heap registry icu irq_sources vbus_irqs vbus_bound mmio devices smc_handlers
       with_heap with_registry with_icu with_irq_sources with_vbus_bound with_mmio
       with_devices with_smc_handlers].

(** *** Lists used as a heap *)

Lemma lookup_snoc_new {A} (l : list A) (x : A) : (l ++ [x]) !! length l = Some x.
Proof.
  apply lookup_snoc_Some. right. split; reflexivity.
Qed.

Lemma insert_snoc_new {A} (l : list A) (x y : A) :
  <[length l := y]> (l ++ [x]) = l ++ [y].
Proof.
  rewrite (insert_app_r_alt l [x] (length l) y) by reflexivity.
  rewrite Nat.sub_diag. reflexivity.
Qed.

(** *** bind_irq *)

Lemma bind_irq_fresh ic dt_irq io_irq dev s :
  irq_sources (mach s) !! (ic, dt_irq) = None ->
  register_irq_obj_valid (registry (mach s)) = true ->
  0 <= icu_bind_ret (icu (mach s)) io_irq ->
  bind_irq ic dt_irq io_irq dev s =
    (Ret tt, mk_state (bound_machine ic dt_irq io_irq (mach s)) (phys_dev_prepared s)
                      (out s ++ [diag_registering dev dt_irq io_irq])).
Proof.
  intros Hnone Hreg Hicu.
  unfold bind_irq, bind, printf, get_irq_source, gets. simpl.
  rewrite Hnone.
  unfold make_Irq_svr, register_irq_obj, icu_bind, chkcap, chksys, set_sink,
    bind_irq_source, eoi, bind, gets, modify, ret. simpl.
  rewrite Hreg. simpl.
  apply Z.ltb_ge in Hicu. rewrite Hicu. simpl. rewrite Hicu. simpl.
  rewrite lookup_snoc_new. simpl. rewrite insert_snoc_new.
  reflexivity.
Qed.

Lemma bind_irq_same ic dt_irq io_irq dev s p o :
  irq_sources (mach s) !! (ic, dt_irq) = Some (Src_irq_svr p) ->
  heap (mach s) !! p = Some o ->
  get_io_irq o = io_irq ->
  bind_irq ic dt_irq io_irq dev s =
    (Ret tt, mk_state (mach s) (phys_dev_prepared s)
                      (out s ++ [diag_registering dev dt_irq io_irq]
                             ++ [diag_already dev dt_irq io_irq])).
Proof.
  intros Hsrc Hheap Hio.
  unfold bind_irq, bind, printf, get_irq_source, gets. simpl.
  rewrite Hsrc. simpl. rewrite Hsrc. simpl. rewrite Hheap.
  rewrite Hio, Z.eqb_refl. unfold ret.
  rewrite <- app_assoc. reflexivity.
Qed.

(** A first call for which the registry hands out no capability: the
    endpoint is allocated, and nothing is registered or bound. *)
Lemma bind_irq_no_cap ic dt_irq io_irq dev s :
  irq_sources (mach s) !! (ic, dt_irq) = None ->
  register_irq_obj_valid (registry (mach s)) = false ->
  bind_irq ic dt_irq io_irq dev s =
    (Throw (Err_ (- L4_ENOMEM) "Invalid capability"),
     mk_state (with_heap (heap (mach s) ++ [mk_Irq_svr io_irq None]) (mach s))
              (phys_dev_prepared s) (out s ++ [diag_registering dev dt_irq io_irq])).
Proof.
  intros Hnone Hreg.
  unfold bind_irq, get_irq_source. msimpl. rewrite Hnone.
  unfold make_Irq_svr, register_irq_obj. msimpl. rewrite Hreg. reflexivity.
Qed.

(** A first call for which the controller of the bus refuses the line: the
    endpoint is allocated and registered, and the line has no source. *)
Lemma bind_irq_not_bound ic dt_irq io_irq dev s :
  irq_sources (mach s) !! (ic, dt_irq) = None ->
  register_irq_obj_valid (registry (mach s)) = true ->
  icu_bind_ret (icu (mach s)) io_irq < 0 ->
  bind_irq ic dt_irq io_irq dev s =
    (Throw (Err_ (icu_bind_ret (icu (mach s)) io_irq) "Cannot bind to IRQ"),
     mk_state (with_registry (registry (mach s) ++ [length (heap (mach s))])
                 (with_heap (heap (mach s) ++ [mk_Irq_svr io_irq None]) (mach s)))
              (phys_dev_prepared s) (out s ++ [diag_registering dev dt_irq io_irq])).
Proof.
  intros Hnone Hreg Hicu.
  unfold bind_irq, get_irq_source. msimpl. rewrite Hnone.
  unfold make_Irq_svr, register_irq_obj, icu_bind. msimpl. rewrite Hreg. msimpl.
  apply Z.ltb_lt in Hicu. rewrite Hicu. msimpl. rewrite Hicu. reflexivity.
Qed.

(** C1, as amended.  Binding is idempotent where it succeeds.  With no
    source bound to [ic:dt_irq], a first call returns exactly when the
    registry of the guest hands out a capability for the new endpoint and
    the controller of the bus accepts the line.  It then leaves exactly one
    new forwarding endpoint over [io_irq]: allocated, registered once, bound
    once, installed as the source of the line; and a second call with the
    same controller and lines returns as well and leaves the machine as it
    is, so that after both calls the registry holds the one new endpoint and
    nothing else new.  When the registry hands out no capability the first
    call raises [-L4_ENOMEM], and when the controller refuses the line it
    raises the code of the controller; in both cases the line is left
    without a source. *)
Theorem bind_irq_idempotent ic dt_irq io_irq dev dev' s :
  irq_sources (mach s) !! (ic, dt_irq) = None ->
  (register_irq_obj_valid (registry (mach s)) = true ->
   0 <= icu_bind_ret (icu (mach s)) io_irq ->
   exists s1 s2,
     bind_irq ic dt_irq io_irq dev s = (Ret tt, s1) /\
     bind_irq ic dt_irq io_irq dev' s1 = (Ret tt, s2) /\
     mach s1 = bound_machine ic dt_irq io_irq (mach s) /\
     mach s2 = mach s1 /\
     registry (mach s2) = registry (mach s) ++ [length (heap (mach s))] /\
     heap (mach s2) !! length (heap (mach s))
     = Some (mk_Irq_svr io_irq (Some (ic, dt_irq))) /\
     length (registry (mach s2)) = S (length (registry (mach s)))) /\
  (register_irq_obj_valid (registry (mach s)) = false ->
   exists s1,
     bind_irq ic dt_irq io_irq dev s
     = (Throw (Err_ (- L4_ENOMEM) "Invalid capability"), s1) /\
     irq_sources (mach s1) !! (ic, dt_irq) = None /\
     registry (mach s1) = registry (mach s) /\
     icu (mach s1) = icu (mach s)) /\
  (register_irq_obj_valid (registry (mach s)) = true ->
   icu_bind_ret (icu (mach s)) io_irq < 0 ->
   exists s1,
     bind_irq ic dt_irq io_irq dev s
     = (Throw (Err_ (icu_bind_ret (icu (mach s)) io_irq) "Cannot bind to IRQ"), s1) /\
     irq_sources (mach s1) !! (ic, dt_irq) = None /\
     icu (mach s1) = icu (mach s)) /\
  (forall s1,
     bind_irq ic dt_irq io_irq dev s = (Ret tt, s1) ->
     register_irq_obj_valid (registry (mach s)) = true /\
     0 <= icu_bind_ret (icu (mach s)) io_irq).
Proof.
  intros Hnone.
  assert (Hno : register_irq_obj_valid (registry (mach s)) = false ->
                exists s1,
                  bind_irq ic dt_irq io_irq dev s
                  = (Throw (Err_ (- L4_ENOMEM) "Invalid capability"), s1) /\
                  irq_sources (mach s1) !! (ic, dt_irq) = None /\
                  registry (mach s1) = registry (mach s) /\
                  icu (mach s1) = icu (mach s)).
  { intros Hreg. eexists. split; [apply bind_irq_no_cap; assumption|].
    cbn. repeat split. exact Hnone. }
  assert (Hrefuse : register_irq_obj_valid (registry (mach s)) = true ->
                    icu_bind_ret (icu (mach s)) io_irq < 0 ->
                    exists s1,
                      bind_irq ic dt_irq io_irq dev s
                      = (Throw (Err_ (icu_bind_ret (icu (mach s)) io_irq)
                                     "Cannot bind to IRQ"), s1) /\
                      irq_sources (mach s1) !! (ic, dt_irq) = None /\
                      icu (mach s1) = icu (mach s)).
  { intros Hreg Hicu. eexists. split; [apply bind_irq_not_bound; assumption|].
    cbn. repeat split. exact Hnone. }
  split; [|split; [exact Hno|split; [exact Hrefuse|]]].
  - intros Hreg Hicu.
    eexists _, _. split; [apply bind_irq_fresh; assumption|].
    split.
    + eapply bind_irq_same; simpl.
      * apply lookup_insert_eq.
      * apply lookup_snoc_new.
      * reflexivity.
    + simpl. repeat split.
      * apply lookup_snoc_new.
      * rewrite length_app. simpl. lia.
  - intros s1 Hrun.
    destruct (register_irq_obj_valid (registry (mach s))) eqn:Hreg.
    + split; [reflexivity|].
      destruct (Z.lt_ge_cases (icu_bind_ret (icu (mach s)) io_irq) 0) as [Hlt|Hge];
        [|exact Hge].
      destruct (Hrefuse eq_refl Hlt) as (s1' & Hthrow & _).
      rewrite Hthrow in Hrun. discriminate Hrun.
    + destruct (Hno eq_refl) as (s1' & Hthrow & _).
      rewrite Hthrow in Hrun. discriminate Hrun.
Qed.

(** C2.  A call for a line that already has a source which is a forwarding
    endpoint over another physical line raises [Runtime_error(-L4_EEXIST)];
    the error diagnostic carries the line of the controller, the requested
    physical line and the bound physical line.  A source of another class
    raises the same error.  In both cases the machine, hence the binding of
    the line, is as before. *)
Theorem bind_irq_conflict ic dt_irq io_irq dev s src :
  irq_sources (mach s) !! (ic, dt_irq) = Some src ->
  (forall o, as_Irq_svr (mach s) src = Some o -> get_io_irq o <> io_irq) ->
  exists d,
    bind_irq ic dt_irq io_irq dev s =
      (Throw (Err_ (- L4_EEXIST) ""),
       mk_state (mach s) (phys_dev_prepared s)
                (out s ++ [diag_registering dev dt_irq io_irq;
                           diag_already dev dt_irq io_irq; d])) /\
    d = match as_Irq_svr (mach s) src with
        | Some o => diag_different_io dt_irq io_irq (get_io_irq o)
        | None => diag_different_type dt_irq
        end /\
    irq_sources (mach s) !! (ic, dt_irq) = Some src.
Proof.
  intros Hsrc Hdiff.
  eexists. split; [|split; [reflexivity|exact Hsrc]].
  unfold bind_irq, bind, printf, get_irq_source, gets. simpl.
  rewrite Hsrc. simpl. rewrite Hsrc.
  destruct src as [p|]; simpl.
  - destruct (heap (mach s) !! p) as [o|] eqn:Hheap; simpl.
    + specialize (Hdiff o Hheap).
      destruct (io_irq =? get_io_irq o) eqn:E.
      * apply Z.eqb_eq in E. congruence.
      * unfold throw. simpl. repeat rewrite <- app_assoc. reflexivity.
    + unfold ret, throw. simpl. repeat rewrite <- app_assoc. reflexivity.
  - unfold ret, throw. simpl. repeat rewrite <- app_assoc. reflexivity.
Qed.

(** *** Relations every step of a computation keeps *)

Section Respects.

Variable R : state -> state -> Prop.
Hypothesis R_refl : forall s, R s s.
Hypothesis R_trans : forall a b c, R a b -> R b c -> R a c.
Hypothesis R_out :
  forall s d, R s (mk_state (mach s) (phys_dev_prepared s) (out s ++ [d])).

Lemma respects_ret {A} (a : A) : respects R (ret a).
Proof. intros s. apply R_refl. Qed.

Lemma respects_throw {A} e : respects R (@throw A e).
Proof. intros s. apply R_refl. Qed.

Lemma respects_diverge {A} : respects R (@diverge A).
Proof. intros s. apply R_refl. Qed.

Lemma respects_gets {A} (f : machine -> A) : respects R (gets f).
Proof. intros s. apply R_refl. Qed.

Lemma respects_printf l f a : respects R (printf l f a).
Proof. intros s. apply R_out. Qed.

Lemma respects_bind {A B} (m : M A) (k : A -> M B) :
  respects R m -> (forall a, respects R (k a)) -> respects R (bind m k).
Proof.
  intros Hm Hk s. unfold bind.
  specialize (Hm s). destruct (m s) as [[a|e|] s']; simpl in *; try exact Hm.
  eapply R_trans; [exact Hm|apply Hk].
Qed.

Lemma respects_chksys err msg : respects R (chksys err msg).
Proof. unfold chksys. destruct (err <? 0); [apply respects_throw|apply respects_ret]. Qed.

Lemma respects_chkcap v msg : respects R (chkcap v msg).
Proof. unfold chkcap. destruct v; [apply respects_ret|apply respects_throw]. Qed.

Lemma respects_if {A} (b : bool) (m1 m2 : M A) :
  respects R m1 -> respects R m2 -> respects R (if b then m1 else m2).
Proof. destruct b; auto. Qed.

(** Changes of the machine that leave the device table of the bus as it
    is. *)
Hypothesis R_mach :
  forall s m', devices m' = devices (mach s) ->
               R s (mk_state m' (phys_dev_prepared s) (out s)).

Lemma respects_modify (f : machine -> machine) :
  (forall m, devices (f m) = devices m) -> respects R (modify f).
Proof. intros Hf s. apply R_mach. apply Hf. Qed.

Lemma respects_set_sink p ic dt_irq : respects R (set_sink p ic dt_irq).
Proof.
  apply respects_modify. intros m. destruct (heap m !! p); reflexivity.
Qed.

Lemma respects_make_Irq_svr io_irq : respects R (make_Irq_svr io_irq).
Proof.
  unfold make_Irq_svr.
  apply respects_bind; [apply respects_gets|intros p].
  apply respects_bind; [apply respects_modify; reflexivity|intros; apply respects_ret].
Qed.

Lemma respects_register_irq_obj p : respects R (register_irq_obj p).
Proof.
  unfold register_irq_obj.
  apply respects_bind; [apply respects_gets|intros ok].
  apply respects_bind; [|intros; apply respects_ret].
  apply respects_if; [apply respects_modify; reflexivity|apply respects_ret].
Qed.

Lemma respects_icu_bind io_irq p : respects R (icu_bind io_irq p).
Proof.
  unfold icu_bind.
  apply respects_bind; [apply respects_gets|intros r].
  apply respects_bind; [|intros; apply respects_ret].
  apply respects_if; [apply respects_ret|apply respects_modify; reflexivity].
Qed.

Lemma respects_bind_irq ic dt_irq io_irq dev : respects R (bind_irq ic dt_irq io_irq dev).
Proof.
  unfold bind_irq.
  apply respects_bind; [apply respects_printf|intros _].
  apply respects_bind; [apply respects_gets|intros src].
  destruct src as [src|].
  - apply respects_bind; [apply respects_printf|intros _].
    apply respects_bind; [apply respects_gets|intros src'].
    apply respects_bind.
    { unfold dynamic_cast_Irq_svr. destruct src' as [[p|]|];
        [apply respects_gets|apply respects_ret|apply respects_ret]. }
    intros [o|].
    + apply respects_if; [apply respects_ret|].
      apply respects_bind; [apply respects_printf|intros; apply respects_throw].
    + apply respects_bind; [apply respects_printf|intros; apply respects_throw].
  - apply respects_bind; [apply respects_make_Irq_svr|intros p].
    apply respects_bind; [apply respects_register_irq_obj|intros cap].
    apply respects_bind; [apply respects_chkcap|intros _].
    apply respects_bind; [apply respects_icu_bind|intros r].
    apply respects_bind; [apply respects_chksys|intros _].
    apply respects_bind; [apply respects_set_sink|intros _].
    apply respects_bind; [|intros _].
    { unfold bind_irq_source. apply respects_modify. reflexivity. }
    unfold eoi. apply respects_modify. reflexivity.
Qed.

Lemma respects_num_reg_entries node : respects R (num_reg_entries node).
Proof.
  unfold num_reg_entries. apply respects_if; [apply respects_ret|].
  generalize (S (length (regs node))) as fuel. generalize 0%nat as num.
  intros num fuel. revert num.
  induction fuel as [|fuel IH]; intros num; simpl; [apply respects_diverge|].
  apply respects_if; [apply respects_ret|].
  apply respects_bind; [|intros; apply IH].
  apply respects_if; [apply respects_chksys|apply respects_ret].
Qed.

Lemma respects_num_interrupts node : respects R (num_interrupts node).
Proof.
  unfold num_interrupts. apply respects_if; [apply respects_ret|].
  generalize (S (length (interrupts node))) as fuel.
  generalize (Irq_dt_iterator_new node) as it. generalize 0%nat as num.
  intros num it fuel. revert num it.
  induction fuel as [|fuel IH]; intros num it; simpl; [apply respects_diverge|].
  destruct (it_next it) as [r it'].
  apply respects_if; [apply respects_ret|].
  apply respects_bind; [|intros; apply IH].
  apply respects_if; [apply respects_chksys|apply respects_ret].
Qed.

Lemma respects_check_regs node : respects R (check_regs node).
Proof.
  unfold check_regs. apply respects_if; [apply respects_ret|].
  generalize (S (length (regs node))) as fuel. generalize 0%nat as index.
  intros index fuel. revert index.
  induction fuel as [|fuel IH]; intros index; simpl; [apply respects_diverge|].
  repeat first
    [ apply IH
    | apply respects_if
    | apply respects_bind; [|intros]
    | apply respects_printf | apply respects_gets | apply respects_ret ].
Qed.

Lemma respects_check_irqs_loop fuel it : respects R (check_irqs_loop fuel it).
Proof.
  revert it. induction fuel as [|fuel IH]; intros it; simpl; [apply respects_diverge|].
  destruct (it_next it) as [r it'].
  unfold irq_present.
  repeat first
    [ apply IH
    | apply respects_if
    | apply respects_bind; [|intros]
    | apply respects_gets | apply respects_ret ].
Qed.

Lemma respects_mark_irq_bound irq : respects R (mark_irq_bound irq).
Proof. apply respects_modify. reflexivity. Qed.

Lemma respects_bind_irqs_loop fuel node it : respects R (bind_irqs_loop fuel node it).
Proof.
  revert it. induction fuel as [|fuel IH]; intros it; simpl; [apply respects_diverge|].
  destruct (it_next it) as [r it'].
  apply respects_bind; [|intros; apply respects_if; [apply IH|apply respects_ret]].
  destruct (it_ic it'); [|apply respects_ret].
  apply respects_bind; [apply respects_bind_irq|intros; apply respects_mark_irq_bound].
Qed.

Lemma respects_check_and_bind_irqs node : respects R (check_and_bind_irqs node).
Proof.
  unfold check_and_bind_irqs. apply respects_if; [apply respects_ret|].
  apply respects_bind; [apply respects_check_irqs_loop|intros ok].
  apply respects_if; [apply respects_ret|].
  apply respects_bind; [apply respects_bind_irqs_loop|intros; apply respects_ret].
Qed.

Lemma respects_scan_resources node vdev slots tr ti :
  respects R (scan_resources node vdev slots tr ti).
Proof.
  revert tr ti. induction slots as [|sl rest IH]; intros tr ti; cbn [scan_resources];
    [apply respects_ret|].
  apply respects_bind; [apply respects_chksys|intros _].
  destruct (res_type (slot_res sl)); try apply IH.
  - apply respects_if.
    + apply respects_bind; [apply respects_printf|intros; apply IH].
    + apply respects_bind; [|intros _].
      { apply respects_if; [|apply respects_ret].
        apply respects_bind; [apply respects_printf|intros; apply respects_chksys]. }
      apply respects_bind; [|intros _].
      { destruct (it_ic _); [apply respects_bind_irq|apply respects_ret]. }
      apply respects_bind; [apply respects_printf|intros; apply IH].
  - apply respects_if.
    + apply respects_bind; [apply respects_printf|intros; apply IH].
    + apply respects_bind; [apply respects_chksys|intros _].
      apply respects_bind; [|intros _].
      { apply respects_if; [apply respects_chksys|apply respects_ret]. }
      apply respects_bind; [apply respects_printf|intros _].
      apply respects_bind; [|intros; apply IH].
      unfold add_mmio_device. apply respects_modify. reflexivity.
Qed.

End Respects.

(** *** check_and_bind_irqs: the two passes *)



(** *** The flag set by prepare_factory *)

Lemma same_flag_trans a b c : same_flag a b -> same_flag b c -> same_flag a c.
Proof. unfold same_flag. congruence. Qed.

Lemma create_keeps_flag node : respects same_flag (create node).
Proof.
  assert (Hrefl : forall s, same_flag s s) by reflexivity.
  assert (Hout : forall s d,
             same_flag s (mk_state (mach s) (phys_dev_prepared s) (out s ++ [d])))
    by reflexivity.
  assert (Hmach : forall s m', devices m' = devices (mach s) ->
             same_flag s (mk_state m' (phys_dev_prepared s) (out s)))
    by reflexivity.
  pose proof same_flag_trans as Htrans.
  unfold create. destruct (prop_vbus_dev node) as [hid|].
  - unfold create_from_vbus_dev, find_unassigned_device_by_hid.
    apply respects_bind; [assumption|apply respects_gets; assumption|intros [[i vdev]|]].
    + apply respects_bind; [assumption|apply respects_num_reg_entries; assumption|intros tr].
      apply respects_bind; [assumption|apply respects_num_interrupts; assumption|intros ti].
      apply respects_bind; [assumption|apply respects_scan_resources; assumption|intros todo].
      apply respects_bind; [assumption| |intros _].
      { apply respects_if; [|apply respects_ret; assumption].
        apply respects_bind; [assumption|apply respects_printf; assumption|].
        intros; apply respects_chksys; assumption. }
      apply respects_bind; [assumption| |intros _].
      { apply respects_if; [|apply respects_ret; assumption].
        apply respects_bind; [assumption|apply respects_printf; assumption|].
        intros; apply respects_chksys; assumption. }
      apply respects_bind; [assumption| |intros; apply respects_ret; assumption].
      intros s. reflexivity.
    + apply respects_bind; [assumption|apply respects_printf; assumption|].
      intros; apply respects_ret; assumption.
  - apply respects_bind; [assumption|intros s; reflexivity|intros prepared].
    apply respects_if.
    + apply respects_bind; [assumption|apply respects_printf; assumption|].
      intros; apply respects_ret; assumption.
    + apply respects_bind; [assumption|apply respects_check_regs; assumption|intros ok].
      apply respects_if; [apply respects_ret; assumption|].
      apply respects_bind; [assumption|apply respects_check_and_bind_irqs; assumption|].
      intros ok'. apply respects_if; apply respects_ret; assumption.
Qed.

(** C8.  For a node without the property [l4vmm,vbus-dev]: while the flag
    of [prepare_factory] is not set, [create] returns no device, without an
    exception and without touching the machine, and reports the call before
    [prepare_factory] as an error; once it is set, [create] goes on to
    [check_regs] and [check_and_bind_irqs].  [prepare_factory] sets the flag
    when [collect_resources] returns, and no call of [create], on either
    path and whatever its outcome, clears it. *)
Theorem create_requires_prepare node s :
  prop_vbus_dev node = None ->
  (phys_dev_prepared s = false ->
   create node s =
     (Ret None, mk_state (mach s) false (out s ++ [diag_before_prepare node]))) /\
  (phys_dev_prepared s = true ->
   create node s =
     (let* regs_ok := check_regs node in
      if negb regs_ok then ret None
      else
        let* irqs_ok := check_and_bind_irqs node in
        if negb irqs_ok then ret None else ret (Some (Io_proxy None))) s) /\
  (forall m', collect_resources (mach s) = (Ret tt, m') ->
              prepare_factory s = (Ret tt, mk_state m' true (out s))) /\
  (forall node' s0, phys_dev_prepared s0 = true ->
                    phys_dev_prepared (snd (create node' s0)) = true).
Proof.
  intros Hprop. repeat split.
  - intros Hflag. unfold create. rewrite Hprop.
    unfold bind at 1. rewrite Hflag. cbn [negb].
    unfold bind, printf, ret. cbn [mach phys_dev_prepared out].
    rewrite Hflag. reflexivity.
  - intros Hflag. unfold create. rewrite Hprop.
    unfold bind at 1. rewrite Hflag. reflexivity.
  - intros m' Hcollect. unfold prepare_factory, bind. rewrite Hcollect. reflexivity.
  - intros node' s0 Hflag. rewrite <- Hflag. apply create_keeps_flag.
Qed.

(** *** The lines bound by the generic path *)

(** What one call of [bind_irq] does to the heap and to the sources. *)
Lemma bind_irq_effect ic dt_irq io_irq dev s :
  mach (snd (bind_irq ic dt_irq io_irq dev s)) = mach s \/
  exists o,
    heap (mach (snd (bind_irq ic dt_irq io_irq dev s))) = heap (mach s) ++ [o] /\
    (irq_sources (mach (snd (bind_irq ic dt_irq io_irq dev s))) = irq_sources (mach s) \/
     o = mk_Irq_svr io_irq (Some (ic, dt_irq)) /\
     irq_sources (mach (snd (bind_irq ic dt_irq io_irq dev s)))
     = <[(ic, dt_irq) := Src_irq_svr (length (heap (mach s)))]> (irq_sources (mach s))).
Proof.
  unfold bind_irq, get_irq_source. msimpl.
  destruct (irq_sources (mach s) !! (ic, dt_irq)) as [src|] eqn:Hsrc.
  - left. unfold dynamic_cast_Irq_svr. msimpl. rewrite Hsrc.
    destruct src as [p|]; msimpl.
    + destruct (heap (mach s) !! p) as [o|]; [|reflexivity].
      destruct (io_irq =? get_io_irq o); reflexivity.
    + reflexivity.
  - right.
    unfold make_Irq_svr, register_irq_obj, icu_bind, set_sink, bind_irq_source, eoi.
    msimpl.
    destruct (register_irq_obj_valid (registry (mach s))); msimpl.
    + destruct (icu_bind_ret (icu (mach s)) io_irq <? 0) eqn:Hicu; msimpl.
      * rewrite Hicu. eexists. split; [reflexivity|]. left. reflexivity.
      * rewrite Hicu. msimpl. rewrite lookup_snoc_new. msimpl.
        rewrite insert_snoc_new.
        eexists. split; [reflexivity|]. right. split; reflexivity.
    + eexists. split; [reflexivity|]. left. reflexivity.
Qed.

Lemma identity_bound_fields s s' :
  heap (mach s') = heap (mach s) ->
  irq_sources (mach s') = irq_sources (mach s) ->
  identity_bound s s'.
Proof.
  intros E1 E2. split.
  - exists []. rewrite E1, app_nil_r. reflexivity.
  - intros ic l. left. rewrite E2. reflexivity.
Qed.

Lemma identity_bound_same s s' : mach s' = mach s -> identity_bound s s'.
Proof.
  intros E. apply identity_bound_fields; rewrite E; reflexivity.
Qed.

Lemma identity_bound_trans a b c :
  identity_bound a b -> identity_bound b c -> identity_bound a c.
Proof.
  intros [[e1 H1] K1] [[e2 H2] K2]. split.
  - exists (e1 ++ e2). rewrite H2, H1, app_assoc. reflexivity.
  - intros ic l.
    destruct (K2 ic l) as [E2|(p & Hp & Hs & Hh)].
    + destruct (K1 ic l) as [E1|(p & Hp & Hs & Hh)].
      * left. congruence.
      * right. exists p. split; [exact Hp|]. split; [congruence|].
        rewrite H2. apply lookup_app_l_Some. exact Hh.
    + right. exists p. split; [|split; assumption].
      rewrite H1, length_app in Hp. lia.
Qed.

Lemma identity_bound_bind_irq ic l dev :
  respects identity_bound (bind_irq ic l l dev).
Proof.
  intros s.
  destruct (bind_irq_effect ic l l dev s) as [E|(o & Hheap & [E|[Ho E]])].
  - apply identity_bound_same, E.
  - split; [exists [o]; exact Hheap|]. intros ic' l'. left. rewrite E. reflexivity.
  - split; [exists [o]; exact Hheap|]. intros ic' l'. rewrite E.
    destruct (decide ((ic, l) = (ic', l'))) as [Heq|Hne].
    + inversion Heq; subst ic' l'. right. exists (length (heap (mach s))).
      split; [lia|]. split; [apply lookup_insert_eq|].
      rewrite Hheap, Ho. apply lookup_snoc_new.
    + left. apply lookup_insert_ne. exact Hne.
Qed.

Lemma identity_bound_bind_irqs_loop fuel node it :
  respects identity_bound (bind_irqs_loop fuel node it).
Proof.
  assert (Hrefl : forall s, identity_bound s s)
    by (intros; apply identity_bound_same; reflexivity).
  pose proof identity_bound_trans as Htrans.
  revert it. induction fuel as [|fuel IH]; intros it; cbn [bind_irqs_loop];
    [apply respects_diverge; assumption|].
  destruct (it_next it) as [r it'].
  apply respects_bind; [assumption| |].
  - destruct (it_ic it') as [ic|]; [|apply respects_ret; assumption].
    apply respects_bind; [assumption|apply identity_bound_bind_irq|].
    intros _ s. apply identity_bound_fields; reflexivity.
  - intros _. apply respects_if; [apply IH|apply respects_ret; assumption].
Qed.

Lemma identity_bound_create node :
  prop_vbus_dev node = None -> respects identity_bound (create node).
Proof.
  intros Hprop.
  assert (Hrefl : forall s, identity_bound s s)
    by (intros; apply identity_bound_same; reflexivity).
  assert (Hout : forall s d,
             identity_bound s (mk_state (mach s) (phys_dev_prepared s) (out s ++ [d])))
    by (intros; apply identity_bound_same; reflexivity).
  pose proof identity_bound_trans as Htrans.
  unfold create. rewrite Hprop.
  apply respects_bind; [assumption|intros s; apply Hrefl|intros prepared].
  apply respects_if.
  - apply respects_bind; [assumption|apply respects_printf; assumption|].
    intros; apply respects_ret; assumption.
  - apply respects_bind; [assumption|apply respects_check_regs; assumption|intros ok].
    apply respects_if; [apply respects_ret; assumption|].
    apply respects_bind; [assumption| |intros ok'; apply respects_if; apply respects_ret; assumption].
    unfold check_and_bind_irqs. apply respects_if; [apply respects_ret; assumption|].
    apply respects_bind; [assumption|apply respects_check_irqs_loop; assumption|intros ok1].
    apply respects_if; [apply respects_ret; assumption|].
    apply respects_bind; [assumption|apply identity_bound_bind_irqs_loop|].
    intros; apply respects_ret; assumption.
Qed.

(** C10.  On the generic path (a node without [l4vmm,vbus-dev]) every line
    whose source is not the one it had before the call has, after the call,
    a forwarding endpoint allocated during the call whose physical line is
    the line number of the device tree: [io_irq] equals [dt_irq], and the
    sink of the endpoint is that line of that controller.  This holds for
    every outcome of the call. *)
Theorem generic_path_binds_identity node s ic l :
  prop_vbus_dev node = None ->
  irq_sources (mach (snd (create node s))) !! (ic, l) <> irq_sources (mach s) !! (ic, l) ->
  exists p o,
    irq_sources (mach (snd (create node s))) !! (ic, l) = Some (Src_irq_svr p) /\
    heap (mach (snd (create node s))) !! p = Some o /\
    get_io_irq o = l /\
    svr_sink o = Some (ic, l) /\
    (length (heap (mach s)) <= p)%nat.
Proof.
  intros Hprop Hne.
  destruct (identity_bound_create node Hprop s) as [_ K].
  destruct (K ic l) as [E|(p & Hp & Hs & Hh)]; [contradiction|].
  exists p, (mk_Irq_svr l (Some (ic, l))). repeat split; assumption.
Qed.

(** *** What a computation ends with *)

Lemma ensures_ret {A} (P : A -> Prop) a : P a -> ensures P (ret a).
Proof. intros H s. exact H. Qed.

Lemma ensures_throw {A} (P : A -> Prop) e : ensures P (throw e).
Proof. intros s. exact I. Qed.

Lemma ensures_gets {A} (P : A -> Prop) (f : machine -> A) :
  (forall m, P (f m)) -> ensures P (gets f).
Proof. intros H s. apply H. Qed.

Lemma ensures_modify (P : unit -> Prop) f : P tt -> ensures P (modify f).
Proof. intros H s. exact H. Qed.

Lemma ensures_printf (P : unit -> Prop) l f a : P tt -> ensures P (printf l f a).
Proof. intros H s. exact H. Qed.

Lemma ensures_bind {A B} (P : A -> Prop) (Q : B -> Prop) (m : M A) (k : A -> M B) :
  ensures P m -> (forall a, P a -> ensures Q (k a)) -> ensures Q (bind m k).
Proof.
  intros Hm Hk s. unfold bind. specialize (Hm s).
  destruct (m s) as [[a|e|] s']; cbn [fst] in *.
  - apply Hk, Hm.
  - exact I.
  - exact Hm.
Qed.

Lemma ensures_weaken {A} (P Q : A -> Prop) (m : M A) :
  (forall a, P a -> Q a) -> ensures P m -> ensures Q m.
Proof.
  intros HPQ Hm s. specialize (Hm s). destruct (fst (m s)); auto.
Qed.

Lemma ensures_if {A} (P : A -> Prop) (b : bool) (m1 m2 : M A) :
  ensures P m1 -> ensures P m2 -> ensures P (if b then m1 else m2).
Proof. destruct b; auto. Qed.

Lemma ensures_chksys (P : unit -> Prop) err msg : P tt -> ensures P (chksys err msg).
Proof.
  intros H. unfold chksys. destruct (err <? 0); [apply ensures_throw|apply ensures_ret, H].
Qed.

Lemma ensures_chkcap (P : unit -> Prop) v msg : P tt -> ensures P (chkcap v msg).
Proof.
  intros H. unfold chkcap. destruct v; [apply ensures_ret, H|apply ensures_throw].
Qed.

Lemma ensures_bind_irq ic dt_irq io_irq dev : ensures any (bind_irq ic dt_irq io_irq dev).
Proof.
  unfold bind_irq.
  apply (ensures_bind any); [apply ensures_printf; exact I|intros _ _].
  apply (ensures_bind any); [apply ensures_gets; intros; exact I|intros src _].
  destruct src as [src|].
  - apply (ensures_bind any); [apply ensures_printf; exact I|intros _ _].
    apply (ensures_bind any); [apply ensures_gets; intros; exact I|intros src' _].
    apply (ensures_bind any).
    { unfold dynamic_cast_Irq_svr. destruct src' as [[p|]|];
        [apply ensures_gets; intros; exact I|apply ensures_ret; exact I
        |apply ensures_ret; exact I]. }
    intros [o|] _.
    + apply ensures_if; [apply ensures_ret; exact I|].
      apply (ensures_bind any); [apply ensures_printf; exact I|].
      intros; apply ensures_throw.
    + apply (ensures_bind any); [apply ensures_printf; exact I|].
      intros; apply ensures_throw.
  - unfold make_Irq_svr, register_irq_obj, icu_bind, set_sink, bind_irq_source, eoi.
    repeat first
      [ apply ensures_modify; exact I
      | apply ensures_ret; exact I
      | apply ensures_chksys; exact I
      | apply ensures_chkcap; exact I
      | apply ensures_gets; intros; exact I
      | apply ensures_if
      | apply (ensures_bind any); [|intros ? _] ].
Qed.

Lemma ensures_num_reg_entries node : ensures (fun n => 0 <= n) (num_reg_entries node).
Proof.
  unfold num_reg_entries. apply ensures_if; [apply ensures_ret; lia|].
  assert (H : forall fuel num,
             (length (regs node) + 1 <= num + fuel)%nat -> (1 <= fuel)%nat ->
             ensures (fun n => 0 <= n) (num_reg_entries_loop fuel node num)).
  { induction fuel as [|fuel IH]; intros num Hlen Hfuel; [lia|].
    cbn [num_reg_entries_loop]. unfold get_reg_val.
    destruct (regs node !! num) as [v|] eqn:Hv.
    - apply lookup_lt_Some in Hv.
      apply ensures_if; [apply ensures_ret; lia|].
      apply (ensures_bind any).
      + apply ensures_if; [apply ensures_chksys|apply ensures_ret]; exact I.
      + intros _ _. apply IH; lia.
    - cbn [rv_ret]. rewrite Z.eqb_refl. apply ensures_ret. lia. }
  apply H; lia.
Qed.

Lemma ensures_num_interrupts node : ensures (fun n => 0 <= n) (num_interrupts node).
Proof.
  unfold num_interrupts. apply ensures_if; [apply ensures_ret; lia|].
  assert (H : forall fuel it num,
             (length (it_left it) < fuel)%nat ->
             ensures (fun n => 0 <= n) (num_interrupts_loop fuel it num)).
  { induction fuel as [|fuel IH]; intros it num Hlen; [lia|].
    cbn [num_interrupts_loop]. unfold it_next.
    destruct (it_left it) as [|e rest] eqn:Hleft.
    - rewrite Z.eqb_refl. apply ensures_ret. lia.
    - cbn [length] in Hlen.
      destruct (ie_ret e <? 0).
      + apply ensures_if; [apply ensures_ret; lia|].
        apply (ensures_bind any).
        * apply ensures_if; [apply ensures_chksys|apply ensures_ret]; exact I.
        * intros _ _. apply IH. cbn [it_left]. lia.
      + apply ensures_if; [apply ensures_ret; lia|].
        apply (ensures_bind any).
        * apply ensures_if; [apply ensures_chksys|apply ensures_ret]; exact I.
        * intros _ _. apply IH. cbn [it_left]. lia. }
  apply H. cbn. lia.
Qed.

Lemma u32_nonneg x : 0 <= u32 x.
Proof. unfold u32. apply Z.mod_pos_bound. reflexivity. Qed.

Lemma ensures_scan_app {P : Z * Z -> Prop} node vdev l1 l2 :
  (forall tr ti, 0 <= tr -> 0 <= ti -> ensures P (scan_resources node vdev l2 tr ti)) ->
  forall tr ti, 0 <= tr -> 0 <= ti ->
                ensures P (scan_resources node vdev (l1 ++ l2) tr ti).
Proof.
  intros Hl2. induction l1 as [|sl rest IH]; intros tr ti Htr Hti;
    cbn [scan_resources app]; [apply Hl2; assumption|].
  apply (ensures_bind any); [apply ensures_chksys; exact I|intros _ _].
  destruct (res_type (slot_res sl)); try (apply IH; assumption).
  - apply ensures_if.
    + apply (ensures_bind any); [apply ensures_printf; exact I|intros; apply IH; assumption].
    + apply (ensures_bind any); [|intros _ _].
      { apply ensures_if; [|apply ensures_ret; exact I].
        apply (ensures_bind any); [apply ensures_printf; exact I|].
        intros; apply ensures_chksys; exact I. }
      apply (ensures_bind any); [|intros _ _].
      { destruct (it_ic _); [apply ensures_bind_irq|apply ensures_ret; exact I]. }
      apply (ensures_bind any); [apply ensures_printf; exact I|intros].
      apply IH; [assumption|apply u32_nonneg].
  - apply ensures_if.
    + apply (ensures_bind any); [apply ensures_printf; exact I|intros; apply IH; assumption].
    + apply (ensures_bind any); [apply ensures_chksys; exact I|intros _ _].
      apply (ensures_bind any); [|intros _ _].
      { apply ensures_if; [apply ensures_chksys|apply ensures_ret]; exact I. }
      apply (ensures_bind any); [apply ensures_printf; exact I|intros _ _].
      apply (ensures_bind any); [apply ensures_modify; exact I|intros].
      apply IH; [apply u32_nonneg|assumption].
Qed.

Lemma ensures_scan_resources node vdev slots tr ti :
  0 <= tr -> 0 <= ti ->
  ensures (fun todo => 0 <= fst todo /\ 0 <= snd todo)
          (scan_resources node vdev slots tr ti).
Proof.
  rewrite <- (app_nil_r slots). apply ensures_scan_app.
  intros tr' ti' Htr Hti. apply ensures_ret. split; assumption.
Qed.

(** A computation that only returns or raises, and keeps the state. *)
Lemma run_pure {A} (P : A -> Prop) (m : M A) s :
  ensures P m -> respects eq m ->
  (exists a, m s = (Ret a, s) /\ P a) \/ (exists e, m s = (Throw e, s)).
Proof.
  intros He Hr. specialize (He s). specialize (Hr s).
  destruct (m s) as [[a|e|] s']; cbn [fst snd] in *; subst s'.
  - left. exists a. split; [reflexivity|exact He].
  - right. exists e. reflexivity.
  - destruct He.
Qed.

Lemma num_reg_entries_run node s :
  (exists n, num_reg_entries node s = (Ret n, s) /\ 0 <= n) \/
  (exists e, num_reg_entries node s = (Throw e, s)).
Proof.
  apply run_pure; [apply ensures_num_reg_entries|].
  apply respects_num_reg_entries; [reflexivity|intros a b c; apply eq_trans].
Qed.

Lemma num_interrupts_run node s :
  (exists n, num_interrupts node s = (Ret n, s) /\ 0 <= n) \/
  (exists e, num_interrupts node s = (Throw e, s)).
Proof.
  apply run_pure; [apply ensures_num_interrupts|].
  apply respects_num_interrupts; [reflexivity|intros a b c; apply eq_trans].
Qed.

Lemma scan_keeps_devices node vdev slots tr ti :
  respects same_devices (scan_resources node vdev slots tr ti).
Proof.
  apply respects_scan_resources; unfold same_devices.
  - reflexivity.
  - intros a b c H1 H2. congruence.
  - reflexivity.
  - intros s m' H. exact H.
Qed.

(** *** check_regs *)

Lemma check_regs_loop_skip node s k :
  dt_codes_distinct ->
  forall fuel index,
    (forall j, (index <= j < index + k)%nat ->
               reg_passes (mach s) (get_reg_val node j) = true) ->
    check_regs_loop (k + fuel) node index s = check_regs_loop fuel node (index + k) s.
Proof.
  intros (Hb & Hn & Hr & Hbn & Hbr & Hnr).
  induction k as [|k IH]; intros fuel index Hpass.
  - rewrite Nat.add_0_r. reflexivity.
  - cbn [Nat.add check_regs_loop].
    pose proof (Hpass index ltac:(lia)) as H0. unfold reg_passes in H0.
    destruct (rv_ret (get_reg_val node index) =? 0) eqn:E0.
    + msimpl. rewrite H0. cbn [negb].
      rewrite IH by (intros j Hj; apply Hpass; lia).
      f_equal. lia.
    + apply Z.eqb_eq in H0. rewrite H0.
      replace (- ERR_NOT_TRANSLATABLE =? - ERR_BAD_INDEX) with false
        by (symmetry; apply Z.eqb_neq; lia).
      rewrite Z.eqb_refl.
      rewrite IH by (intros j Hj; apply Hpass; lia).
      f_equal. lia.
Qed.

Lemma passes_in_range node s index :
  dt_codes_distinct ->
  (forall j, (j < index)%nat -> reg_passes (mach s) (get_reg_val node j) = true) ->
  (index <= length (regs node))%nat.
Proof.
  intros (Hb & Hn & Hr & Hbn & Hbr & Hnr) Hpass.
  destruct (le_lt_dec index (length (regs node))) as [Hle|Hgt]; [exact Hle|].
  exfalso. specialize (Hpass (length (regs node)) Hgt).
  unfold reg_passes, get_reg_val in Hpass.
  rewrite (lookup_ge_None_2 (regs node) (length (regs node))) in Hpass by lia.
  cbn [rv_ret] in Hpass.
  replace (- ERR_BAD_INDEX =? 0) with false in Hpass by (symmetry; apply Z.eqb_neq; lia).
  apply Z.eqb_eq in Hpass. lia.
Qed.

(** [check_regs] always returns, and only writes messages. *)
Lemma check_regs_loop_returns node s :
  ERR_BAD_INDEX <> 0 ->
  forall fuel index,
    (length (regs node) + 1 <= index + fuel)%nat -> (1 <= fuel)%nat ->
    exists b s', check_regs_loop fuel node index s = (Ret b, s') /\ mach s' = mach s.
Proof.
  intros Hbad. induction fuel as [|fuel IH]; intros index Hlen Hfuel; [lia|].
  cbn [check_regs_loop]. unfold get_reg_val.
  destruct (regs node !! index) as [v|] eqn:Hv.
  - apply lookup_lt_Some in Hv.
    assert (Hnext : exists b s', check_regs_loop fuel node (S index) s = (Ret b, s') /\
                                 mach s' = mach s) by (apply IH; lia).
    destruct (rv_ret v =? 0).
    { msimpl. destruct (mmio_region_valid (mach s) (rv_addr v) (rv_size v)); cbn [negb];
        [exact Hnext|eexists _, _; split; reflexivity]. }
    destruct (rv_ret v =? - ERR_BAD_INDEX); [eexists _, _; split; reflexivity|].
    destruct (rv_ret v =? - ERR_NOT_TRANSLATABLE); [exact Hnext|].
    destruct (rv_ret v =? - ERR_RANGE); eexists _, _; split; reflexivity.
  - cbn [rv_ret].
    replace (- ERR_BAD_INDEX =? 0) with false by (symmetry; apply Z.eqb_neq; lia).
    rewrite Z.eqb_refl. eexists _, _; split; reflexivity.
Qed.

(** C7.  [check_regs] on a node without the property [reg] returns [true]
    without reading an entry.  Otherwise the entries are read in order of
    their index; an entry that translates to a valid region and an entry
    that is not translatable are passed over, and the first other entry
    decides: translated but not valid gives [false]; bad index gives
    [true]; range gives [false] after an information message; any other
    code gives [false] after an error message.  In every case the function
    returns, and the machine is as before. *)
Theorem check_regs_outcomes node s :
  dt_codes_distinct ->
  (exists b s', check_regs node s = (Ret b, s') /\ mach s' = mach s) /\
  (has_prop_reg node = false -> check_regs node s = (Ret true, s)) /\
  (has_prop_reg node = true ->
   forall index,
     (forall j, (j < index)%nat -> reg_passes (mach s) (get_reg_val node j) = true) ->
     let v := get_reg_val node index in
     (rv_ret v = 0 -> mmio_region_valid (mach s) (rv_addr v) (rv_size v) = false ->
      check_regs node s = (Ret false, s)) /\
     (rv_ret v = - ERR_BAD_INDEX -> check_regs node s = (Ret true, s)) /\
     (rv_ret v = - ERR_NOT_TRANSLATABLE -> reg_passes (mach s) v = true) /\
     (rv_ret v = - ERR_RANGE ->
      check_regs node s =
        (Ret false, mk_state (mach s) (phys_dev_prepared s)
                             (out s ++ [diag_too_large node index]))) /\
     (rv_ret v <> 0 -> rv_ret v <> - ERR_BAD_INDEX ->
      rv_ret v <> - ERR_NOT_TRANSLATABLE -> rv_ret v <> - ERR_RANGE ->
      check_regs node s =
        (Ret false, mk_state (mach s) (phys_dev_prepared s)
                             (out s ++ [diag_invalid node index (rv_ret v)])))).
Proof.
  intros Hcodes. split; [|split].
  - unfold check_regs. destruct (has_prop_reg node); cbn [negb];
      [|eexists _, _; split; reflexivity].
    apply check_regs_loop_returns; [|lia|lia].
    destruct Hcodes as (Hb & _). lia.
  - intros Hprop. unfold check_regs. rewrite Hprop. reflexivity.
  - intros Hprop index Hpass v.
    pose proof (passes_in_range node s index Hcodes Hpass) as Hle.
    assert (Hrun : check_regs node s
                   = check_regs_loop (S (length (regs node) - index)) node index s).
    { unfold check_regs. rewrite Hprop. cbn [negb].
      replace (S (length (regs node))) with (index + S (length (regs node) - index))%nat
        by lia.
      rewrite (check_regs_loop_skip node s index Hcodes _ 0%nat)
        by (intros j Hj; apply Hpass; lia).
      reflexivity. }
    rewrite Hrun. cbn [check_regs_loop]. fold v.
    destruct Hcodes as (Hb & Hn & Hr & Hbn & Hbr & Hnr).
    repeat split.
    + intros H0 Hvalid. rewrite H0. cbn [Z.eqb]. msimpl. rewrite Hvalid. reflexivity.
    + intros H0. rewrite H0.
      replace (- ERR_BAD_INDEX =? 0) with false by (symmetry; apply Z.eqb_neq; lia).
      rewrite Z.eqb_refl. reflexivity.
    + intros H0. unfold reg_passes. rewrite H0.
      replace (- ERR_NOT_TRANSLATABLE =? 0) with false by (symmetry; apply Z.eqb_neq; lia).
      apply Z.eqb_refl.
    + intros H0. rewrite H0.
      replace (- ERR_RANGE =? 0) with false by (symmetry; apply Z.eqb_neq; lia).
      replace (- ERR_RANGE =? - ERR_BAD_INDEX) with false
        by (symmetry; apply Z.eqb_neq; lia).
      replace (- ERR_RANGE =? - ERR_NOT_TRANSLATABLE) with false
        by (symmetry; apply Z.eqb_neq; lia).
      rewrite Z.eqb_refl. reflexivity.
    + intros H0 H1 H2 H3.
      apply Z.eqb_neq in H0, H1, H2, H3. rewrite H0, H1, H2, H3. reflexivity.
Qed.

(** *** One step of the loop over the resources *)

Section Scan_step.

Variables (node : Dt_node) (vdev : vbus_dev) (sl : slot) (rest : list slot).
Variables (tr ti : Z) (s : state).
Hypothesis Hslot : 0 <= slot_ret sl.





Lemma scan_mem_size_mismatch :
  res_type (slot_res sl) = L4VBUS_RESOURCE_MEM ->
  unrecognised str_reg (res_id (slot_res sl)) = false ->
  0 <= rv_ret (get_reg_val node (resid_of (res_id (slot_res sl)))) ->
  l4_addr (res_end (slot_res sl) - res_start (slot_res sl) + 1)
    <> rv_size (get_reg_val node (resid_of (res_id (slot_res sl)))) ->
  scan_resources node vdev (sl :: rest) tr ti s =
    (Throw (Err_ (- L4_ENOMEM) msg_match_size), s).
Proof.
  intros Htype Hname Hret Hsize. cbn [scan_resources]. rewrite Htype, Hname.
  unfold chksys. apply Z.ltb_ge in Hslot. rewrite Hslot.
  apply Z.ltb_ge in Hret. unfold bind at 1. unfold ret at 1.
  unfold bind at 1. rewrite Hret. unfold ret at 1.
  apply Z.eqb_neq in Hsize. unfold bind at 1. rewrite Hsize. cbn [negb].
  change (- L4_ENOMEM <? 0) with true. reflexivity.
Qed.



End Scan_step.

(** The loop over a list of slots followed by another. *)
Lemma scan_resources_app node vdev l1 l2 tr ti s :
  scan_resources node vdev (l1 ++ l2) tr ti s =
    match scan_resources node vdev l1 tr ti s with
    | (Ret todo, s') => scan_resources node vdev l2 (fst todo) (snd todo) s'
    | (Throw e, s') => (Throw e, s')
    | (Diverge, s') => (Diverge, s')
    end.
Proof.
  revert tr ti s. induction l1 as [|sl rest IH]; intros tr ti s;
    cbn [scan_resources app]; [reflexivity|].
  unfold bind, chksys, ret, throw, printf, add_mmio_device, modify.
  repeat match goal with
         | |- context [if ?b then _ else _] => destruct b
         | |- context [match res_type ?x with _ => _ end] => destruct (res_type x)
         | |- context [match it_ic ?x with _ => _ end] => destruct (it_ic x)
         | |- context [match bind_irq ?a ?b ?c ?d ?e with _ => _ end] =>
             destruct (bind_irq a b c d e) as [[[]|?|] ?]
         end; try reflexivity; try apply IH.
Qed.

(** *** create_from_vbus_dev *)

Lemma create_from_vbus_dev_scan node hid s i vdev tr0 ti0 :
  find_from hid 0%nat (devices (mach s)) = Some (i, vdev) ->
  num_reg_entries node s = (Ret tr0, s) ->
  num_interrupts node s = (Ret ti0, s) ->
  create_from_vbus_dev node hid s =
    bind (scan_resources node vdev (dev_slots vdev) tr0 ti0) (finish node hid i) s.
Proof.
  intros Hfind Hregs Hirqs.
  unfold create_from_vbus_dev, find_unassigned_device_by_hid.
  unfold bind at 1. unfold gets. rewrite Hfind.
  unfold bind at 1. rewrite Hregs.
  unfold bind at 1. rewrite Hirqs.
  reflexivity.
Qed.

(** When the counting or the loop raises, so does the function, from the
    same state. *)
Lemma create_from_vbus_dev_raises node hid s i vdev :
  find_from hid 0%nat (devices (mach s)) = Some (i, vdev) ->
  (forall tr ti, 0 <= tr -> 0 <= ti ->
     exists e s', scan_resources node vdev (dev_slots vdev) tr ti s = (Throw e, s')) ->
  exists e s', create_from_vbus_dev node hid s = (Throw e, s') /\
               devices (mach s') = devices (mach s).
Proof.
  intros Hfind Hscan.
  unfold create_from_vbus_dev, find_unassigned_device_by_hid.
  unfold bind at 1. unfold gets. rewrite Hfind.
  unfold bind at 1.
  destruct (num_reg_entries_run node s) as [(tr & -> & Htr)|(e & ->)];
    [|exists e, s; split; reflexivity].
  unfold bind at 1.
  destruct (num_interrupts_run node s) as [(ti & -> & Hti)|(e & ->)];
    [|exists e, s; split; reflexivity].
  unfold bind at 1.
  pose proof (scan_keeps_devices node vdev (dev_slots vdev) tr ti s) as Hdev.
  destruct (Hscan tr ti Htr Hti) as (e & s' & Hrun). rewrite Hrun in *.
  exists e, s'. split; [reflexivity|exact Hdev].
Qed.

(** C5.  On the named path, a memory resource named [reg<digit>] whose
    size, [end - start + 1] in the arithmetic of [l4_addr_t], differs from
    the size of the reg entry the digit selects makes the loop raise
    [-L4_ENOMEM] at that resource, a resource mismatch.
    [create_from_vbus_dev] then raises, whatever the resources before it
    are: no proxy is returned and no device of the bus is claimed; and when
    the counting and the resources before it go through, the error raised is
    that mismatch. *)
Theorem size_mismatch_is_fatal node hid s i vdev pre sl post :
  find_from hid 0%nat (devices (mach s)) = Some (i, vdev) ->
  dev_slots vdev = pre ++ sl :: post ->
  0 <= slot_ret sl ->
  res_type (slot_res sl) = L4VBUS_RESOURCE_MEM ->
  unrecognised str_reg (res_id (slot_res sl)) = false ->
  0 <= rv_ret (get_reg_val node (resid_of (res_id (slot_res sl)))) ->
  l4_addr (res_end (slot_res sl) - res_start (slot_res sl) + 1)
    <> rv_size (get_reg_val node (resid_of (res_id (slot_res sl)))) ->
  (forall tr ti s0,
     scan_resources node vdev (sl :: post) tr ti s0
     = (Throw (Err_ (- L4_ENOMEM) msg_match_size), s0)) /\
  ResourceMismatch (Err_ (- L4_ENOMEM) msg_match_size) /\
  (exists e s', create_from_vbus_dev node hid s = (Throw e, s') /\
                devices (mach s') = devices (mach s)) /\
  (forall tr0 ti0 todo s1,
     num_reg_entries node s = (Ret tr0, s) ->
     num_interrupts node s = (Ret ti0, s) ->
     scan_resources node vdev pre tr0 ti0 s = (Ret todo, s1) ->
     create_from_vbus_dev node hid s = (Throw (Err_ (- L4_ENOMEM) msg_match_size), s1)).
Proof.
  intros Hfind Hslots Hslot Htype Hname Hret Hsize.
  assert (Hstep : forall tr ti s0,
            scan_resources node vdev (sl :: post) tr ti s0
            = (Throw (Err_ (- L4_ENOMEM) msg_match_size), s0)).
  { intros. apply scan_mem_size_mismatch; assumption. }
  split; [exact Hstep|]. split; [right; left; reflexivity|]. split.
  - apply (create_from_vbus_dev_raises node hid s i vdev Hfind).
    intros tr ti Htr Hti. rewrite Hslots.
    assert (He : ensures (fun _ : Z * Z => False)
                         (scan_resources node vdev (pre ++ sl :: post) tr ti)).
    { apply ensures_scan_app; [|assumption|assumption].
      intros tr' ti' _ _ s0. rewrite Hstep. exact I. }
    specialize (He s).
    destruct (scan_resources node vdev (pre ++ sl :: post) tr ti s) as [[a|e|] s'];
      cbn [fst] in He; try contradiction.
    exists e, s'. reflexivity.
  - intros tr0 ti0 todo s1 Hregs Hirqs Hpre.
    rewrite (create_from_vbus_dev_scan node hid s i vdev tr0 ti0 Hfind Hregs Hirqs).
    unfold bind. rewrite Hslots, scan_resources_app, Hpre, Hstep. reflexivity.
Qed.






(** *** The OP-TEE device *)

Lemma map_optee_memory_fails optee iods s :
  handshake_ok optee = false ->
  exists code d,
    map_optee_memory optee iods s
    = (Ret code, mk_state (mach s) (phys_dev_prepared s) (out s ++ [d])) /\
    code < 0 /\ lvl d = Warn.
Proof.
  unfold handshake_ok, uid_ok, revision_ok, exports_ok, shm_config_ok, map_optee_memory.
  change 0xbf00ff03 with Smc_call_trusted_os_revision.
  change 0xb2000009 with Optee_call_exchange_caps.
  change 0xb2000007 with Optee_call_get_shm_config.
  destruct (fast_call optee Smc_call_trusted_os_uid) as [r1 [[[a0 a1] a2] a3]].
  destruct (fast_call optee Smc_call_trusted_os_revision) as [r2 [[[b0 b1] b2] b3]].
  destruct (fast_call optee Optee_call_exchange_caps) as [r3 [[[c0 c1] c2] c3]].
  destruct (fast_call optee Optee_call_get_shm_config) as [r4 [[[d0 d1] d2] d3]].
  intros H.
  destruct ((r1 <? 0) || negb (a0 =? Optee_uuid_word0) || negb (a1 =? Optee_uuid_word1)
            || negb (a2 =? Optee_uuid_word2) || negb (a3 =? Optee_uuid_word3)).
  { eexists _, _. split; [reflexivity|]. split; [reflexivity|reflexivity]. }
  destruct ((r2 <? 0) || negb (b0 =? Optee_api_major) || negb (b1 =? Optee_api_minor)).
  { eexists _, _. split; [reflexivity|]. split; [reflexivity|reflexivity]. }
  destruct ((r3 <? 0) || negb (c0 =? 0) || (Z.land c1 1 =? 0)).
  { eexists _, _. split; [reflexivity|]. split; [reflexivity|reflexivity]. }
  destruct ((r4 <? 0) || negb (d0 =? 0)).
  { eexists _, _. split; [reflexivity|]. split; [reflexivity|reflexivity]. }
  discriminate H.
Qed.

(** C9.  When a step of the handshake fails (the identifier, the version of
    the interface, or the export and the configuration of the shared
    memory), [create] of the OP-TEE factory returns no device and does not
    raise: the machine is as before, so no region and no handler of secure
    monitor calls has been registered, and one warning follows the message
    of the factory in the output. *)
Theorem optee_handshake_failure node s optee iods :
  prop_cap node = Some optee ->
  prop_dscap node = Some iods ->
  uid_ok optee = false \/ revision_ok optee = false \/
  exports_ok optee = false \/ shm_config_ok optee = false ->
  exists d,
    Optee_create node s
    = (Ret None, mk_state (mach s) (phys_dev_prepared s)
                          (out s ++ [diag_create_optee; d])) /\
    lvl d = Warn.
Proof.
  intros Hcap Hds Hfail.
  assert (Hok : handshake_ok optee = false).
  { unfold handshake_ok.
    destruct Hfail as [-> | [-> | [-> | ->]]];
      repeat rewrite ?andb_false_r, ?andb_false_l; reflexivity. }
  unfold Optee_create. rewrite Hcap, Hds.
  unfold bind at 1. unfold printf at 1.
  unfold bind at 1.
  destruct (map_optee_memory_fails optee iods
              (mk_state (mach s) (phys_dev_prepared s) (out s ++ [Diag Info "Create OP-TEE device" []]))
              Hok) as (code & d & Hrun & Hneg & Hlvl).
  rewrite Hrun. apply Z.ltb_lt in Hneg. rewrite Hneg.
  exists d. split; [|exact Hlvl].
  unfold ret. cbn [mach phys_dev_prepared out]. rewrite <- app_assoc. reflexivity.
Qed.

(** *** The interrupt resources of the named path *)

(** An interrupt resource named [irq0] that has an entry to match: the
    iterator is read as constructed, before any call of [next], it holds no
    controller, and the loop goes on without a call of [bind_irq]. *)
Lemma scan_irq0_binds_nothing node vdev sl rest tr ti s :
  0 <= slot_ret sl ->
  res_type (slot_res sl) = L4VBUS_RESOURCE_IRQ ->
  unrecognised str_irq (res_id (slot_res sl)) = false ->
  resid_of (res_id (slot_res sl)) = 0%nat ->
  0 < ti ->
  scan_resources node vdev (sl :: rest) tr ti s =
    scan_resources node vdev rest tr (u32 (ti - 1))
      (mk_state (mach s) (phys_dev_prepared s)
                (out s ++ [diag_registering_irq vdev (slot_res sl)])).
Proof.
  intros Hslot Htype Hname Hid Hti. cbn [scan_resources]. rewrite Htype, Hname, Hid.
  unfold chksys. apply Z.ltb_ge in Hslot. rewrite Hslot.
  unfold bind at 1. unfold ret at 1.
  replace (ti <=? Z.of_nat 0) with false by (symmetry; apply Z.leb_gt; lia).
  reflexivity.
Qed.

(** After [k + 1] calls of [next] the entry of index [k] is loaded, when
    the entries up to it resolve. *)
Lemma advance_loads_from l k e ic0 irq0 :
  l !! k = Some e ->
  (forall j e', (j <= k)%nat -> l !! j = Some e' -> 0 <= ie_ret e') ->
  it_ic (advance (S k) (mk_it l ic0 irq0)) = ie_ic e /\
  it_irq (advance (S k) (mk_it l ic0 irq0)) = ie_irq e.
Proof.
  revert k ic0 irq0.
  induction l as [|a l IH]; intros k ic0 irq0 Hk Hres; [discriminate Hk|].
  assert (Ha : (ie_ret a <? 0) = false).
  { apply Z.ltb_ge. apply (Hres 0%nat a); [lia|reflexivity]. }
  destruct k as [|k].
  - inversion Hk; subst a. cbn [advance]. unfold it_next. cbn [it_left].
    rewrite Ha. split; reflexivity.
  - change (advance (S (S k)) (mk_it (a :: l) ic0 irq0))
      with (advance (S k) (snd (it_next (mk_it (a :: l) ic0 irq0)))).
    unfold it_next. cbn [it_left]. rewrite Ha. cbn [snd].
    apply IH; [exact Hk|].
    intros j e' Hj He'. apply (Hres (S j) e'); [lia|exact He'].
Qed.

Lemma advance_loads node k e :
  interrupts node !! k = Some e ->
  (forall j e', (j <= k)%nat -> interrupts node !! j = Some e' -> 0 <= ie_ret e') ->
  it_ic (advance (S k) (Irq_dt_iterator_new node)) = ie_ic e /\
  it_irq (advance (S k) (Irq_dt_iterator_new node)) = ie_irq e.
Proof. apply advance_loads_from. Qed.

(** ** Further properties of the two files *)

(** *** The names of the resources *)

Lemma id_bytes id :
  0 <= id < 2 ^ 32 ->
  id = Z.land id 255 + 256 * Z.land (Z.shiftr id 8) 255
       + 65536 * Z.land (Z.shiftr id 16) 255 + 16777216 * Z.land (Z.shiftr id 24) 255.
Proof.
  clear icu_bind_ret mmio_region_valid.
  intros H.
  change 255 with (Z.ones 8). rewrite !Z.land_ones by lia.
  rewrite !Z.shiftr_div_pow2 by lia.
  change (2 ^ 8) with 256. change (2 ^ 16) with 65536. change (2 ^ 24) with 16777216.
  change (2 ^ 32) with 4294967296 in H.
  Z.div_mod_to_equations. lia.
Qed.

Lemma bytes_id b0 b1 b2 b3 :
  0 <= b0 < 256 -> 0 <= b1 < 256 -> 0 <= b2 < 256 -> 0 <= b3 < 256 ->
  resname (b0 + 256 * b1 + 65536 * b2 + 16777216 * b3) = [b0; b1; b2; b3].
Proof.
  clear icu_bind_ret mmio_region_valid.
  intros. unfold resname.
  change 255 with (Z.ones 8). rewrite !Z.land_ones by lia.
  rewrite !Z.shiftr_div_pow2 by lia.
  change (2 ^ 8) with 256. change (2 ^ 16) with 65536. change (2 ^ 24) with 16777216.
  repeat f_equal; Z.div_mod_to_equations; lia.
Qed.

Lemma strncmp_prefix b0 b1 b2 b3 a b c :
  a <> 0 -> b <> 0 ->
  (strncmp [b0; b1; b2; b3] [a; b; c; 0] 3 = 0 <-> b0 = a /\ b1 = b /\ b2 = c).
Proof.
  intros Ha Hb. cbn [strncmp].
  destruct (Z.eqb_spec b0 a) as [->|N0]; [|split; [lia|intros [? _]; contradiction]].
  replace (a =? 0) with false by (symmetry; apply Z.eqb_neq; exact Ha).
  destruct (Z.eqb_spec b1 b) as [->|N1]; [|split; [lia|intros (_ & ? & _); contradiction]].
  replace (b =? 0) with false by (symmetry; apply Z.eqb_neq; exact Hb).
  destruct (Z.eqb_spec b2 c) as [->|N2]; [|split; [lia|intros (_ & _ & ?); contradiction]].
  destruct (c =? 0); split; auto.
Qed.

(** X16.  A resource name is recognised exactly when its first three bytes
    are those of the prefix and its fourth is a decimal digit, and the
    index taken from a recognised name is the value of that digit: for
    [reg] and for [irq], an identifier below 2^32 passes the test if and
    only if it is the name [reg<k>] (or [irq<k>]) for some [k] below 10,
    and then [resid_of] answers [k]. *)
Theorem resource_names id :
  0 <= id < 2 ^ 32 ->
  (unrecognised str_reg id = false <->
   exists k, (k < 10)%nat /\ id = name_id (chr "r") (chr "e") (chr "g") k) /\
  (unrecognised str_irq id = false <->
   exists k, (k < 10)%nat /\ id = name_id (chr "i") (chr "r") (chr "q") k) /\
  (forall a b c k, 0 <= a < 256 -> 0 <= b < 256 -> 0 <= c < 256 -> (k < 10)%nat ->
                   resid_of (name_id a b c k) = k).
Proof.
  clear icu_bind_ret mmio_region_valid.
  intros Hid.
  assert (Hgen : forall a b c, 0 < a < 256 -> 0 < b < 256 -> 0 < c < 256 ->
            (unrecognised [a; b; c; 0] id = false <->
             exists k, (k < 10)%nat /\ id = name_id a b c k)).
  { intros a b c Ha Hb Hc. unfold unrecognised. split.
    - intros H. apply orb_false_iff in H as [H H3]. apply orb_false_iff in H as [H1 H2].
      apply negb_false_iff, Z.eqb_eq in H1. apply Z.ltb_ge in H2, H3.
      unfold resname in *. cbn [nth] in H2, H3.
      apply strncmp_prefix in H1 as (E0 & E1 & E2); [|lia|lia].
      change (chr "0") with 48 in *. change (chr "9") with 57 in *.
      exists (Z.to_nat (Z.land (Z.shiftr id 24) 255 - 48)). split; [lia|].
      unfold name_id. change (chr "0") with 48.
      rewrite Z2Nat.id by lia. rewrite (id_bytes id Hid) at 1. rewrite E0, E1, E2. lia.
    - intros (k & Hk & ->). unfold name_id. change (chr "0") with 48.
      rewrite bytes_id by lia. cbn [nth].
      change (chr "0") with 48. change (chr "9") with 57.
      apply orb_false_iff. split; [apply orb_false_iff; split|].
      + apply negb_false_iff, Z.eqb_eq. apply strncmp_prefix; [lia|lia|repeat split].
      + apply Z.ltb_ge. lia.
      + apply Z.ltb_ge. lia. }
  split; [apply Hgen; vm_compute; split; congruence|].
  split; [apply Hgen; vm_compute; split; congruence|].
  intros a b c k Ha Hb Hc Hk. unfold resid_of, name_id. change (chr "0") with 48.
  rewrite bytes_id by lia. cbn [nth]. lia.
Qed.

(** *** Counting the entries of a node *)

Lemma num_reg_entries_loop_skip node s k :
  0 < ERR_BAD_INDEX ->
  forall fuel num,
    (forall j v, (num <= j < num + k)%nat -> regs node !! j = Some v -> 0 <= rv_ret v) ->
    (num + k <= length (regs node))%nat ->
    num_reg_entries_loop (k + fuel) node num s = num_reg_entries_loop fuel node (num + k) s.
Proof.
  intros Hbad. induction k as [|k IH]; intros fuel num Hres Hlen.
  - rewrite Nat.add_0_r. reflexivity.
  - cbn [Nat.add num_reg_entries_loop]. unfold get_reg_val.
    destruct (regs node !! num) as [v|] eqn:Hv;
      [|apply lookup_ge_None in Hv; lia].
    pose proof (Hres num v ltac:(lia) Hv) as Hnn.
    replace (rv_ret v =? - ERR_BAD_INDEX) with false by (symmetry; apply Z.eqb_neq; lia).
    replace (rv_ret v <? 0) with false by (symmetry; apply Z.ltb_ge; lia).
    unfold bind at 1. unfold ret at 1.
    rewrite IH by (try (intros j v' Hj; apply Hres; lia); lia).
    f_equal. lia.
Qed.

(** X1.  [num_reg_entries] answers 0 for a node without mmio registers,
    whatever its entries.  Otherwise it reads the entries in order: past a
    run of entries that resolve, the end of the list or an entry that
    answers bad index gives the length of the run as the count, and any
    other negative code raises [-L4_EINVAL].  The state is never changed. *)
Theorem num_reg_entries_counts node s pre rest :
  0 < ERR_BAD_INDEX ->
  regs node = pre ++ rest ->
  (forall v, In v pre -> 0 <= rv_ret v) ->
  (has_mmio_regs node = false -> num_reg_entries node s = (Ret 0, s)) /\
  (has_mmio_regs node = true ->
   (rest = [] -> num_reg_entries node s = (Ret (Z.of_nat (length (regs node))), s)) /\
   (forall v post, rest = v :: post -> rv_ret v = - ERR_BAD_INDEX ->
      num_reg_entries node s = (Ret (Z.of_nat (length pre)), s)) /\
   (forall v post, rest = v :: post -> rv_ret v < 0 -> rv_ret v <> - ERR_BAD_INDEX ->
      num_reg_entries node s = (Throw (Err_ (- L4_EINVAL) msg_check_reg), s))).
Proof.
  intros Hbad Hregs Hpre. split.
  - intros Hmmio. unfold num_reg_entries. rewrite Hmmio. reflexivity.
  - intros Hmmio.
    assert (Hskip : num_reg_entries node s
                    = num_reg_entries_loop (S (length rest)) node (length pre) s).
    { unfold num_reg_entries. rewrite Hmmio. cbn [negb].
      replace (S (length (regs node))) with (length pre + S (length rest))%nat
        by (rewrite Hregs, length_app; lia).
      rewrite (num_reg_entries_loop_skip node s (length pre) Hbad _ 0%nat).
      - reflexivity.
      - intros j v Hj Hv. apply Hpre. rewrite Hregs in Hv.
        rewrite lookup_app_l in Hv by lia.
        apply list_elem_of_In. apply (list_elem_of_lookup_2 _ _ _ Hv).
      - rewrite Hregs, length_app. lia. }
    rewrite Hskip. cbn [num_reg_entries_loop]. unfold get_reg_val. rewrite Hregs.
    repeat split.
    + intros ->. rewrite app_nil_r.
      rewrite lookup_ge_None_2 by lia. cbn [rv_ret]. rewrite Z.eqb_refl.
      reflexivity.
    + intros v post -> Hv. rewrite list_lookup_middle by reflexivity.
      rewrite Hv, Z.eqb_refl. reflexivity.
    + intros v post -> Hneg Hne. rewrite list_lookup_middle by reflexivity.
      apply Z.eqb_neq in Hne. rewrite Hne.
      apply Z.ltb_lt in Hneg. rewrite Hneg.
      unfold bind, chksys. change (- L4_EINVAL <? 0) with true. reflexivity.
Qed.

Lemma num_interrupts_loop_skip s pre :
  (forall e, In e pre -> 0 <= ie_ret e) ->
  forall fuel rest ic irq num,
    exists ic' irq',
      num_interrupts_loop (length pre + fuel) (mk_it (pre ++ rest) ic irq) num s
      = num_interrupts_loop fuel (mk_it rest ic' irq') (num + length pre) s.
Proof.
  induction pre as [|e pre IH]; intros Hres fuel rest ic irq num.
  - exists ic, irq. cbn [length Nat.add app]. rewrite Nat.add_0_r. reflexivity.
  - cbn [length Nat.add app num_interrupts_loop]. unfold it_next. cbn [it_left].
    pose proof (Hres e (or_introl eq_refl)) as Hnn.
    assert (H1 : (ie_ret e <? 0) = false) by (apply Z.ltb_ge; lia).
    assert (H2 : (ie_ret e =? - L4_ERANGE) = false)
      by (apply Z.eqb_neq; unfold L4_ERANGE; lia).
    rewrite H1. cbv beta iota. rewrite H2, H1.
    unfold bind at 1. unfold ret at 1.
    destruct (IH (fun e' H => Hres e' (or_intror H)) fuel rest (ie_ic e) (ie_irq e) (S num))
      as (ic' & irq' & Hrun).
    exists ic', irq'. rewrite Hrun. f_equal. lia.
Qed.

(** X2.  [num_interrupts] answers 0 for a node without interrupts.
    Otherwise it walks the iterator: past a run of entries that resolve,
    the end of the list gives the number of entries, and an entry with a
    negative code other than [-L4_ERANGE] raises that very code.  The state
    is never changed. *)
Theorem num_interrupts_counts node s pre rest :
  interrupts node = pre ++ rest ->
  (forall e, In e pre -> 0 <= ie_ret e) ->
  (has_irqs node = false -> num_interrupts node s = (Ret 0, s)) /\
  (has_irqs node = true ->
   (rest = [] -> num_interrupts node s = (Ret (Z.of_nat (length (interrupts node))), s)) /\
   (forall e post, rest = e :: post -> ie_ret e < 0 -> ie_ret e <> - L4_ERANGE ->
      num_interrupts node s = (Throw (Err_ (ie_ret e) msg_check_irq), s))).
Proof.
  intros Hints Hpre. split.
  - intros Hirqs. unfold num_interrupts. rewrite Hirqs. reflexivity.
  - intros Hirqs.
    destruct (num_interrupts_loop_skip s pre Hpre (S (length rest)) rest None 0 0%nat)
      as (ic' & irq' & Hskip).
    assert (Hrun : num_interrupts node s
                   = num_interrupts_loop (S (length rest)) (mk_it rest ic' irq')
                                         (length pre) s).
    { unfold num_interrupts, Irq_dt_iterator_new. rewrite Hirqs. cbn [negb].
      rewrite Hints, length_app.
      replace (S (length pre + length rest)) with (length pre + S (length rest))%nat by lia.
      exact Hskip. }
    rewrite Hrun. cbn [num_interrupts_loop]. unfold it_next. cbn [it_left].
    split.
    + intros ->. rewrite Z.eqb_refl, Hints, app_nil_r. reflexivity.
    + intros e post -> Hneg Hne.
      apply Z.ltb_lt in Hneg. rewrite Hneg. cbv beta iota.
      apply Z.eqb_neq in Hne. rewrite Hne, Hneg.
      unfold bind, chksys. rewrite Hneg. reflexivity.
Qed.

(** *** What bind_irq leaves behind *)

(** The machine after a call of [bind_irq], in every outcome: as before
    (the line had a source); or, the line having had none, with the new
    endpoint allocated only (the registry gave no capability), allocated and
    registered only (the controller of the bus refused), or bound. *)
Lemma bind_irq_machine ic dt_irq io_irq dev s :
  mach (snd (bind_irq ic dt_irq io_irq dev s)) = mach s \/
  irq_sources (mach s) !! (ic, dt_irq) = None /\
  (mach (snd (bind_irq ic dt_irq io_irq dev s))
   = with_heap (heap (mach s) ++ [mk_Irq_svr io_irq None]) (mach s) \/
   mach (snd (bind_irq ic dt_irq io_irq dev s))
   = with_registry (registry (mach s) ++ [length (heap (mach s))])
       (with_heap (heap (mach s) ++ [mk_Irq_svr io_irq None]) (mach s)) \/
   mach (snd (bind_irq ic dt_irq io_irq dev s)) = bound_machine ic dt_irq io_irq (mach s)).
Proof.
  unfold bind_irq, get_irq_source. msimpl.
  destruct (irq_sources (mach s) !! (ic, dt_irq)) as [src|] eqn:Hsrc.
  - left. unfold dynamic_cast_Irq_svr. msimpl. rewrite Hsrc.
    destruct src as [p|]; msimpl.
    + destruct (heap (mach s) !! p) as [o|]; [|reflexivity].
      destruct (io_irq =? get_io_irq o); reflexivity.
    + reflexivity.
  - right. split; [reflexivity|].
    unfold make_Irq_svr, register_irq_obj, icu_bind, set_sink, bind_irq_source, eoi.
    msimpl.
    destruct (register_irq_obj_valid (registry (mach s))); msimpl.
    + destruct (icu_bind_ret (icu (mach s)) io_irq <? 0) eqn:Hicu; msimpl.
      * rewrite Hicu. right. left. reflexivity.
      * rewrite Hicu. msimpl. rewrite lookup_snoc_new. msimpl.
        rewrite insert_snoc_new. right. right. reflexivity.
    + left. reflexivity.
Qed.


(** What a call of [bind_irq] leaves untouched, as the loops use it. *)
Lemma bind_irq_untouched ic dt_irq io_irq dev s :
  (forall ic' l', (ic', l') <> (ic, dt_irq) ->
     irq_sources (mach (snd (bind_irq ic dt_irq io_irq dev s))) !! (ic', l')
     = irq_sources (mach s) !! (ic', l')) /\
  mmio (mach (snd (bind_irq ic dt_irq io_irq dev s))) = mmio (mach s) /\
  vbus_irqs (mach (snd (bind_irq ic dt_irq io_irq dev s))) = vbus_irqs (mach s) /\
  vbus_bound (mach (snd (bind_irq ic dt_irq io_irq dev s))) = vbus_bound (mach s) /\
  devices (mach (snd (bind_irq ic dt_irq io_irq dev s))) = devices (mach s) /\
  smc_handlers (mach (snd (bind_irq ic dt_irq io_irq dev s))) = smc_handlers (mach s) /\
  (forall p o, heap (mach s) !! p = Some o ->
     heap (mach (snd (bind_irq ic dt_irq io_irq dev s))) !! p = Some o).
Proof.
  destruct (bind_irq_machine ic dt_irq io_irq dev s) as [E|[Hnone [E|[E|E]]]];
    rewrite E; unfold bound_machine; cbn [irq_sources mmio vbus_irqs vbus_bound devices
      smc_handlers heap with_heap with_registry].
  - repeat split; auto.
  - repeat split; auto. intros p o H. apply lookup_app_l_Some, H.
  - repeat split; auto. intros p o H. apply lookup_app_l_Some, H.
  - repeat split; auto.
    + intros ic' l' Hne. apply lookup_insert_ne. congruence.
    + intros p o H. apply lookup_app_l_Some, H.
Qed.

(** X3.  [bind_irq] touches one line only.  In every outcome the sources of
    all other lines, the regions of the guest, the lines of the bus and
    their marks, the device table and the handlers of secure monitor calls
    are as before, and the endpoints that existed keep their place and
    their contents. *)
Theorem bind_irq_frame ic dt_irq io_irq dev s :
  (forall ic' l', (ic', l') <> (ic, dt_irq) ->
     irq_sources (mach (snd (bind_irq ic dt_irq io_irq dev s))) !! (ic', l')
     = irq_sources (mach s) !! (ic', l')) /\
  mmio (mach (snd (bind_irq ic dt_irq io_irq dev s))) = mmio (mach s) /\
  vbus_irqs (mach (snd (bind_irq ic dt_irq io_irq dev s))) = vbus_irqs (mach s) /\
  vbus_bound (mach (snd (bind_irq ic dt_irq io_irq dev s))) = vbus_bound (mach s) /\
  devices (mach (snd (bind_irq ic dt_irq io_irq dev s))) = devices (mach s) /\
  smc_handlers (mach (snd (bind_irq ic dt_irq io_irq dev s))) = smc_handlers (mach s) /\
  (forall p o, heap (mach s) !! p = Some o ->
     heap (mach (snd (bind_irq ic dt_irq io_irq dev s))) !! p = Some o).
Proof.
  destruct (bind_irq_machine ic dt_irq io_irq dev s) as [E|[Hnone [E|[E|E]]]];
    rewrite E; unfold bound_machine; cbn [irq_sources mmio vbus_irqs vbus_bound devices
      smc_handlers heap with_heap with_registry].
  - repeat split; auto.
  - repeat split; auto. intros p o H. apply lookup_app_l_Some, H.
  - repeat split; auto. intros p o H. apply lookup_app_l_Some, H.
  - repeat split; auto.
    + intros ic' l' Hne. apply lookup_insert_ne. congruence.
    + intros p o H. apply lookup_app_l_Some, H.
Qed.

(** *** Relations kept by the loops, given that their steps keep them *)

Section Keeps.

Variable R : state -> state -> Prop.
Hypothesis K_refl : forall s, R s s.
Hypothesis K_trans : forall a b c, R a b -> R b c -> R a c.
Hypothesis K_out :
  forall s d, R s (mk_state (mach s) (phys_dev_prepared s) (out s ++ [d])).
Hypothesis K_bind_irq : forall ic dt_irq io_irq dev, respects R (bind_irq ic dt_irq io_irq dev).
Hypothesis K_mark : forall irq, respects R (mark_irq_bound irq).

Lemma keeps_bind_irqs_loop fuel node it : respects R (bind_irqs_loop fuel node it).
Proof.
  revert it. induction fuel as [|fuel IH]; intros it; cbn [bind_irqs_loop];
    [apply respects_diverge; assumption|].
  destruct (it_next it) as [r it'].
  apply respects_bind; [assumption| |].
  - destruct (it_ic it') as [ic|]; [|apply respects_ret; assumption].
    apply respects_bind; [assumption|apply K_bind_irq|intros; apply K_mark].
  - intros _. apply respects_if; [apply IH|apply respects_ret; assumption].
Qed.

Lemma keeps_check_and_bind_irqs node : respects R (check_and_bind_irqs node).
Proof.
  unfold check_and_bind_irqs. apply respects_if; [apply respects_ret; assumption|].
  apply respects_bind; [assumption|apply respects_check_irqs_loop; assumption|intros ok].
  apply respects_if; [apply respects_ret; assumption|].
  apply respects_bind; [assumption|apply keeps_bind_irqs_loop|].
  intros; apply respects_ret; assumption.
Qed.

Lemma keeps_generic_create node :
  prop_vbus_dev node = None -> respects R (create node).
Proof.
  intros Hprop. unfold create. rewrite Hprop.
  apply respects_bind; [assumption|intros s; apply K_refl|intros prepared].
  apply respects_if.
  - apply respects_bind; [assumption|apply respects_printf; assumption|].
    intros; apply respects_ret; assumption.
  - apply respects_bind; [assumption|apply respects_check_regs; assumption|intros ok].
    apply respects_if; [apply respects_ret; assumption|].
    apply respects_bind; [assumption|apply keeps_check_and_bind_irqs|].
    intros ok'. apply respects_if; apply respects_ret; assumption.
Qed.

Hypothesis K_mmio : forall d, respects R (add_mmio_device d).

Lemma keeps_scan_resources node vdev slots tr ti :
  respects R (scan_resources node vdev slots tr ti).
Proof.
  revert tr ti. induction slots as [|sl rest IH]; intros tr ti; cbn [scan_resources];
    [apply respects_ret; assumption|].
  apply respects_bind; [assumption|apply respects_chksys; assumption|intros _].
  destruct (res_type (slot_res sl)); try apply IH.
  - apply respects_if.
    + apply respects_bind; [assumption|apply respects_printf; assumption|intros; apply IH].
    + apply respects_bind; [assumption| |intros _].
      { apply respects_if; [|apply respects_ret; assumption].
        apply respects_bind; [assumption|apply respects_printf; assumption|].
        intros; apply respects_chksys; assumption. }
      apply respects_bind; [assumption| |intros _].
      { destruct (it_ic _); [apply K_bind_irq|apply respects_ret; assumption]. }
      apply respects_bind; [assumption|apply respects_printf; assumption|intros; apply IH].
  - apply respects_if.
    + apply respects_bind; [assumption|apply respects_printf; assumption|intros; apply IH].
    + apply respects_bind; [assumption|apply respects_chksys; assumption|intros _].
      apply respects_bind; [assumption| |intros _].
      { apply respects_if; [apply respects_chksys|apply respects_ret]; assumption. }
      apply respects_bind; [assumption|apply respects_printf; assumption|intros _].
      apply respects_bind; [assumption|apply K_mmio|intros; apply IH].
Qed.

Hypothesis K_proxy : forall i, respects R (set_proxy i).

Lemma keeps_create_from_vbus_dev node hid : respects R (create_from_vbus_dev node hid).
Proof.
  unfold create_from_vbus_dev, find_unassigned_device_by_hid.
  apply respects_bind; [assumption|apply respects_gets; assumption|intros [[i vdev]|]].
  - apply respects_bind; [assumption|apply respects_num_reg_entries; assumption|intros tr].
    apply respects_bind; [assumption|apply respects_num_interrupts; assumption|intros ti].
    apply respects_bind; [assumption|apply keeps_scan_resources|intros todo].
    apply respects_bind; [assumption| |intros _].
    { apply respects_if; [|apply respects_ret; assumption].
      apply respects_bind; [assumption|apply respects_printf; assumption|].
      intros; apply respects_chksys; assumption. }
    apply respects_bind; [assumption| |intros _].
    { apply respects_if; [|apply respects_ret; assumption].
      apply respects_bind; [assumption|apply respects_printf; assumption|].
      intros; apply respects_chksys; assumption. }
    apply respects_bind; [assumption|apply K_proxy|intros; apply respects_ret; assumption].
  - apply respects_bind; [assumption|apply respects_printf; assumption|].
    intros; apply respects_ret; assumption.
Qed.

Lemma keeps_create node : respects R (create node).
Proof.
  destruct (prop_vbus_dev node) as [hid|] eqn:Hprop.
  - unfold create. rewrite Hprop. apply keeps_create_from_vbus_dev.
  - apply keeps_generic_create, Hprop.
Qed.

End Keeps.

(** *** Bindings persist *)

Lemma persists_mach s s' : mach s' = mach s -> persists s s'.
Proof.
  intros E. unfold persists. rewrite E.
  repeat split; auto; exists []; rewrite app_nil_r; reflexivity.
Qed.

Lemma persists_refl s : persists s s.
Proof. apply persists_mach. reflexivity. Qed.

Lemma persists_trans a b c : persists a b -> persists b c -> persists a c.
Proof.
  clear register_irq_obj_valid.
  intros (S1 & H1 & [r1 R1] & [m1 M1] & B1) (S2 & H2 & [r2 R2] & [m2 M2] & B2).
  repeat split; auto.
  - exists (r1 ++ r2). rewrite R2, R1, app_assoc. reflexivity.
  - exists (m1 ++ m2). rewrite M2, M1, app_assoc. reflexivity.
  - set_solver.
Qed.

Lemma persists_bind_irq ic dt_irq io_irq dev :
  respects persists (bind_irq ic dt_irq io_irq dev).
Proof.
  intros s.
  destruct (bind_irq_machine ic dt_irq io_irq dev s) as [E|[Hnone [E|[E|E]]]];
    unfold persists; rewrite E; unfold bound_machine;
    cbn [irq_sources mmio vbus_bound heap registry with_heap with_registry].
  - repeat split; auto; exists []; rewrite app_nil_r; reflexivity.
  - repeat split; auto; try (exists []; rewrite app_nil_r; reflexivity).
    intros p o H. apply lookup_app_l_Some, H.
  - repeat split; auto.
    + intros p o H. apply lookup_app_l_Some, H.
    + eexists; reflexivity.
    + exists []; rewrite app_nil_r; reflexivity.
  - repeat split; auto.
    + intros k src H. rewrite lookup_insert_ne; [exact H|]. congruence.
    + intros p o H. apply lookup_app_l_Some, H.
    + eexists; reflexivity.
    + exists []; rewrite app_nil_r; reflexivity.
Qed.

Lemma persists_mark_irq_bound irq : respects persists (mark_irq_bound irq).
Proof.
  intros s. unfold persists. cbn.
  repeat split; auto; try (exists []; rewrite app_nil_r; reflexivity). set_solver.
Qed.

Lemma persists_add_mmio_device d : respects persists (add_mmio_device d).
Proof.
  intros s. unfold persists. cbn.
  repeat split; auto; try (exists []; rewrite app_nil_r; reflexivity).
  eexists; reflexivity.
Qed.

Lemma persists_set_proxy i : respects persists (set_proxy i).
Proof.
  intros s. unfold persists, set_proxy, modify. cbn [snd mach].
  destruct (devices (mach s) !! i); cbn;
    repeat split; auto; exists []; rewrite app_nil_r; reflexivity.
Qed.

(** X4.  Nothing [create] does, on either path and in any outcome, replaces
    or removes what was there: a line that had a source keeps that very
    source, an endpoint keeps its place, its physical line and its sink,
    the regions and the registrations of the guest are extended at the end
    only, and the marks on the lines of the bus are only added to. *)
Theorem create_persists node s :
  persists s (snd (create node s)).
Proof.
  apply keeps_create.
  - apply persists_refl.
  - apply persists_trans.
  - intros s0 d. apply persists_mach. reflexivity.
  - apply persists_bind_irq.
  - apply persists_mark_irq_bound.
  - apply persists_add_mmio_device.
  - apply persists_set_proxy.
Qed.

(** *** What the generic path leaves alone *)

(** X5.  On the generic path (a node without [l4vmm,vbus-dev]) [create]
    registers no region with the guest, claims no device of the bus, and
    leaves the set of lines the bus offers and the handlers of secure
    monitor calls as they are, in every outcome. *)
Theorem generic_create_frame node s :
  prop_vbus_dev node = None ->
  mmio (mach (snd (create node s))) = mmio (mach s) /\
  devices (mach (snd (create node s))) = devices (mach s) /\
  vbus_irqs (mach (snd (create node s))) = vbus_irqs (mach s) /\
  smc_handlers (mach (snd (create node s))) = smc_handlers (mach s).
Proof.
  intros Hprop. apply (keeps_generic_create generic_frame); try assumption.
  - intros s0. repeat split.
  - intros a b c (A1 & A2 & A3 & A4) (B1 & B2 & B3 & B4).
    repeat split; congruence.
  - intros s0 d. repeat split.
  - intros ic dt_irq io_irq dev s0.
    destruct (bind_irq_untouched ic dt_irq io_irq dev s0) as (_ & H1 & H2 & _ & H3 & H4 & _).
    repeat split; assumption.
  - intros irq s0. repeat split.
Qed.

(** *** What check_and_bind_irqs has done when it answers yes *)









(** *** Reading a run that returned *)

Lemma bind_Ret {A B} (m : M A) (k : A -> M B) s b s' :
  bind m k s = (Ret b, s') ->
  exists a s1, m s = (Ret a, s1) /\ k a s1 = (Ret b, s').
Proof.
  unfold bind. destruct (m s) as [[a|e|] s1]; intros H; try discriminate H.
  exists a, s1. split; [reflexivity|exact H].
Qed.

Lemma chksys_Ret err msg s u s' :
  chksys err msg s = (Ret u, s') -> s' = s /\ 0 <= err.
Proof.
  unfold chksys. destruct (Z.ltb_spec err 0) as [Hlt|Hge]; intros E; inversion E.
  split; [reflexivity|lia].
Qed.

Lemma ret_Ret {A} (a b : A) s s' : ret a s = (Ret b, s') -> b = a /\ s' = s.
Proof. intros H. inversion H. split; reflexivity. Qed.

Lemma printf_Ret l f a s u s' :
  printf l f a s = (Ret u, s') ->
  s' = mk_state (mach s) (phys_dev_prepared s) (out s ++ [Diag l f a]).
Proof. intros H. inversion H. reflexivity. Qed.

Tactic Notation "bind_inv" hyp(H) "as" ident(s1) ident(H1) :=
  let a := fresh "u" in
  let H' := fresh "H" in
  apply bind_Ret in H; destruct H as (a & s1 & H1 & H'); rename H' into H.

(** *** The regions and the counters of the named path *)

Lemma u32_sub_l a b : u32 (u32 a - b) = u32 (a - b).
Proof. unfold u32. apply Zminus_mod_idemp_l. Qed.

Lemma count_of_cons f sl rest :
  count_of f (sl :: rest) = (if f sl then 1 else 0) + count_of f rest.
Proof.
  unfold count_of. rewrite filter_cons.
  destruct (f sl) eqn:E.
  - rewrite decide_True by reflexivity. cbn [length]. lia.
  - rewrite decide_False by discriminate. lia.
Qed.

Lemma scan_resources_result node vdev slots :
  forall tr ti s todo s',
    scan_resources node vdev slots tr ti s = (Ret todo, s') ->
    mmio (mach s') = mmio (mach s) ++ flat_map (mmio_of node) slots /\
    devices (mach s') = devices (mach s) /\
    u32 (fst todo) = u32 (tr - count_of counts_mem slots) /\
    u32 (snd todo) = u32 (ti - count_of counts_irq slots).
Proof.
  induction slots as [|sl rest IH]; intros tr ti s todo s' H.
  - cbn [scan_resources] in H. apply ret_Ret in H as [-> ->].
    cbn [flat_map fst snd]. rewrite app_nil_r.
    unfold count_of. cbn. rewrite !Z.sub_0_r. repeat split.
  - cbn [scan_resources] in H. rewrite !count_of_cons.
    cbn [flat_map]. unfold mmio_of at 1, counts_mem at 1, counts_irq at 1.
    bind_inv H as s1 H1. apply chksys_Ret in H1 as [-> _].
    destruct (res_type (slot_res sl)).
    + apply IH in H as (Hm & Hd & Hr & Hi).
      cbn [app]. rewrite !Z.add_0_l. repeat split; assumption.
    + destruct (unrecognised str_irq (res_id (slot_res sl))); cbn [negb].
      * bind_inv H as s2 H2. apply printf_Ret in H2 as ->.
        apply IH in H as (Hm & Hd & Hr & Hi).
        cbn [app mach] in *. rewrite !Z.add_0_l. repeat split; assumption.
      * bind_inv H as s2 H2.
        assert (s2 = s) as ->.
        { destruct (ti <=? Z.of_nat (resid_of (res_id (slot_res sl)))).
          - bind_inv H2 as s3 H3.
            unfold chksys in H2. change (- L4_ENOMEM <? 0) with true in H2.
            discriminate H2.
          - apply ret_Ret in H2 as [_ ->]. reflexivity. }
        bind_inv H as s3 H3.
        assert (mmio (mach s3) = mmio (mach s) /\ devices (mach s3) = devices (mach s))
          as [Hm3 Hd3].
        { destruct (it_ic _) as [ic|].
          - destruct (bind_irq_untouched ic
                        (u32 (it_irq (advance (resid_of (res_id (slot_res sl)))
                                              (Irq_dt_iterator_new node))))
                        (u32 (res_start (slot_res sl))) (get_name node) s)
              as (_ & Hm & _ & _ & Hd & _).
            rewrite H3 in Hm, Hd. split; assumption.
          - apply ret_Ret in H3 as [_ ->]. split; reflexivity. }
        bind_inv H as s4 H4. apply printf_Ret in H4 as ->.
        apply IH in H as (Hm & Hd & Hr & Hi). cbn [mach] in *.
        rewrite Hm, Hd, Hm3, Hd3, Hr, Hi, u32_sub_l, Z.add_0_l, app_nil_l.
        repeat split; f_equal; lia.
    + destruct (unrecognised str_reg (res_id (slot_res sl))); cbn [negb].
      * bind_inv H as s2 H2. apply printf_Ret in H2 as ->.
        apply IH in H as (Hm & Hd & Hr & Hi).
        cbn [app mach] in *. rewrite !Z.add_0_l. repeat split; assumption.
      * bind_inv H as s2 H2. apply chksys_Ret in H2 as [-> _].
        bind_inv H as s2 H2.
        assert (s2 = s) as ->.
        { destruct (negb _).
          - unfold chksys in H2. change (- L4_ENOMEM <? 0) with true in H2.
            discriminate H2.
          - apply ret_Ret in H2 as [_ ->]. reflexivity. }
        bind_inv H as s3 H3. apply printf_Ret in H3 as ->.
        bind_inv H as s4 H4.
        unfold add_mmio_device, modify in H4. inversion H4; subst s4. clear H4.
        apply IH in H as (Hm & Hd & Hr & Hi). cbn [mach mmio devices with_mmio] in *.
        rewrite Hm, Hd, Hr, Hi, u32_sub_l, Z.add_0_l, <- app_assoc.
        repeat split; f_equal; lia.
    + apply IH in H as (Hm & Hd & Hr & Hi).
      cbn [app]. rewrite !Z.add_0_l. repeat split; assumption.
    + apply IH in H as (Hm & Hd & Hr & Hi).
      cbn [app]. rewrite !Z.add_0_l. repeat split; assumption.
    + apply IH in H as (Hm & Hd & Hr & Hi).
      cbn [app]. rewrite !Z.add_0_l. repeat split; assumption.
    + apply IH in H as (Hm & Hd & Hr & Hi).
      cbn [app]. rewrite !Z.add_0_l. repeat split; assumption.
Qed.

(** *** The lookup of a device *)

Lemma find_from_Some hid k l i d :
  find_from hid k l = Some (i, d) ->
  (k <= i)%nat /\ l !! (i - k)%nat = Some d /\ dev_hid d = hid /\ dev_proxy d = false.
Proof.
  revert k. induction l as [|a l IH]; intros k H; [discriminate H|].
  cbn [find_from] in H.
  destruct (String.eqb (dev_hid a) hid && negb (dev_proxy a)) eqn:E.
  - inversion H; subst i d. apply andb_true_iff in E as [E1 E2].
    apply String.eqb_eq in E1. apply negb_true_iff in E2.
    rewrite Nat.sub_diag. repeat split; auto.
  - apply IH in H as (Hk & Hl & Hh & Hp).
    replace (i - k)%nat with (S (i - S k)) by lia.
    repeat split; auto. lia.
Qed.

Lemma find_from_None hid k l :
  (forall d, In d l -> dev_hid d = hid -> dev_proxy d = true) ->
  find_from hid k l = None.
Proof.
  revert k. induction l as [|a l IH]; intros k H; [reflexivity|].
  cbn [find_from].
  destruct (String.eqb (dev_hid a) hid) eqn:E.
  - apply String.eqb_eq in E. rewrite (H a (or_introl eq_refl) E). cbn [negb andb].
    apply IH. intros d Hd. apply H. right. exact Hd.
  - cbn [andb]. apply IH. intros d Hd. apply H. right. exact Hd.
Qed.

(** X7.  When the bus has no device with the hardware id asked for, or
    every such device is already claimed by a proxy, [create_from_vbus_dev]
    returns no device, does not raise, changes nothing in the machine and
    writes one warning; the node is not even read. *)
Theorem create_from_vbus_dev_unavailable node hid s :
  (forall d, In d (devices (mach s)) -> dev_hid d = hid -> dev_proxy d = true) ->
  create_from_vbus_dev node hid s
  = (Ret None, mk_state (mach s) (phys_dev_prepared s)
                        (out s ++ [diag_not_available node hid])).
Proof.
  intros H. unfold create_from_vbus_dev, find_unassigned_device_by_hid.
  unfold bind at 1. unfold gets. rewrite (find_from_None hid 0%nat _ H). reflexivity.
Qed.

(** *** What a created proxy stands for *)

Lemma create_from_vbus_dev_Some node hid s d s' :
  create_from_vbus_dev node hid s = (Ret (Some d), s') ->
  exists i vdev tr0 ti0 todo s1,
    find_from hid 0%nat (devices (mach s)) = Some (i, vdev) /\
    d = Io_proxy (Some i) /\
    num_reg_entries node s = (Ret tr0, s) /\ 0 <= tr0 /\
    num_interrupts node s = (Ret ti0, s) /\ 0 <= ti0 /\
    scan_resources node vdev (dev_slots vdev) tr0 ti0 s = (Ret todo, s1) /\
    fst todo = 0 /\ snd todo = 0 /\
    mach s' = with_devices (<[i := mk_dev (dev_hid vdev) (dev_name vdev)
                                          (dev_slots vdev) true]> (devices (mach s1)))
                           (mach s1).
Proof.
  intros H. unfold create_from_vbus_dev, find_unassigned_device_by_hid in H.
  bind_inv H as s0 Hg. unfold gets in Hg. inversion Hg; subst u s0. clear Hg.
  destruct (find_from hid 0%nat (devices (mach s))) as [[i vdev]|] eqn:Hfind.
  2:{ bind_inv H as s0 Hg. apply ret_Ret in H as [E _]. discriminate E. }
  bind_inv H as s0 Hregs.
  destruct (num_reg_entries_run node s) as [(tr0 & Er & Htr)|(e & Er)];
    rewrite Er in Hregs; inversion Hregs; subst u s0. clear Hregs.
  bind_inv H as s0 Hirqs.
  destruct (num_interrupts_run node s) as [(ti0 & Ei & Hti)|(e & Ei)];
    rewrite Ei in Hirqs; inversion Hirqs; subst u s0. clear Hirqs.
  bind_inv H as s1 Hscan. rename u into todo.
  pose proof (ensures_scan_resources node vdev (dev_slots vdev) tr0 ti0 Htr Hti s) as Hnn.
  rewrite Hscan in Hnn. cbn [fst] in Hnn. destruct Hnn as [Hn1 Hn2].
  bind_inv H as s2 H2.
  destruct (0 <? fst todo) eqn:E1.
  { bind_inv H2 as s3 H3. unfold chksys in H2.
    change (- L4_EINVAL <? 0) with true in H2. discriminate H2. }
  apply ret_Ret in H2 as [_ ->].
  bind_inv H as s2 H2.
  destruct (0 <? snd todo) eqn:E2.
  { bind_inv H2 as s3 H3. unfold chksys in H2.
    change (- L4_EINVAL <? 0) with true in H2. discriminate H2. }
  apply ret_Ret in H2 as [_ ->].
  bind_inv H as s2 H2. apply ret_Ret in H as [E ->]. inversion E; subst d.
  apply Z.ltb_ge in E1, E2.
  exists i, vdev, tr0, ti0, todo, s1.
  repeat split; try assumption; try lia.
  unfold set_proxy, modify in H2. inversion H2. cbn [mach].
  destruct (scan_resources_result node vdev (dev_slots vdev) tr0 ti0 s todo s1 Hscan)
    as (_ & Hd & _).
  destruct (find_from_Some hid 0%nat _ i vdev Hfind) as (_ & Hl & _).
  rewrite Nat.sub_0_r in Hl. rewrite Hd, Hl. reflexivity.
Qed.

(** X8.  When [create_from_vbus_dev] returns a proxy, the regions of the
    guest are those from before followed by one region for each memory
    resource of the device with a recognised name, in the order of the
    resources: at the address and with the size of the reg entry the digit
    selects, over the offset [res.start].  Nothing else is registered. *)
Theorem create_from_vbus_dev_regions node hid s d s' :
  create_from_vbus_dev node hid s = (Ret (Some d), s') ->
  exists i vdev,
    find_from hid 0%nat (devices (mach s)) = Some (i, vdev) /\
    d = Io_proxy (Some i) /\
    mmio (mach s') = mmio (mach s) ++ flat_map (mmio_of node) (dev_slots vdev).
Proof.
  intros H.
  destruct (create_from_vbus_dev_Some node hid s d s' H)
    as (i & vdev & tr0 & ti0 & todo & s1 & Hfind & Hd & _ & _ & _ & _ & Hscan & _ & _ & Hm).
  exists i, vdev. repeat split; try assumption.
  rewrite Hm. cbn [mmio with_devices].
  apply (scan_resources_result node vdev (dev_slots vdev) tr0 ti0 s todo s1 Hscan).
Qed.

Lemma u32_zero_small x : u32 x = 0 -> - 2 ^ 32 < x < 2 ^ 32 -> x = 0.
Proof.
  unfold u32. intros H Hx.
  apply Z.mod_divide in H; [|discriminate]. destruct H as [q Hq]. lia.
Qed.

(** X9.  A proxy is returned only when the counts agree: the number of reg
    entries [num_reg_entries] found equals the number of memory resources
    with a recognised name, and the number of interrupt entries equals the
    number of interrupt resources with a recognised name (both counted
    modulo 2^32, hence exactly when the device has fewer than 2^32
    resources and the node fewer than 2^32 entries). *)
Theorem create_from_vbus_dev_counts node hid s d s' :
  create_from_vbus_dev node hid s = (Ret (Some d), s') ->
  exists i vdev tr0 ti0,
    find_from hid 0%nat (devices (mach s)) = Some (i, vdev) /\
    num_reg_entries node s = (Ret tr0, s) /\
    num_interrupts node s = (Ret ti0, s) /\
    u32 (tr0 - count_of counts_mem (dev_slots vdev)) = 0 /\
    u32 (ti0 - count_of counts_irq (dev_slots vdev)) = 0 /\
    (tr0 < 2 ^ 32 -> ti0 < 2 ^ 32 -> Z.of_nat (length (dev_slots vdev)) < 2 ^ 32 ->
     tr0 = count_of counts_mem (dev_slots vdev) /\
     ti0 = count_of counts_irq (dev_slots vdev)).
Proof.
  intros H.
  destruct (create_from_vbus_dev_Some node hid s d s' H)
    as (i & vdev & tr0 & ti0 & todo & s1 & Hfind & Hd & Hr & Htr & Hi & Hti & Hscan
        & H1 & H2 & Hm).
  destruct (scan_resources_result node vdev (dev_slots vdev) tr0 ti0 s todo s1 Hscan)
    as (_ & _ & Hcr & Hci).
  rewrite H1 in Hcr. rewrite H2 in Hci. change (u32 0) with 0 in Hcr, Hci.
  symmetry in Hcr, Hci.
  exists i, vdev, tr0, ti0. repeat split; auto.
  - assert (0 <= count_of counts_mem (dev_slots vdev) <= Z.of_nat (length (dev_slots vdev))).
    { unfold count_of. pose proof (length_filter (fun sl => counts_mem sl = true)
                                     (dev_slots vdev)). lia. }
    apply u32_zero_small in Hcr; lia.
  - assert (0 <= count_of counts_irq (dev_slots vdev) <= Z.of_nat (length (dev_slots vdev))).
    { unfold count_of. pose proof (length_filter (fun sl => counts_irq sl = true)
                                     (dev_slots vdev)). lia. }
    apply u32_zero_small in Hci; lia.
Qed.

(** *** A device of the bus has one proxy at most *)

Lemma claims_kept_devices s s' :
  devices (mach s') = devices (mach s) -> claims_kept s s'.
Proof. intros E i. unfold claimed. rewrite E. auto. Qed.

Lemma claims_kept_set_proxy j : respects claims_kept (set_proxy j).
Proof.
  intros s i [d [Hd Hp]]. unfold claimed, set_proxy, modify. cbn [snd mach].
  destruct (devices (mach s) !! j) as [dj|] eqn:Hj; [|exists d; split; assumption].
  cbn [devices with_devices].
  destruct (decide (j = i)) as [->|Hne].
  - exists (mk_dev (dev_hid dj) (dev_name dj) (dev_slots dj) true). split; [|reflexivity].
    apply list_lookup_insert_eq. apply lookup_lt_Some in Hj. exact Hj.
  - exists d. split; [|exact Hp]. rewrite list_lookup_insert_ne by exact Hne. exact Hd.
Qed.

Lemma create_keeps_claims node : respects claims_kept (create node).
Proof.
  apply keeps_create.
  - intros s i H. exact H.
  - intros a b c H1 H2 i H. apply H2, H1, H.
  - intros s d. apply claims_kept_devices. reflexivity.
  - intros ic dt_irq io_irq dev s. apply claims_kept_devices.
    apply (bind_irq_untouched ic dt_irq io_irq dev s).
  - intros irq s. apply claims_kept_devices. reflexivity.
  - intros d s. apply claims_kept_devices. reflexivity.
  - apply claims_kept_set_proxy.
Qed.

(** X10.  A device of the bus gets one proxy at most.  The device a
    returned proxy stands for was not claimed before the call and is
    claimed after it; a claimed device stays claimed through every later
    call of [create], on either path and in any outcome; and
    [create_from_vbus_dev] never returns a proxy for a device that is
    claimed. *)
Theorem device_claimed_once :
  (forall node hid s d s',
     create_from_vbus_dev node hid s = (Ret (Some d), s') ->
     exists i, d = Io_proxy (Some i) /\ ~ claimed (mach s) i /\ claimed (mach s') i) /\
  (forall node s i, claimed (mach s) i -> claimed (mach (snd (create node s))) i) /\
  (forall node hid s i,
     claimed (mach s) i ->
     fst (create_from_vbus_dev node hid s) <> Ret (Some (Io_proxy (Some i)))).
Proof.
  assert (Hfirst : forall node hid s d s',
            create_from_vbus_dev node hid s = (Ret (Some d), s') ->
            exists i, d = Io_proxy (Some i) /\ ~ claimed (mach s) i /\ claimed (mach s') i).
  { intros node hid s d s' H.
    destruct (create_from_vbus_dev_Some node hid s d s' H)
      as (i & vdev & tr0 & ti0 & todo & s1 & Hfind & Hd & _ & _ & _ & _ & Hscan & _ & _ & Hm).
    destruct (find_from_Some hid 0%nat _ i vdev Hfind) as (_ & Hl & _ & Hp).
    rewrite Nat.sub_0_r in Hl.
    exists i. split; [exact Hd|]. split.
    - intros [d' [Hd' Hp']]. rewrite Hl in Hd'. inversion Hd'; subst d'. congruence.
    - unfold claimed. rewrite Hm. cbn [devices with_devices].
      exists (mk_dev (dev_hid vdev) (dev_name vdev) (dev_slots vdev) true).
      split; [|reflexivity].
      destruct (scan_resources_result node vdev (dev_slots vdev) tr0 ti0 s todo s1 Hscan)
        as (_ & Hdev & _).
      rewrite Hdev. apply list_lookup_insert_eq. apply lookup_lt_Some in Hl. exact Hl. }
  split; [exact Hfirst|]. split.
  - intros node s i H. apply create_keeps_claims, H.
  - intros node hid s i Hc Hrun.
    destruct (create_from_vbus_dev node hid s) as [r s'] eqn:E. cbn [fst] in Hrun. subst r.
    destruct (Hfirst node hid s _ s' E) as (j & Hj & Hn & _).
    inversion Hj; subst j. contradiction.
Qed.

(** *** Which line an interrupt resource is bound to *)

(** X11.  An interrupt resource named [irq<k+1>], with [k+1] below the
    number of interrupt entries still expected, is matched with entry [k]
    of the node, the entry the iterator holds after [k+1] calls of [next],
    when the entries up to it resolve.  When that entry goes to a virtual
    controller, [bind_irq] is called for the line of the entry and the
    physical line [res.start], both converted to [unsigned]; when it does
    not, no line is bound.  In both cases the loop goes on with one
    interrupt entry less to match. *)
Theorem named_irq_resource node vdev sl rest tr ti s k e :
  0 <= slot_ret sl ->
  res_type (slot_res sl) = L4VBUS_RESOURCE_IRQ ->
  unrecognised str_irq (res_id (slot_res sl)) = false ->
  resid_of (res_id (slot_res sl)) = S k ->
  Z.of_nat (S k) < ti ->
  interrupts node !! k = Some e ->
  (forall j e', (j <= k)%nat -> interrupts node !! j = Some e' -> 0 <= ie_ret e') ->
  scan_resources node vdev (sl :: rest) tr ti s =
    (match ie_ic e with
     | Some ic =>
         bind_irq ic (u32 (ie_irq e)) (u32 (res_start (slot_res sl))) (get_name node)
     | None => ret tt
     end;;
     printf Trace "Registering IRQ resource %s.%.4s : 0x%lx"
            [S_ (dev_name vdev); X_ (res_id (slot_res sl)); X_ (res_start (slot_res sl))];;
     scan_resources node vdev rest tr (u32 (ti - 1))) s.
Proof.
  intros Hslot Htype Hname Hid Hlt Hk Hres.
  destruct (advance_loads node k e Hk Hres) as [Eic Eirq].
  cbn [scan_resources]. rewrite Htype, Hname, Hid.
  unfold chksys at 1. apply Z.ltb_ge in Hslot. rewrite Hslot.
  unfold bind at 1. unfold ret at 1.
  replace (ti <=? Z.of_nat (S k)) with false by (symmetry; apply Z.leb_gt; lia).
  unfold bind at 1. unfold ret at 1.
  rewrite Eic, Eirq. reflexivity.
Qed.

(** *** The handshake of the OP-TEE device, step by step *)

Ltac optee_unfold :=
  unfold handshake_ok, uid_ok, revision_ok, exports_ok, shm_config_ok, map_optee_memory,
    optee_mapped, optee_region, diag_optee_start, diag_optee_api, warned;
  change 0xbf00ff03 with Smc_call_trusted_os_revision;
  change 0xb2000009 with Optee_call_exchange_caps;
  change 0xb2000007 with Optee_call_get_shm_config.

(** X12.  [map_optee_memory] decides by four checks on the answers of the
    service, and the first check that fails decides alone, whatever the
    later answers are: the identifier ([-L4_ENODEV]), the version of the
    interface ([-L4_EINVAL], the warning shows the version found), the
    export of shared memory ([-L4_ENODEV]), the configuration of that
    memory ([-L4_ENODEV]).  A failure leaves the machine as it is and
    writes one warning.  When all four pass it returns [L4_EOK] and
    registers exactly one region, the one the service reports: from its
    start [p1] to [p1 + p2 - 1] as computed in [l4_umword_t], with the size
    [p2] and the start as offset. *)
Theorem map_optee_memory_result optee iods s :
  (uid_ok optee = false ->
   map_optee_memory optee iods s
   = (Ret (- L4_ENODEV), warned s (Diag Warn "OP-TEE not running." []))) /\
  (uid_ok optee = true -> revision_ok optee = false ->
   map_optee_memory optee iods s = (Ret (- L4_EINVAL), warned s (diag_optee_api optee))) /\
  (uid_ok optee = true -> revision_ok optee = true -> exports_ok optee = false ->
   map_optee_memory optee iods s
   = (Ret (- L4_ENODEV), warned s (Diag Warn "OP-TEE does not export shared memory." []))) /\
  (uid_ok optee = true -> revision_ok optee = true -> exports_ok optee = true ->
   shm_config_ok optee = false ->
   map_optee_memory optee iods s
   = (Ret (- L4_ENODEV),
      warned s (Diag Warn "Failed to get shared memory configuration." []))) /\
  (handshake_ok optee = true ->
   map_optee_memory optee iods s = (Ret L4_EOK, optee_mapped optee s)).
Proof.
  optee_unfold.
  destruct (fast_call optee Smc_call_trusted_os_uid) as [r1 [[[a0 a1] a2] a3]].
  destruct (fast_call optee Smc_call_trusted_os_revision) as [r2 [[[b0 b1] b2] b3]].
  destruct (fast_call optee Optee_call_exchange_caps) as [r3 [[[c0 c1] c2] c3]].
  destruct (fast_call optee Optee_call_get_shm_config) as [r4 [[[d0 d1] d2] d3]].
  destruct ((r1 <? 0) || negb (a0 =? Optee_uuid_word0) || negb (a1 =? Optee_uuid_word1)
            || negb (a2 =? Optee_uuid_word2) || negb (a3 =? Optee_uuid_word3));
    cbn [negb andb].
  { repeat split; intros; try discriminate; reflexivity. }
  destruct ((r2 <? 0) || negb (b0 =? Optee_api_major) || negb (b1 =? Optee_api_minor));
    cbn [negb andb].
  { repeat split; intros; try discriminate; reflexivity. }
  destruct ((r3 <? 0) || negb (c0 =? 0) || (Z.land c1 1 =? 0)); cbn [negb andb].
  { repeat split; intros; try discriminate; reflexivity. }
  destruct ((r4 <? 0) || negb (d0 =? 0)); cbn [negb andb].
  { repeat split; intros; try discriminate; reflexivity. }
  repeat split; intros; try discriminate; reflexivity.
Qed.

Lemma map_optee_memory_ok optee iods s :
  handshake_ok optee = true ->
  map_optee_memory optee iods s = (Ret L4_EOK, optee_mapped optee s).
Proof.
  optee_unfold.
  destruct (fast_call optee Smc_call_trusted_os_uid) as [r1 [[[a0 a1] a2] a3]].
  destruct (fast_call optee Smc_call_trusted_os_revision) as [r2 [[[b0 b1] b2] b3]].
  destruct (fast_call optee Optee_call_exchange_caps) as [r3 [[[c0 c1] c2] c3]].
  destruct (fast_call optee Optee_call_get_shm_config) as [r4 [[[d0 d1] d2] d3]].
  intros H. apply andb_prop in H as [H H4]. apply andb_prop in H as [H H3].
  apply andb_prop in H as [H1 H2].
  apply negb_true_iff in H1, H2, H3, H4. rewrite H1, H2, H3, H4. reflexivity.
Qed.

Section Optee_after_handshake.

Variables (node : Dt_node) (optee : Arm_smccc) (iods : nat) (s : state).
Hypothesis Hcap : prop_cap node = Some optee.
Hypothesis Hds : prop_dscap node = Some iods.
Hypothesis Hok : handshake_ok optee = true.

Lemma Optee_create_mapped :
  Optee_create node s =
    (let '(ret_, it) := it_next (Irq_dt_iterator_new node) in
     (if 0 <=? ret_ then
        if smc_is_icu optee then
          (if negb (ic_is_virt it)
           then chksys (- L4_EINVAL) "OP-TEE device requires a virtual interrupt controller"
           else ret tt);;
          let* irq_svr := make_Irq_svr 0 in
          let* valid := register_irq_obj irq_svr in
          chkcap valid "Register IRQ handling server.";;
          chksys (smc_icu_bind_ret optee) "Bind to IRQ to OP-TEE service.";;
          let dt_irq := it_irq it in
          match it_ic it with
          | Some ic =>
              set_sink irq_svr ic dt_irq;;
              bind_irq_source ic dt_irq (Src_irq_svr irq_svr)
          | None => ret tt
          end
        else printf Warn "SMC device does not support notification interrupts." []
      else ret tt);;
     register_smc_handler Optee;;
     ret (Some Optee)) (optee_mapped optee (warned s diag_create_optee)).
Proof.
  unfold Optee_create. rewrite Hcap, Hds.
  unfold bind at 1. unfold printf at 1.
  unfold bind at 1. rewrite (map_optee_memory_ok optee iods _ Hok).
  change (L4_EOK <? 0) with false. cbv beta iota. reflexivity.
Qed.

(** X14.  After a handshake that passed, a node whose first interrupt
    entry does not resolve (or that has none), and a capability that is no
    interrupt controller, both give the device without notification: the
    region and the handler of secure monitor calls are registered, no
    endpoint is allocated, no line gets a source; in the second case a
    warning says so. *)
Theorem Optee_create_without_notification :
  (fst (it_next (Irq_dt_iterator_new node)) < 0 ->
   Optee_create node s
   = (Ret (Some Optee), with_handler (optee_mapped optee (warned s diag_create_optee)))) /\
  (0 <= fst (it_next (Irq_dt_iterator_new node)) -> smc_is_icu optee = false ->
   Optee_create node s
   = (Ret (Some Optee),
      with_handler (warned (optee_mapped optee (warned s diag_create_optee))
                           diag_no_notification))).
Proof.
  rewrite Optee_create_mapped.
  destruct (it_next (Irq_dt_iterator_new node)) as [r it]. cbn [fst]. split.
  - intros Hneg. replace (0 <=? r) with false by (symmetry; apply Z.leb_gt; lia).
    reflexivity.
  - intros Hnn Hicu. replace (0 <=? r) with true by (symmetry; apply Z.leb_le; lia).
    rewrite Hicu. reflexivity.
Qed.

(** X15.  After a handshake that passed, with a capability that is an
    interrupt controller and a first interrupt entry that resolves:
    when the entry does not go to a virtual controller, [create] raises
    [-L4_EINVAL], the region of the service staying registered; when it
    does, and the registry and the service accept the endpoint, a new
    endpoint over line 0 becomes the source of the line of the entry,
    whatever source that line had before, and the device is returned. *)
Theorem Optee_create_with_notification e rest :
  interrupts node = e :: rest ->
  0 <= ie_ret e ->
  smc_is_icu optee = true ->
  (ie_ic e = None ->
   Optee_create node s
   = (Throw (Err_ (- L4_EINVAL) msg_optee_virt),
      optee_mapped optee (warned s diag_create_optee))) /\
  (forall ic,
     ie_ic e = Some ic ->
     register_irq_obj_valid (registry (mach s)) = true ->
     0 <= smc_icu_bind_ret optee ->
     let m := mach (optee_mapped optee (warned s diag_create_optee)) in
     let p := length (heap m) in
     Optee_create node s
     = (Ret (Some Optee),
        mk_state
          (with_smc_handlers (smc_handlers m ++ [Optee])
             (with_irq_sources (<[(ic, ie_irq e) := Src_irq_svr p]> (irq_sources m))
                (with_registry (registry m ++ [p])
                   (with_heap (heap m ++ [mk_Irq_svr 0 (Some (ic, ie_irq e))]) m))))
          (phys_dev_prepared s)
          (out (optee_mapped optee (warned s diag_create_optee))))).
Proof.
  intros Hints Hret Hicu.
  rewrite Optee_create_mapped. unfold Irq_dt_iterator_new, it_next. rewrite Hints.
  cbn [it_left].
  replace (ie_ret e <? 0) with false by (symmetry; apply Z.ltb_ge; lia).
  replace (0 <=? ie_ret e) with true by (symmetry; apply Z.leb_le; lia).
  rewrite Hicu. unfold ic_is_virt. cbn [it_ic it_irq]. split.
  - intros Hic. rewrite Hic. cbn [negb].
    unfold bind, chksys. change (- L4_EINVAL <? 0) with true. reflexivity.
  - intros ic Hic Hreg Hbind. rewrite Hic. cbn [negb].
    unfold make_Irq_svr, register_irq_obj, set_sink, bind_irq_source, register_smc_handler.
    unfold optee_mapped, warned.
    msimpl. rewrite Hreg. msimpl.
    replace (smc_icu_bind_ret optee <? 0) with false by (symmetry; apply Z.ltb_ge; lia).
    msimpl. rewrite lookup_snoc_new. msimpl. rewrite insert_snoc_new. reflexivity.
Qed.

End Optee_after_handshake.

End Io_proxy.


(** ** The device tree of the host (host_dt.cc) *)

(** The calls [add_source] makes, in the order it makes them. *)
Inductive host_event :=
| Hev_open (name : string) (fd : Z)
| Hev_fstat (fd : Z)
| Hev_mmap (size fd : Z) (addr : option Z)
| Hev_close (fd : Z)
| Hev_munmap (addr size : Z)
| Hev_apply_overlay (addr : Z) (name : string)
| Hev_check_tree (addr : Z)
| Hev_malloc (size : Z) (p : option Z)
| Hev_memcpy (dst src n : Z)
| Hev_add_to_size (padding : Z).

(** The calls made so far, the field [_dtmem] of the [Host_dt] (none for the
    null pointer) and the warnings written. *)
Record host := mk_host {
  calls : list host_event;
  dtmem : option Z;
  warnings : list diag
}.

(** [Mapped_file]: the fields [_size] and [_addr] (none for [MAP_FAILED]). *)
Record Mapped_file := mk_mapped { mf_size : Z; mf_addr : option Z }.

Definition called (e : host_event) (h : host) : host :=
  mk_host (calls h ++ [e]) (dtmem h) (warnings h).

(** [warn.printf]; the text of [strerror(errno)] is not kept. *)
Definition warns (f : string) (a : list arg) (h : host) : host :=
  mk_host (calls h) (dtmem h) (warnings h ++ [Diag Warn f a]).

Section Host_dt.

(** The answers of the operating system: the descriptor [open] returns,
    the return code of [fstat] and the size it reports, the address [mmap]
    returns for a size and a descriptor (none for [MAP_FAILED]), the return
    code of [munmap], the pointer [malloc] returns (none for null). *)
Variable os_open : string -> Z.
Variable os_fstat : Z -> Z * Z.
Variable os_mmap : Z -> Z -> option Z.
Variable os_munmap : Z -> Z -> Z.
Variable os_malloc : Z -> option Z.

(** What the rest of [Host_dt] and [Device_tree] (host_dt.h, device_tree.h)
    answers: [valid()], the outcome of [apply_overlay] and of [check_tree],
    and [dt.size()], for the tree at an address. *)
Variable host_valid : host -> bool.
Variable apply_overlay_ret : Z -> outcome unit.
Variable check_tree_ret : Z -> outcome unit.
Variable dt_size : Z -> Z.

(** The number of bits of [l4_size_t]. *)
Variable size_bits : Z.

(** [Mapped_file::Mapped_file(name)] *)
Definition Mapped_file_new (name : string) (h : host) : Mapped_file * host :=
  let fd := os_open name in
  let h := called (Hev_open name fd) h in
  if fd <? 0 then
    (mk_mapped 0 None, warns "Unable to open file '%s': %s" [S_ name] h)
  else
    let '(r, st_size) := os_fstat fd in
    let h := called (Hev_fstat fd) h in
    if r <? 0 then
      (mk_mapped 0 None,
       called (Hev_close fd) (warns "Unable to get size of file '%s': %s" [S_ name] h))
    else
      let addr := os_mmap st_size fd in
      let h := called (Hev_mmap st_size fd addr) h in
      let h := match addr with
               | None => warns "Unable to mmap file '%s': %s" [S_ name] h
               | Some _ => h
               end in
      (mk_mapped st_size addr, called (Hev_close fd) h).

(** [Mapped_file::~Mapped_file()] *)
Definition Mapped_file_delete (mem : Mapped_file) (h : host) : host :=
  match mf_addr mem with
  | Some addr =>
      let h := called (Hev_munmap addr (mf_size mem)) h in
      if os_munmap addr (mf_size mem) <? 0
      then warns "Unable to unmap file at addr %p: %s" [X_ addr] h
      else h
  | None => h
  end.

(** [Mapped_file::valid()] *)
Definition mf_valid (mem : Mapped_file) : bool :=
  match mf_addr mem with Some _ => true | None => false end.

(** The body of [add_source], between the construction of [mem] and its
    destruction.  [mem.valid()] is the test of [_addr] against [MAP_FAILED]
    and [mem.get()] is [_addr].  [dt.size()] is an unsigned int; the
    argument of [malloc] is computed in [l4_size_t]. *)
Definition add_source_body (fname : string) (mem : Mapped_file) (h : host)
  : outcome unit * host :=
  match mf_addr mem with
  | None => (Throw (Err_ (- L4_EINVAL) "Unable to access overlay"), h)
  | Some addr =>
      if host_valid h then
        (apply_overlay_ret addr, called (Hev_apply_overlay addr fname) h)
      else
        let h := called (Hev_check_tree addr) h in
        match check_tree_ret addr with
        | Ret _ =>
            let padding := Z.max (dt_size addr) 0x200 in
            let size := (dt_size addr + padding) mod 2 ^ size_bits in
            let p := os_malloc size in
            let h := called (Hev_malloc size p) h in
            let h := mk_host (calls h) p (warnings h) in
            match p with
            | None =>
                (Throw (Err_ (- L4_ENOMEM) "Allocating memory for temporary device tree."),
                 h)
            | Some dst =>
                (Ret tt,
                 called (Hev_add_to_size padding)
                        (called (Hev_memcpy dst addr (dt_size addr)) h))
            end
        | Throw e => (Throw e, h)
        | Diverge => (Diverge, h)
        end
  end.

(** [Vdev::Host_dt::add_source(fname)]: [mem] lives for the call and is
    destroyed when the call returns or raises. *)
Definition add_source (fname : string) (h : host) : outcome unit * host :=
  let '(mem, h1) := Mapped_file_new fname h in
  let '(r, h2) := add_source_body fname mem h1 in
  (r, Mapped_file_delete mem h2).

(** The calls by which a file is read into memory. *)
Definition reads_file (e : host_event) : bool :=
  match e with
  | Hev_open _ _ | Hev_fstat _ | Hev_mmap _ _ _ => true
  | _ => false
  end.

Definition is_munmap (e : host_event) : bool :=
  match e with Hev_munmap _ _ => true | _ => false end.

(** *** Properties of add_source *)

(** X17.  A [Mapped_file] is valid exactly when [open], [fstat] and [mmap]
    all succeeded, and then holds the size [fstat] reported and the address
    [mmap] returned.  Whenever [open] succeeded the constructor closes the
    descriptor, once and as its last call; when [open] failed it makes no
    other call.  An invalid file costs exactly one warning, a valid one
    none.  [_dtmem] is not touched. *)
Theorem Mapped_file_new_valid name h :
  (mf_valid (fst (Mapped_file_new name h)) = true <->
   0 <= os_open name /\ 0 <= fst (os_fstat (os_open name)) /\
   os_mmap (snd (os_fstat (os_open name))) (os_open name) <> None) /\
  (mf_valid (fst (Mapped_file_new name h)) = true ->
   mf_size (fst (Mapped_file_new name h)) = snd (os_fstat (os_open name)) /\
   mf_addr (fst (Mapped_file_new name h))
   = os_mmap (snd (os_fstat (os_open name))) (os_open name)) /\
  (0 <= os_open name ->
   exists evs, calls (snd (Mapped_file_new name h))
               = calls h ++ evs ++ [Hev_close (os_open name)] /\
               forallb reads_file evs = true) /\
  (os_open name < 0 ->
   calls (snd (Mapped_file_new name h)) = calls h ++ [Hev_open name (os_open name)]) /\
  length (warnings (snd (Mapped_file_new name h)))
  = (length (warnings h) + if mf_valid (fst (Mapped_file_new name h)) then 0 else 1)%nat /\
  dtmem (snd (Mapped_file_new name h)) = dtmem h.
Proof.
  unfold Mapped_file_new.
  destruct (Z.ltb_spec (os_open name) 0) as [Hfd|Hfd].
  { cbn. rewrite length_app. cbn. repeat split; try lia; try discriminate. }
  destruct (os_fstat (os_open name)) as [r st_size]. cbn [fst snd].
  destruct (Z.ltb_spec r 0) as [Hr|Hr].
  { cbn. rewrite length_app, <- !app_assoc. cbn. repeat split; try lia; try discriminate.
    intros _. exists [Hev_open name (os_open name); Hev_fstat (os_open name)].
    split; reflexivity. }
  destruct (os_mmap st_size (os_open name)) as [addr|] eqn:Hmap.
  - cbn. rewrite <- !app_assoc. cbn. repeat split; try lia; try discriminate.
    intros _.
    exists [Hev_open name (os_open name); Hev_fstat (os_open name);
            Hev_mmap st_size (os_open name) (Some addr)].
    split; reflexivity.
  - cbn. rewrite length_app, <- !app_assoc. cbn. repeat split; try lia; try discriminate.
    + intros (_ & _ & H). contradiction.
    + intros _.
      exists [Hev_open name (os_open name); Hev_fstat (os_open name);
              Hev_mmap st_size (os_open name) None].
      split; reflexivity.
Qed.

(** The calls of the destructor after [evs], none of which unmaps. *)
Lemma Mapped_file_delete_last mem addr h1 h2 evs :
  mf_addr mem = Some addr ->
  calls h2 = calls h1 ++ evs ->
  calls (Mapped_file_delete mem h2) = calls h1 ++ evs ++ [Hev_munmap addr (mf_size mem)] /\
  dtmem (Mapped_file_delete mem h2) = dtmem h2.
Proof.
  intros Haddr Hc. unfold Mapped_file_delete. rewrite Haddr.
  destruct (os_munmap addr (mf_size mem) <? 0); cbn; rewrite Hc, app_assoc; split; reflexivity.
Qed.

(** The constructor does not touch [_dtmem]. *)
Lemma Mapped_file_new_helper name h :
  dtmem (snd (Mapped_file_new name h)) = dtmem h.
Proof.
  unfold Mapped_file_new.
  destruct (os_open name <? 0); [reflexivity|].
  destruct (os_fstat (os_open name)) as [r st_size].
  destruct (r <? 0); [reflexivity|].
  destruct (os_mmap st_size (os_open name)); reflexivity.
Qed.

(** What [add_source] does with a file mapped at [addr], case by case: the
    outcome, [_dtmem] and the calls made after the constructor. *)
Lemma add_source_cases fname h addr :
  mf_addr (fst (Mapped_file_new fname h)) = Some addr ->
  exists evs,
    calls (snd (add_source fname h))
    = calls (snd (Mapped_file_new fname h)) ++ evs
      ++ [Hev_munmap addr (mf_size (fst (Mapped_file_new fname h)))] /\
    (host_valid (snd (Mapped_file_new fname h)) = true /\
     fst (add_source fname h) = apply_overlay_ret addr /\
     dtmem (snd (add_source fname h)) = dtmem (snd (Mapped_file_new fname h)) /\
     evs = [Hev_apply_overlay addr fname]
     \/
     host_valid (snd (Mapped_file_new fname h)) = false /\
     check_tree_ret addr <> Ret tt /\
     fst (add_source fname h) = check_tree_ret addr /\
     dtmem (snd (add_source fname h)) = dtmem (snd (Mapped_file_new fname h)) /\
     evs = [Hev_check_tree addr]
     \/
     host_valid (snd (Mapped_file_new fname h)) = false /\
     check_tree_ret addr = Ret tt /\
     os_malloc ((dt_size addr + Z.max (dt_size addr) 0x200) mod 2 ^ size_bits) = None /\
     fst (add_source fname h)
     = Throw (Err_ (- L4_ENOMEM) "Allocating memory for temporary device tree.") /\
     dtmem (snd (add_source fname h)) = None /\
     evs = [Hev_check_tree addr;
            Hev_malloc ((dt_size addr + Z.max (dt_size addr) 0x200) mod 2 ^ size_bits) None]
     \/
     exists dst,
       host_valid (snd (Mapped_file_new fname h)) = false /\
       check_tree_ret addr = Ret tt /\
       os_malloc ((dt_size addr + Z.max (dt_size addr) 0x200) mod 2 ^ size_bits)
       = Some dst /\
       fst (add_source fname h) = Ret tt /\
       dtmem (snd (add_source fname h)) = Some dst /\
       evs = [Hev_check_tree addr;
              Hev_malloc ((dt_size addr + Z.max (dt_size addr) 0x200) mod 2 ^ size_bits)
                         (Some dst);
              Hev_memcpy dst addr (dt_size addr);
              Hev_add_to_size (Z.max (dt_size addr) 0x200)]).
Proof.
  unfold add_source.
  destruct (Mapped_file_new fname h) as [mem h1]. cbn [fst snd]. intros Haddr.
  unfold add_source_body. rewrite Haddr.
  destruct (host_valid h1).
  { cbn [fst snd]. exists [Hev_apply_overlay addr fname].
    destruct (Mapped_file_delete_last mem addr h1 (called (Hev_apply_overlay addr fname) h1)
                [Hev_apply_overlay addr fname] Haddr eq_refl) as [Hc Hd].
    split; [exact Hc|]. left. rewrite Hd. repeat split. }
  destruct (check_tree_ret addr) as [[]|e|] eqn:Hcheck.
  - destruct (os_malloc _) as [dst|] eqn:Hm; cbn [fst snd].
    + eexists. split.
      * apply Mapped_file_delete_last; [exact Haddr|]. cbn. rewrite <- !app_assoc. reflexivity.
      * right. right. right. exists dst. repeat split.
        eapply eq_trans; [eapply Mapped_file_delete_last; [exact Haddr|reflexivity]|].
        reflexivity.
    + eexists. split.
      * apply Mapped_file_delete_last; [exact Haddr|]. cbn. rewrite <- !app_assoc. reflexivity.
      * right. right. left. repeat split.
        eapply eq_trans; [eapply Mapped_file_delete_last; [exact Haddr|reflexivity]|].
        reflexivity.
  - cbn [fst snd]. exists [Hev_check_tree addr]. split.
    + apply Mapped_file_delete_last; [exact Haddr|reflexivity].
    + right. left. repeat split; [discriminate|].
      eapply eq_trans; [eapply Mapped_file_delete_last; [exact Haddr|reflexivity]|].
      reflexivity.
  - cbn [fst snd]. exists [Hev_check_tree addr]. split.
    + apply Mapped_file_delete_last; [exact Haddr|reflexivity].
    + right. left. repeat split; [discriminate|].
      eapply eq_trans; [eapply Mapped_file_delete_last; [exact Haddr|reflexivity]|].
      reflexivity.
Qed.

(** X18.  [add_source] gives back what it maps.  In every outcome, also
    when [apply_overlay] or [check_tree] raises or the allocation fails, a
    file that was mapped is unmapped by the last call [add_source] makes, at
    the address and with the size it was mapped with, and by no call before.
    When the file could not be mapped, [add_source] raises [-L4_EINVAL]
    right after the constructor: nothing is unmapped, no tree is read,
    nothing is allocated and [_dtmem] is as before. *)
Theorem add_source_unmaps fname h :
  (forall addr, mf_addr (fst (Mapped_file_new fname h)) = Some addr ->
     exists evs,
       calls (snd (add_source fname h))
       = calls (snd (Mapped_file_new fname h)) ++ evs
         ++ [Hev_munmap addr (mf_size (fst (Mapped_file_new fname h)))] /\
       existsb is_munmap evs = false) /\
  (mf_addr (fst (Mapped_file_new fname h)) = None ->
   add_source fname h
   = (Throw (Err_ (- L4_EINVAL) "Unable to access overlay"), snd (Mapped_file_new fname h)) /\
   dtmem (snd (Mapped_file_new fname h)) = dtmem h).
Proof.
  split.
  - intros addr Haddr.
    destruct (add_source_cases fname h addr Haddr)
      as (evs & Hc & [(_ & _ & _ & ->)|[(_ & _ & _ & _ & ->)|[(_ & _ & _ & _ & _ & ->)|
                     (dst & _ & _ & _ & _ & _ & ->)]]]);
      eexists; (split; [exact Hc|reflexivity]).
  - intros Haddr. split.
    + unfold add_source. destruct (Mapped_file_new fname h) as [mem h1].
      cbn [fst snd] in *. unfold add_source_body, Mapped_file_delete.
      rewrite Haddr. reflexivity.
    + apply Mapped_file_new_helper.
Qed.

(** X19.  When [add_source] returns, the file was mapped and either the
    host had a tree, the file was applied to it as an overlay and [_dtmem]
    is as before; or the host had none, the tree in the file passed
    [check_tree], and [_dtmem] is new memory into which exactly the tree was
    copied.  Unless the sum wraps in [l4_size_t], that memory is larger than
    the tree by the size of the tree or by 0x200 bytes, whichever is more;
    the size of the tree is raised by as much. *)
Theorem add_source_returns fname h h' :
  add_source fname h = (Ret tt, h') ->
  exists addr,
    mf_addr (fst (Mapped_file_new fname h)) = Some addr /\
    (host_valid (snd (Mapped_file_new fname h)) = true /\
     apply_overlay_ret addr = Ret tt /\
     dtmem h' = dtmem h /\
     calls h' = calls (snd (Mapped_file_new fname h))
                ++ [Hev_apply_overlay addr fname;
                    Hev_munmap addr (mf_size (fst (Mapped_file_new fname h)))]
     \/
     host_valid (snd (Mapped_file_new fname h)) = false /\
     check_tree_ret addr = Ret tt /\
     exists dst size padding,
       padding = Z.max (dt_size addr) 0x200 /\
       size = (dt_size addr + padding) mod 2 ^ size_bits /\
       os_malloc size = Some dst /\
       dtmem h' = Some dst /\
       calls h' = calls (snd (Mapped_file_new fname h))
                  ++ [Hev_check_tree addr; Hev_malloc size (Some dst);
                      Hev_memcpy dst addr (dt_size addr); Hev_add_to_size padding;
                      Hev_munmap addr (mf_size (fst (Mapped_file_new fname h)))] /\
       (0 <= dt_size addr -> dt_size addr + padding < 2 ^ size_bits ->
        size = dt_size addr + padding /\ dt_size addr + 0x200 <= size /\
        2 * dt_size addr <= size)).
Proof.
  intros Hrun.
  destruct (mf_addr (fst (Mapped_file_new fname h))) as [addr|] eqn:Haddr.
  2:{ exfalso. revert Hrun. unfold add_source.
      destruct (Mapped_file_new fname h) as [mem h1]. cbn [fst snd] in *.
      unfold add_source_body. rewrite Haddr. discriminate. }
  exists addr. split; [reflexivity|].
  assert (Hfst : fst (add_source fname h) = Ret tt) by (rewrite Hrun; reflexivity).
  assert (Hsnd : snd (add_source fname h) = h') by (rewrite Hrun; reflexivity).
  destruct (add_source_cases fname h addr Haddr)
    as (evs & Hc & [(Hv & Hr & Hd & ->)|[(Hv & Hn & Hr & _)|[(_ & _ & _ & Hr & _)|
                   (dst & Hv & Hch & Hm & _ & Hd & ->)]]]).
  - left. rewrite Hsnd in *. rewrite <- Hr, Hfst.
    repeat split; [exact Hv| |exact Hc].
    rewrite Hd. apply Mapped_file_new_helper.
  - exfalso. apply Hn. rewrite <- Hr. exact Hfst.
  - rewrite Hfst in Hr. discriminate Hr.
  - right. rewrite Hsnd in *. split; [exact Hv|]. split; [exact Hch|].
    exists dst, ((dt_size addr + Z.max (dt_size addr) 0x200) mod 2 ^ size_bits),
      (Z.max (dt_size addr) 0x200).
    repeat split; try assumption.
    + apply Z.mod_small. lia.
    + rewrite Z.mod_small by lia. lia.
    + rewrite Z.mod_small by lia. lia.
Qed.

End Host_dt.

(** A host without a tree, on which the file opens as descriptor 3, has
    0x300 bytes and is mapped at 0x10000; the tree in it has 0x300 bytes and
    checks; the allocation answers 0x20000. *)
Definition sample_open : string -> Z := fun _ => 3.
Definition sample_fstat : Z -> Z * Z := fun _ => (0, 0x300).
Definition sample_mmap : Z -> Z -> option Z := fun _ _ => Some 0x10000.
Definition sample_munmap : Z -> Z -> Z := fun _ _ => 0.
Definition sample_malloc : Z -> option Z := fun _ => Some 0x20000.
Definition sample_host_valid : host -> bool :=
  fun h => match dtmem h with Some _ => true | None => false end.
Definition sample_tree_ok : Z -> outcome unit := fun _ => Ret tt.
Definition sample_dt_size : Z -> Z := fun _ => 0x300.
Definition host0 : host := mk_host [] None [].

(** ** The properties on the sample configurations *)

(** The functions of the two files with the services and constants of the
    samples. *)
Abbreviation sample_bind_irq := (bind_irq registry_always icu_accepts).
Abbreviation sample_check_regs :=
  (check_regs sample_BAD_INDEX sample_RANGE sample_NOT_TRANSLATABLE sample_region_valid).
Abbreviation sample_check_and_bind_irqs := (check_and_bind_irqs registry_always icu_accepts).
Abbreviation sample_create_from_vbus_dev :=
  (create_from_vbus_dev registry_always icu_accepts sample_BAD_INDEX 32).
Abbreviation sample_create :=
  (create registry_always icu_accepts sample_BAD_INDEX sample_RANGE
          sample_NOT_TRANSLATABLE 32 sample_region_valid).
Abbreviation sample_Optee_create := (Optee_create registry_always 32).
Abbreviation sample_scan_resources :=
  (scan_resources registry_always icu_accepts sample_BAD_INDEX 32).
Abbreviation sample_add_source :=
  (add_source sample_open sample_fstat sample_mmap sample_munmap sample_malloc
              sample_host_valid sample_tree_ok sample_tree_ok sample_dt_size 32).

(** C1, as amended, on the empty machine: line 42 of controller 0, physical
    line 5, with a controller of the bus that accepts the line and with one
    that refuses it. *)
Lemma bind_irq_idempotent_witness :
  irq_sources (mach state0) !! (0%nat, 42) = None /\
  registry_always (registry (mach state0)) = true /\
  0 <= icu_accepts (icu (mach state0)) 5 /\
  (exists s1 s2,
     sample_bind_irq 0%nat 42 5 "uart" state0 = (Ret tt, s1) /\
     sample_bind_irq 0%nat 42 5 "uart" s1 = (Ret tt, s2) /\
     mach s2 = mach s1 /\
     registry (mach s2) = [0%nat]) /\
  icu_refuses (icu (mach state0)) 5 < 0 /\
  exists s1,
    bind_irq registry_always icu_refuses 0%nat 42 5 "uart" state0
    = (Throw (Err_ (- L4_ENODEV) "Cannot bind to IRQ"), s1) /\
    irq_sources (mach s1) !! (0%nat, 42) = None.
Proof.
  assert (H1 : irq_sources (mach state0) !! (0%nat, 42) = None) by reflexivity.
  assert (H2 : registry_always (registry (mach state0)) = true) by reflexivity.
  assert (H3 : 0 <= icu_accepts (icu (mach state0)) 5) by (vm_compute; discriminate).
  assert (H4 : icu_refuses (icu (mach state0)) 5 < 0) by (vm_compute; reflexivity).
  split; [exact H1|]. split; [exact H2|]. split; [exact H3|].
  split; [|split; [exact H4|]].
  - destruct (proj1 (bind_irq_idempotent registry_always icu_accepts 0%nat 42 5 "uart"
                       "uart" state0 H1) H2 H3)
      as (s1 & s2 & R1 & R2 & _ & Hsame & Hreg & _).
    exists s1, s2. repeat split; assumption.
  - destruct (proj1 (proj2 (proj2 (bind_irq_idempotent registry_always icu_refuses 0%nat
                                     42 5 "uart" "uart" state0 H1))) H2 H4)
      as (s1 & R1 & Hsrc & _).
    exists s1. split; [exact R1|exact Hsrc].
Defined.

(** Against C1 as it is worded: on the empty machine no source is bound to
    line 42 of controller 0, and with a controller of the bus that refuses
    the line the first call raises.  So does a second, identical call; the
    two calls leave two endpoints, both registered, none of them the source
    of the line. *)
Lemma bind_irq_refused_counterexample :
  irq_sources (mach state0) !! (0%nat, 42) = None /\
  fst (bind_irq registry_always icu_refuses 0%nat 42 5 "uart" state0)
  = Throw (Err_ (- L4_ENODEV) "Cannot bind to IRQ") /\
  fst (bind_irq registry_always icu_refuses 0%nat 42 5 "uart"
         (snd (bind_irq registry_always icu_refuses 0%nat 42 5 "uart" state0)))
  = Throw (Err_ (- L4_ENODEV) "Cannot bind to IRQ") /\
  registry (mach (snd (bind_irq registry_always icu_refuses 0%nat 42 5 "uart"
                         (snd (bind_irq registry_always icu_refuses 0%nat 42 5 "uart"
                                        state0)))))
  = [0%nat; 1%nat] /\
  irq_sources (mach (snd (bind_irq registry_always icu_refuses 0%nat 42 5 "uart"
                            (snd (bind_irq registry_always icu_refuses 0%nat 42 5 "uart"
                                           state0)))))
  !! (0%nat, 42) = None.
Proof.
  repeat split; vm_compute; reflexivity.
Qed.

(** C2 on a machine where the line is bound to the physical line 5: a call
    for the physical line 6. *)
Lemma bind_irq_conflict_witness :
  irq_sources (mach state_bound) !! (0%nat, 42) = Some (Src_irq_svr 0) /\
  (forall o, as_Irq_svr (mach state_bound) (Src_irq_svr 0) = Some o -> get_io_irq o <> 6) /\
  fst (sample_bind_irq 0%nat 42 6 "uart" state_bound) = Throw (Err_ (- L4_EEXIST) "") /\
  mach (snd (sample_bind_irq 0%nat 42 6 "uart" state_bound)) = mach state_bound /\
  last (out (snd (sample_bind_irq 0%nat 42 6 "uart" state_bound)))
  = Some (diag_different_io 42 6 5).
Proof.
  assert (H1 : irq_sources (mach state_bound) !! (0%nat, 42) = Some (Src_irq_svr 0))
    by reflexivity.
  assert (H2 : forall o, as_Irq_svr (mach state_bound) (Src_irq_svr 0) = Some o ->
                         get_io_irq o <> 6).
  { intros o Ho. vm_compute in Ho. inversion Ho. vm_compute. discriminate. }
  split; [exact H1|]. split; [exact H2|].
  destruct (bind_irq_conflict registry_always icu_accepts 0%nat 42 6 "uart"
              state_bound (Src_irq_svr 0) H1 H2) as (d & Hrun & Hd & _).
  rewrite Hrun, Hd. repeat split; reflexivity.
Defined.



(** C5 on the device whose [reg0] spans 0x2000 bytes against the reg entry
    of 0x1000 bytes. *)
Lemma size_mismatch_witness :
  find_from "uart" 0%nat (devices (mach (state_with dev_large))) = Some (0%nat, dev_large) /\
  l4_addr 32 (res_end res_reg0_large - res_start res_reg0_large + 1)
    <> rv_size (get_reg_val sample_BAD_INDEX node_one_reg 0%nat) /\
  exists e s',
    sample_create_from_vbus_dev node_one_reg "uart" (state_with dev_large) = (Throw e, s') /\
    devices (mach s') = devices (mach (state_with dev_large)).
Proof.
  assert (H1 : find_from "uart" 0%nat (devices (mach (state_with dev_large)))
               = Some (0%nat, dev_large)) by reflexivity.
  assert (H2 : l4_addr 32 (res_end res_reg0_large - res_start res_reg0_large + 1)
               <> rv_size (get_reg_val sample_BAD_INDEX node_one_reg 0%nat))
    by (vm_compute; discriminate).
  split; [exact H1|]. split; [exact H2|].
  refine (proj1 (proj2 (proj2 (size_mismatch_is_fatal registry_always icu_accepts
            sample_BAD_INDEX 32
            node_one_reg "uart" (state_with dev_large) 0%nat dev_large
            [] (mk_slot 0 res_reg0_large) [] H1 eq_refl _ eq_refl eq_refl _ H2)))).
  - vm_compute. discriminate.
  - vm_compute. discriminate.
Defined.



(** C7 on the node whose entries are a valid region, an entry that is not
    translatable and an entry whose range is too large: the first two are
    passed over, the third decides. *)
Lemma check_regs_witness :
  dt_codes_distinct sample_BAD_INDEX sample_RANGE sample_NOT_TRANSLATABLE /\
  sample_check_regs node_regs state0
  = (Ret false, mk_state machine0 false [diag_too_large node_regs 2]).
Proof.
  assert (H : dt_codes_distinct sample_BAD_INDEX sample_RANGE sample_NOT_TRANSLATABLE).
  { repeat split; vm_compute; discriminate. }
  split; [exact H|].
  destruct (check_regs_outcomes sample_BAD_INDEX sample_RANGE sample_NOT_TRANSLATABLE
              sample_region_valid node_regs state0 H) as (_ & _ & Hreg).
  assert (Hpass : forall j, (j < 2)%nat ->
            reg_passes sample_NOT_TRANSLATABLE sample_region_valid (mach state0)
                       (get_reg_val sample_BAD_INDEX node_regs j) = true).
  { intros [|[|j]] Hj; [reflexivity|reflexivity|lia]. }
  destruct (Hreg eq_refl 2%nat Hpass) as (_ & _ & _ & Hrange & _).
  exact (Hrange eq_refl).
Defined.

(** C8 on the node with one line: before [prepare_factory] no device and an
    error message; [prepare_factory] sets the flag. *)
Lemma create_requires_prepare_witness :
  prop_vbus_dev node_one_line = None /\
  phys_dev_prepared state0 = false /\
  sample_create node_one_line state0
  = (Ret None, mk_state machine0 false [diag_before_prepare node_one_line]) /\
  prepare_factory sample_collect state0 = (Ret tt, mk_state machine0 true []).
Proof.
  split; [reflexivity|]. split; [reflexivity|].
  destruct (create_requires_prepare registry_always icu_accepts sample_BAD_INDEX
              sample_RANGE sample_NOT_TRANSLATABLE 32 sample_region_valid sample_collect
              node_one_line state0 eq_refl) as (Hbefore & _ & Hprepare & _).
  split; [exact (Hbefore eq_refl)|exact (Hprepare machine0 eq_refl)].
Defined.

(** C9 on the service that does not answer as OP-TEE. *)
Lemma optee_handshake_failure_witness :
  prop_cap node_optee = Some smccc_silent /\
  prop_dscap node_optee = Some 0%nat /\
  uid_ok smccc_silent = false /\
  exists d,
    sample_Optee_create node_optee state0
    = (Ret None, mk_state machine0 false [diag_create_optee; d]) /\
    lvl d = Warn.
Proof.
  split; [reflexivity|]. split; [reflexivity|]. split; [reflexivity|].
  exact (optee_handshake_failure registry_always 32 node_optee state0 smccc_silent 0%nat
           eq_refl eq_refl (or_introl eq_refl)).
Defined.

(** C10 on the node with the one line 7: the generic path binds line 7 of
    controller 0 to the physical line 7. *)
Lemma generic_path_binds_identity_witness :
  prop_vbus_dev node_one_line = None /\
  irq_sources (mach (snd (sample_create node_one_line state_prepared))) !! (0%nat, 7)
    <> irq_sources (mach state_prepared) !! (0%nat, 7) /\
  exists p o,
    irq_sources (mach (snd (sample_create node_one_line state_prepared))) !! (0%nat, 7)
      = Some (Src_irq_svr p) /\
    heap (mach (snd (sample_create node_one_line state_prepared))) !! p = Some o /\
    get_io_irq o = 7.
Proof.
  assert (H : irq_sources (mach (snd (sample_create node_one_line state_prepared)))
                !! (0%nat, 7)
              <> irq_sources (mach state_prepared) !! (0%nat, 7))
    by (vm_compute; discriminate).
  split; [reflexivity|]. split; [exact H|].
  destruct (generic_path_binds_identity registry_always icu_accepts sample_BAD_INDEX
              sample_RANGE sample_NOT_TRANSLATABLE 32 sample_region_valid
              node_one_line state_prepared 0%nat 7 eq_refl H)
    as (p & o & Hs & Hh & Hio & _).
  exists p, o. repeat split; assumption.
Defined.

(** C4.  The example of the named path, run: the proxy is created and the
    region of [reg0] is registered at the guest address 0x1000 with size
    0x1000 over the offset 0x1000, but no line is bound.  For the resource
    [irq0] the iterator is read without a call of [next]; no endpoint is
    allocated, nothing is registered with the guest or bound on the bus,
    and line 42 of the controller has no source. *)
Theorem named_path_example_run :
  fst (sample_create_from_vbus_dev node_example "uart" state_example)
  = Ret (Some (Io_proxy (Some 0%nat))) /\
  mmio (mach (snd (sample_create_from_vbus_dev node_example "uart" state_example)))
  = [mk_mmio 0x1000 0x1fff 0x1000 0x1000] /\
  irq_sources (mach (snd (sample_create_from_vbus_dev node_example "uart" state_example)))
  = ∅ /\
  heap (mach (snd (sample_create_from_vbus_dev node_example "uart" state_example))) = [] /\
  registry (mach (snd (sample_create_from_vbus_dev node_example "uart" state_example))) = [] /\
  icu (mach (snd (sample_create_from_vbus_dev node_example "uart" state_example))) = [].
Proof.
  repeat split; vm_compute; reflexivity.
Qed.

(** The same device with the resource named [irq1]: the node has one
    interrupt entry, so the index is refused. *)
Lemma named_path_irq1_run :
  fst (sample_create_from_vbus_dev node_example "uart" state_irq1)
  = Throw (Err_ (- L4_ENOMEM) msg_match_irq).
Proof. vm_compute. reflexivity. Qed.

(** With the controller of the bus refusing the line, a first call of
    [bind_irq] raises. *)
Lemma bind_irq_refused :
  fst (bind_irq registry_always icu_refuses 0%nat 42 5 "uart" state0)
  = Throw (Err_ (- L4_ENODEV) "Cannot bind to IRQ").
Proof. vm_compute. reflexivity. Qed.

(** X16 on the name [reg3]. *)
Lemma resource_names_witness :
  0 <= id_of "r" "e" "g" "3" < 2 ^ 32 /\
  unrecognised str_reg (id_of "r" "e" "g" "3") = false /\
  unrecognised str_irq (id_of "r" "e" "g" "3") <> false /\
  resid_of (id_of "r" "e" "g" "3") = 3%nat.
Proof.
  assert (H : 0 <= id_of "r" "e" "g" "3" < 2 ^ 32) by (vm_compute; split; [discriminate|reflexivity]).
  destruct (resource_names (id_of "r" "e" "g" "3") H) as (Hreg & Hirq & Hid).
  split; [exact H|]. split; [|split].
  - apply Hreg. exists 3%nat. split; [lia|reflexivity].
  - intros Hn. apply Hirq in Hn as (k & _ & Hk). revert Hk.
    do 10 (destruct k as [|k]; [vm_compute; discriminate|]).
    unfold name_id. vm_compute (id_of _ _ _ _). vm_compute (chr _). lia.
  - apply (Hid (chr "r") (chr "e") (chr "g") 3%nat); try (vm_compute; split; [discriminate|reflexivity]).
    lia.
Defined.

(** X1 on the node whose second reg entry is not translatable: the count
    stops there with [-L4_EINVAL]. *)
Lemma num_reg_entries_counts_witness :
  0 < sample_BAD_INDEX /\
  regs node_regs = [mk_reg 0 0x2000 0x1000]
                   ++ [mk_reg (- sample_NOT_TRANSLATABLE) 0 0; mk_reg (- sample_RANGE) 0 0] /\
  num_reg_entries sample_BAD_INDEX node_regs state0
  = (Throw (Err_ (- L4_EINVAL) msg_check_reg), state0).
Proof.
  assert (H : 0 < sample_BAD_INDEX) by reflexivity.
  split; [exact H|]. split; [reflexivity|].
  refine (proj2 (proj2 (proj2 (num_reg_entries_counts sample_BAD_INDEX node_regs state0
            [mk_reg 0 0x2000 0x1000]
            [mk_reg (- sample_NOT_TRANSLATABLE) 0 0; mk_reg (- sample_RANGE) 0 0]
            H eq_refl _) eq_refl))
            (mk_reg (- sample_NOT_TRANSLATABLE) 0 0) [mk_reg (- sample_RANGE) 0 0]
            eq_refl _ _).
  - intros v [<-|[]]. vm_compute. discriminate.
  - vm_compute. reflexivity.
  - vm_compute. discriminate.
Defined.

(** X2 on the node with two lines. *)
Lemma num_interrupts_counts_witness :
  interrupts node_two_lines = interrupts node_two_lines ++ [] /\
  num_interrupts node_two_lines state0 = (Ret 2, state0).
Proof.
  split; [reflexivity|].
  refine (proj1 (proj2 (num_interrupts_counts node_two_lines state0
            (interrupts node_two_lines) [] eq_refl _) eq_refl) eq_refl).
  intros e [<-|[<-|[]]]; vm_compute; discriminate.
Defined.

(** X5 on the node with the one line 7. *)
Lemma generic_create_frame_witness :
  prop_vbus_dev node_one_line = None /\
  mmio (mach (snd (sample_create node_one_line state_prepared))) = [] /\
  devices (mach (snd (sample_create node_one_line state_prepared))) = [].
Proof.
  split; [reflexivity|].
  destruct (generic_create_frame registry_always icu_accepts sample_BAD_INDEX
              sample_RANGE sample_NOT_TRANSLATABLE 32 sample_region_valid
              node_one_line state_prepared eq_refl) as (Hm & Hd & _).
  split; [exact Hm|exact Hd].
Defined.


(** X7 on a bus without devices. *)
Lemma create_from_vbus_dev_unavailable_witness :
  devices (mach state0) = [] /\
  sample_create_from_vbus_dev node_example "uart" state0
  = (Ret None, mk_state machine0 false [diag_not_available node_example "uart"]).
Proof.
  split; [reflexivity|].
  apply (create_from_vbus_dev_unavailable registry_always icu_accepts sample_BAD_INDEX 32
           node_example "uart" state0).
  intros d [].
Defined.

(** X8 on the example of the named path. *)
Lemma create_from_vbus_dev_regions_witness :
  fst (sample_create_from_vbus_dev node_example "uart" state_example)
  = Ret (Some (Io_proxy (Some 0%nat))) /\
  mmio (mach (snd (sample_create_from_vbus_dev node_example "uart" state_example)))
  = flat_map (mmio_of sample_BAD_INDEX node_example) (dev_slots dev_example).
Proof.
  split; [vm_compute; reflexivity|].
  destruct (create_from_vbus_dev_regions registry_always icu_accepts sample_BAD_INDEX 32
              node_example "uart" state_example (Io_proxy (Some 0%nat))
              (snd (sample_create_from_vbus_dev node_example "uart" state_example)))
    as (i & vdev & Hfind & _ & Hmmio).
  - vm_compute. reflexivity.
  - rewrite Hmmio. compute in Hfind. inversion Hfind. reflexivity.
Defined.

(** X9 on the example of the named path: one reg entry and one interrupt
    entry against one memory resource and one interrupt resource. *)
Lemma create_from_vbus_dev_counts_witness :
  fst (sample_create_from_vbus_dev node_example "uart" state_example)
  = Ret (Some (Io_proxy (Some 0%nat))) /\
  exists vdev,
    find_from "uart" 0%nat (devices (mach state_example)) = Some (0%nat, vdev) /\
    fst (num_reg_entries sample_BAD_INDEX node_example state_example)
    = Ret (count_of counts_mem (dev_slots vdev)) /\
    fst (num_interrupts node_example state_example)
    = Ret (count_of counts_irq (dev_slots vdev)).
Proof.
  split; [vm_compute; reflexivity|].
  destruct (create_from_vbus_dev_counts registry_always icu_accepts sample_BAD_INDEX 32
              node_example "uart" state_example (Io_proxy (Some 0%nat))
              (snd (sample_create_from_vbus_dev node_example "uart" state_example)))
    as (i & vdev & tr0 & ti0 & Hfind & Hr & Hi & _ & _ & Heq).
  - vm_compute. reflexivity.
  - exists vdev.
    assert (Hi0 : i = 0%nat) by (compute in Hfind; inversion Hfind; reflexivity).
    subst i. split; [exact Hfind|].
    assert (Htr : tr0 = 1) by (vm_compute in Hr; inversion Hr; reflexivity).
    assert (Hti : ti0 = 1) by (vm_compute in Hi; inversion Hi; reflexivity).
    assert (Hv : vdev = dev_example) by (compute in Hfind; inversion Hfind; reflexivity).
    destruct Heq as [E1 E2]; [subst tr0; reflexivity|subst ti0; reflexivity|
                              subst vdev; reflexivity|].
    rewrite Hr, Hi. cbn [fst]. split; congruence.
Defined.

(** X11 on the node with the lines 7 and 9: the resource [irq1] binds the
    physical line 5 to line 7, the entry of index 0. *)
Lemma named_irq_resource_witness :
  0 <= slot_ret (mk_slot 0 res_irq1) /\
  unrecognised str_irq (res_id res_irq1) = false /\
  resid_of (res_id res_irq1) = 1%nat /\
  sample_scan_resources node_two_lines dev_irq1 [mk_slot 0 res_irq1] 0 2 state0
  = (sample_bind_irq 0%nat (u32 7) (u32 5) "dev";;
     printf Trace "Registering IRQ resource %s.%.4s : 0x%lx"
            [S_ "uart0"; X_ (res_id res_irq1); X_ 5];;
     sample_scan_resources node_two_lines dev_irq1 [] 0 (u32 (2 - 1)))%M state0.
Proof.
  assert (H1 : 0 <= slot_ret (mk_slot 0 res_irq1)) by (vm_compute; discriminate).
  assert (H2 : unrecognised str_irq (res_id res_irq1) = false) by (vm_compute; reflexivity).
  assert (H3 : resid_of (res_id res_irq1) = 1%nat) by (vm_compute; reflexivity).
  split; [exact H1|]. split; [exact H2|]. split; [exact H3|].
  refine (named_irq_resource registry_always icu_accepts sample_BAD_INDEX 32
            node_two_lines dev_irq1 (mk_slot 0 res_irq1) [] 0 2 state0
            0%nat (mk_irq 0 (Some 0%nat) 7) H1 eq_refl H2 H3 _ eq_refl _).
  - vm_compute. reflexivity.
  - intros [|[|j]] e' Hj He'; [|lia|lia]. inversion He'. vm_compute. discriminate.
Defined.

(** X14 on the service that answers as OP-TEE and a node without an
    interrupt entry. *)
Lemma Optee_create_without_notification_witness :
  prop_cap node_optee_plain = Some smccc_optee /\
  prop_dscap node_optee_plain = Some 0%nat /\
  handshake_ok smccc_optee = true /\
  fst (it_next (Irq_dt_iterator_new node_optee_plain)) < 0 /\
  sample_Optee_create node_optee_plain state0
  = (Ret (Some Optee),
     with_handler (optee_mapped 32 smccc_optee (warned state0 diag_create_optee))).
Proof.
  assert (H : fst (it_next (Irq_dt_iterator_new node_optee_plain)) < 0)
    by (vm_compute; reflexivity).
  split; [reflexivity|]. split; [reflexivity|]. split; [vm_compute; reflexivity|].
  split; [exact H|].
  refine (proj1 (Optee_create_without_notification registry_always 32 node_optee_plain
                   smccc_optee 0%nat state0 eq_refl eq_refl _) H).
  vm_compute. reflexivity.
Defined.

(** X15 on the service that is an interrupt controller as well and a node
    with the entry of line 140: the new endpoint becomes the source of line
    140 of the controller. *)
Lemma Optee_create_with_notification_witness :
  prop_cap node_optee_irq = Some smccc_optee_icu /\
  prop_dscap node_optee_irq = Some 0%nat /\
  handshake_ok smccc_optee_icu = true /\
  smc_is_icu smccc_optee_icu = true /\
  fst (sample_Optee_create node_optee_irq state0) = Ret (Some Optee) /\
  irq_sources (mach (snd (sample_Optee_create node_optee_irq state0))) !! (0%nat, 140)
  = Some (Src_irq_svr 0) /\
  heap (mach (snd (sample_Optee_create node_optee_irq state0)))
  = [mk_Irq_svr 0 (Some (0%nat, 140))].
Proof.
  assert (Hok : handshake_ok smccc_optee_icu = true) by (vm_compute; reflexivity).
  split; [reflexivity|]. split; [reflexivity|]. split; [exact Hok|].
  split; [reflexivity|].
  assert (Hret : 0 <= ie_ret (mk_irq 0 (Some 0%nat) 140)) by (vm_compute; discriminate).
  assert (Hbind : 0 <= smc_icu_bind_ret smccc_optee_icu) by (vm_compute; discriminate).
  pose proof (proj2 (Optee_create_with_notification registry_always 32 node_optee_irq
                       smccc_optee_icu 0%nat state0 eq_refl eq_refl Hok
                       (mk_irq 0 (Some 0%nat) 140) [] eq_refl Hret eq_refl)
                0%nat eq_refl eq_refl Hbind) as Hrun.
  cbv zeta in Hrun. rewrite Hrun. cbn [fst snd mach]. repeat split.
Defined.

(** X19 on the host without a tree: the tree of 0x300 bytes is copied into
    an allocation of 0x600 bytes. *)
Lemma add_source_returns_witness :
  fst (sample_add_source "virt.dtb" host0) = Ret tt /\
  dtmem (snd (sample_add_source "virt.dtb" host0)) = Some 0x20000 /\
  In (Hev_malloc 0x600 (Some 0x20000)) (calls (snd (sample_add_source "virt.dtb" host0))) /\
  In (Hev_memcpy 0x20000 0x10000 0x300)
     (calls (snd (sample_add_source "virt.dtb" host0))).
Proof.
  split; [vm_compute; reflexivity|].
  destruct (add_source_returns sample_open sample_fstat sample_mmap sample_munmap
              sample_malloc sample_host_valid sample_tree_ok sample_tree_ok sample_dt_size
              32 "virt.dtb" host0 (snd (sample_add_source "virt.dtb" host0)))
    as (addr & Haddr & [(Hv & _)|(_ & _ & dst & size & padding & Hp & Hs & Hm & Hd & Hc & _)]).
  - vm_compute. reflexivity.
  - vm_compute in Hv. discriminate Hv.
  - assert (Ha : addr = 0x10000) by (vm_compute in Haddr; inversion Haddr; reflexivity).
    assert (Hdst : dst = 0x20000) by (unfold sample_malloc in Hm; inversion Hm; reflexivity).
    subst addr dst padding. 
    assert (Hsz : size = 0x600) by (rewrite Hs; vm_compute; reflexivity).
    subst size. split; [exact Hd|].
    rewrite Hc. split; apply in_or_app; right.
    + right. left. rewrite <- Hsz. reflexivity.
    + right. right. left. reflexivity.
Defined.
